(** * Dynamic catalogue manager: type mapper, schema builder, catalogue
      store and column matcher

    A shallow embedding of [src/database/dynamic_database.py]
    ([DynamicDatabaseManager]), of the value conversion, the header
    matching, the validation and the row loop of
    [src/utils/dynamic_excel_handler.py] ([DynamicExcelHandler]), of the
    checks of the setup wizard ([src/gui/setup_wizard.py]) and of the
    import loop of the window ([src/gui/dynamic_main_window.py]), with
    the properties of the specification and further properties of the
    code stated and proved over it.

    Conventions of the embedding.
    - Python strings are [string]s of ASCII characters; [lower], [strip]
      and the numeric literal grammars are the ASCII fragments of
      [str.lower], [str.strip], [int()] and [float()].
    - Python floats are IEEE 754 binary64 numbers, [spec_float] with
      precision 53 and maximal exponent 1024; literals are rounded to
      nearest-even as [float()] does.
    - A Python call either returns or raises: [result].
    - The database is SQLite 3.40.  A cell of the row table holds the
      value SQLite stores: the value bound to the statement, converted by
      the affinity of its column.  A key the code writes into a statement
      is read as SQLite reads it there: in the condition of a search the
      words [cast] and [raise] are a syntax error and [current_date],
      [current_time] and [current_timestamp] are the clock, not a column.
      SQLite's limits on the pattern of [LIKE] (50000 bytes), on the depth
      of an expression (1000) and on the columns of a table (2000) are
      part of the model; its configurable limit of a billion bytes on a
      statement, a value or a row is left out.
    - The interpreter's configurable cap on the length of integer
      literals ([sys.int_max_str_digits]) is left out.
    - What belongs to the collaborators of the code and is never
      inspected by it is a member of the class [Platform]: the text Python
      and SQLite print for a float, the float SQLite reads in a numeric
      text, and SQLite's verdict on a [CREATE TABLE] statement.  [Sql]
      gives that verdict for the statements of the form the schema builder
      writes. *)

From Stdlib Require Import ZArith Bool Ascii String DecimalString SpecFloat.
From stdpp Require Import base option list sorting gmap strings fin_maps.

Local Open Scope Z_scope.

(** ** ASCII strings *)

Module Str.

Definition code (c : ascii) : Z := Z.of_nat (nat_of_ascii c).

Definition is_upper (c : ascii) : bool := (65 <=? code c) && (code c <=? 90).

Definition is_digit (c : ascii) : bool := (48 <=? code c) && (code c <=? 57).

Definition digit_val (c : ascii) : Z := code c - 48.

(** Whitespace of [str.strip()]: TAB, LF, VT, FF, CR, FS, GS, RS, US
    and the space. *)
Definition is_space (c : ascii) : bool :=
  ((9 <=? code c) && (code c <=? 13)) || ((28 <=? code c) && (code c <=? 32)).

(** Whitespace skipped by [int()] and [float()] around a literal. *)
Definition is_literal_space (c : ascii) : bool :=
  ((9 <=? code c) && (code c <=? 13)) || (code c =? 32).

Definition lower_char (c : ascii) : ascii :=
  if is_upper c then ascii_of_nat (nat_of_ascii c + 32) else c.

(** [s.lower()] *)
Fixpoint lower (s : string) : string :=
  match s with
  | EmptyString => EmptyString
  | String c r => String (lower_char c) (lower r)
  end.

Fixpoint lstrip_with (sp : ascii -> bool) (s : string) : string :=
  match s with
  | EmptyString => EmptyString
  | String c r => if sp c then lstrip_with sp r else s
  end.

Fixpoint rstrip_with (sp : ascii -> bool) (s : string) : string :=
  match s with
  | EmptyString => EmptyString
  | String c r =>
      match rstrip_with sp r with
      | EmptyString => if sp c then EmptyString else String c EmptyString
      | r' => String c r'
      end
  end.

Definition strip_with (sp : ascii -> bool) (s : string) : string :=
  rstrip_with sp (lstrip_with sp s).

(** [s.strip()] *)
Definition strip : string -> string := strip_with is_space.

(** [needle in hay] *)
Fixpoint contains (needle hay : string) : bool :=
  String.prefix needle hay
  || match hay with
     | EmptyString => false
     | String _ r => contains needle r
     end.

(** [sep.join(parts)] *)
Fixpoint join (sep : string) (parts : list string) : string :=
  match parts with
  | [] => EmptyString
  | [p] => p
  | p :: rest => p +:+ sep +:+ join sep rest
  end.

(** [str(n)] for an integer. *)
Definition of_Z (z : Z) : string := NilZero.string_of_int (Z.to_int z).

Definition is_empty (s : string) : bool :=
  match s with EmptyString => true | _ => false end.

(** The line feed. *)
Definition nl : string := String (ascii_of_nat 10) EmptyString.

End Str.

(** ** Outcomes of a call *)

Inductive exn : Type :=
| ValueError
| TypeError
| OverflowError
| IntegrityError
| OperationalError
| BindingError
| Exception_ (msg : string).

Inductive result (A : Type) : Type :=
| Ok (a : A)
| Raise (e : exn).

Arguments Ok {A} a.
Arguments Raise {A} e.

Definition bind {A B} (r : result A) (k : A -> result B) : result B :=
  match r with
  | Ok a => k a
  | Raise e => Raise e
  end.

Notation "'let!' x ':=' r 'in' k" := (bind r (fun x => k))
  (at level 10, x name, r at level 200, k at level 200).
Notation "'let!' ' p ':=' r 'in' k" := (bind r (fun p => k))
  (at level 10, p strict pattern, r at level 200, k at level 200).

(** [try: body  except (ValueError, TypeError): handler] *)
Definition except_value_type {A} (body : result A) (handler : result A) : result A :=
  match body with
  | Raise ValueError | Raise TypeError => handler
  | other => other
  end.

(** A call made on every element of a list in turn; the first exception
    ends the loop. *)
Fixpoint map_result {A B} (f : A -> result B) (l : list A) : result (list B) :=
  match l with
  | [] => Ok []
  | a :: rest =>
      let! b := f a in
      let! bs := map_result f rest in
      Ok (b :: bs)
  end.

(** ** Floats *)

Module Float.

Definition prec : Z := 53.
Definition emax : Z := 1024.

Definition zero : spec_float := S754_zero false.

Definition is_nan (f : spec_float) : bool :=
  match f with S754_nan => true | _ => false end.

(** [bool(f)]: every float but the two zeros is true, NaN included. *)
Definition truthy (f : spec_float) : bool :=
  match f with S754_zero _ => false | _ => true end.

(** The float nearest to an integer, ties to even; an infinity when the
    integer is out of range. *)
Definition round_Z (z : Z) : spec_float := binary_normalize prec emax z 0 false.

(** [float(n)] for an integer [n]. *)
Definition of_int (z : Z) : result spec_float :=
  match round_Z z with
  | S754_infinity _ => Raise OverflowError
  | f => Ok f
  end.

(** The float nearest to [(-1)^neg * m * 10^e10], for [0 <= m]. *)
Definition of_decimal (neg : bool) (m e10 : Z) : spec_float :=
  match m with
  | Zpos p =>
      if 0 <=? e10
      then binary_normalize prec emax ((if neg then Zneg p else Zpos p) * 10 ^ e10) 0 false
      else match 10 ^ (- e10) with
           | Zpos d => SFdiv prec emax (S754_finite neg p 0) (S754_finite false d 0)
           | _ => S754_nan
           end
  | _ => S754_zero neg
  end.

(** The integer a float is equal to, if there is one. *)
Definition integral (f : spec_float) : option Z :=
  match f with
  | S754_zero _ => Some 0
  | S754_finite s m e =>
      let magnitude :=
        if 0 <=? e then Some (Zpos m * 2 ^ e)
        else if Zpos m mod 2 ^ (- e) =? 0 then Some (Zpos m / 2 ^ (- e))
        else None in
      (fun a => if s then - a else a) <$> magnitude
  | _ => None
  end.

(** [int(f)]: truncation toward zero. *)
Definition to_int (f : spec_float) : result Z :=
  match f with
  | S754_zero _ => Ok 0
  | S754_infinity _ => Raise OverflowError
  | S754_nan => Raise ValueError
  | S754_finite s m e =>
      let a := Z.shiftl (Zpos m) e in
      Ok (if s then - a else a)
  end.

End Float.

(** ** Numeric literals *)

Module Literal.

(** [digit (["_"] digit)*]: the digits read so far come back as their
    value and their number, with the rest of the input.  [None] when the
    input does not start with a digit. *)
Fixpoint digitpart_tail (s : string) (acc : Z) (n : Z) : Z * Z * string :=
  match s with
  | String c r =>
      if Str.is_digit c then digitpart_tail r (10 * acc + Str.digit_val c) (n + 1)
      else if Ascii.eqb c "_" then
        match r with
        | String d r' =>
            if Str.is_digit d
            then digitpart_tail r' (10 * acc + Str.digit_val d) (n + 1)
            else (acc, n, s)
        | EmptyString => (acc, n, s)
        end
      else (acc, n, s)
  | EmptyString => (acc, n, s)
  end.

Definition digitpart_from (s : string) (acc : Z) (n : Z) : option (Z * Z * string) :=
  match s with
  | String c r =>
      if Str.is_digit c then Some (digitpart_tail r (10 * acc + Str.digit_val c) (n + 1))
      else None
  | EmptyString => None
  end.

Definition digitpart (s : string) : option (Z * Z * string) := digitpart_from s 0 0.

(** An optional sign: [true] for "-". *)
Definition sign (s : string) : bool * string :=
  match s with
  | String c r =>
      if Ascii.eqb c "-" then (true, r)
      else if Ascii.eqb c "+" then (false, r)
      else (false, s)
  | EmptyString => (false, s)
  end.

(** [int(s)] in base 10. *)
Definition parse_int (s : string) : option Z :=
  let '(neg, body) := sign (Str.strip_with Str.is_literal_space s) in
  match digitpart body with
  | Some (v, _, EmptyString) => Some (if neg then - v else v)
  | _ => None
  end.

(** [("e" | "E") [sign] digitpart], or nothing. *)
Definition exponent (s : string) : option (Z * string) :=
  match s with
  | String c r =>
      if Ascii.eqb c "e" || Ascii.eqb c "E" then
        let '(neg, r') := sign r in
        match digitpart r' with
        | Some (v, _, rest) => Some (if neg then - v else v, rest)
        | None => None
        end
      else Some (0, s)
  | EmptyString => Some (0, s)
  end.

(** [[digitpart] "." digitpart | digitpart ["."]]: the digits as one
    integer, with the number of those after the point. *)
Definition number (s : string) : option (Z * Z * string) :=
  match digitpart s with
  | Some (i, _, rest) =>
      match rest with
      | String c r =>
          if Ascii.eqb c "." then
            match digitpart_from r i 0 with
            | Some res => Some res
            | None => Some (i, 0, r)
            end
          else Some (i, 0, rest)
      | EmptyString => Some (i, 0, rest)
      end
  | None =>
      match s with
      | String c r => if Ascii.eqb c "." then digitpart_from r 0 0 else None
      | EmptyString => None
      end
  end.

(** [float(s)] *)
Definition parse_float (s : string) : option spec_float :=
  let '(neg, body) := sign (Str.strip_with Str.is_literal_space s) in
  let word := Str.lower body in
  if String.eqb word "inf" || String.eqb word "infinity" then Some (S754_infinity neg)
  else if String.eqb word "nan" then Some S754_nan
  else
    match number body with
    | Some (m, nfrac, rest) =>
        match exponent rest with
        | Some (e, EmptyString) => Some (Float.of_decimal neg m (e - nfrac))
        | _ => None
        end
    | None => None
    end.

End Literal.

(** ** Python values *)

(** The values a form field or a spreadsheet cell delivers.  A pandas
    [Timestamp] is kept as the two texts the code asks of it:
    [strftime('%Y-%m-%d')] and [str()]. *)
Inductive PyVal : Type :=
| PNone
| PBool (b : bool)
| PInt (n : Z)
| PFloat (f : spec_float)
| PStr (s : string)
| PTimestamp (ymd : string) (text : string).

(** The collaborators of the code. *)
Class Platform : Type := {
  (** [str(f)] for a float: Python's shortest round-tripping decimal. *)
  float_repr : spec_float -> string;
  (** The text SQLite gives a REAL: what [LIKE] sees, and what a column
      of TEXT affinity stores. *)
  sql_real_text : spec_float -> string;
  (** The REAL SQLite reads in a numeric text. *)
  sql_real_of_text : string -> spec_float;
  (** Whether SQLite executes a [CREATE TABLE] statement, creating the
      columns it lists, in a database that has no table of that name. *)
  accepts_ddl : string -> bool
}.

Module Py.

Definition is_none (v : PyVal) : bool :=
  match v with PNone => true | _ => false end.

(** [v == ''] *)
Definition eq_empty (v : PyVal) : bool :=
  match v with PStr s => Str.is_empty s | _ => false end.

(** [pd.isna(v)] *)
Definition isna (v : PyVal) : bool :=
  match v with
  | PNone => true
  | PFloat f => Float.is_nan f
  | _ => false
  end.

(** [bool(v)] *)
Definition truthy (v : PyVal) : bool :=
  match v with
  | PNone => false
  | PBool b => b
  | PInt n => negb (n =? 0)
  | PFloat f => Float.truthy f
  | PStr s => negb (Str.is_empty s)
  | PTimestamp _ _ => true
  end.

Definition int_of_bool (b : bool) : Z := if b then 1 else 0.

(** [int(v)] *)
Definition int (v : PyVal) : result Z :=
  match v with
  | PNone => Raise TypeError
  | PBool b => Ok (int_of_bool b)
  | PInt n => Ok n
  | PFloat f => Float.to_int f
  | PStr s => match Literal.parse_int s with
              | Some n => Ok n
              | None => Raise ValueError
              end
  | PTimestamp _ _ => Raise TypeError
  end.

(** [float(v)] *)
Definition float (v : PyVal) : result spec_float :=
  match v with
  | PNone => Raise TypeError
  | PBool b => Ok (Float.round_Z (int_of_bool b))
  | PInt n => Float.of_int n
  | PFloat f => Ok f
  | PStr s => match Literal.parse_float s with
              | Some f => Ok f
              | None => Raise ValueError
              end
  | PTimestamp _ _ => Raise TypeError
  end.

(** [str(v)] *)
Definition str {platform : Platform} (v : PyVal) : string :=
  match v with
  | PNone => "None"
  | PBool true => "True"
  | PBool false => "False"
  | PInt n => Str.of_Z n
  | PFloat f => float_repr f
  | PStr s => s
  | PTimestamp _ text => text
  end.

(** [x in (t1, ..., tn)] for strings *)
Definition str_in (x : string) (ts : list string) : bool :=
  existsb (String.eqb x) ts.

End Py.

(** ** Column definitions ([setup_wizard.ColumnDefinition]) *)

Record ColumnDefinition : Type := {
  name : string;
  display_name : string;
  data_type : string;      (* text, number, decimal, date, boolean *)
  required : bool;
  default_value : string
}.

(** The configuration dictionary: [{'name': ..., 'columns': [...]}]. *)
Record Config : Type := {
  config_name : string;
  config_columns : list ColumnDefinition
}.

(** ** Type mapper of the store ([DynamicDatabaseManager]) *)

Definition type_mapping : list (string * string) :=
  [("text", "TEXT"); ("number", "INTEGER"); ("decimal", "REAL");
   ("date", "TEXT"); ("boolean", "INTEGER")]%string.

(** [d.get(key, default)] for a dictionary written as a literal. *)
Fixpoint literal_get {V} (d : list (string * V)) (key : string) (dflt : V) : V :=
  match d with
  | [] => dflt
  | (k, v) :: rest => if String.eqb k key then v else literal_get rest key dflt
  end.

Definition _get_sql_type (data_type : string) : string :=
  literal_get type_mapping data_type "TEXT"%string.

Definition truthy_tokens : list string := ["true"; "1"; "yes"; "on"]%string.

Section TypeMapper.
Context {platform : Platform}.

(** The body of the [try] of [_convert_value]. *)
Definition convert_value_attempt (value : PyVal) (data_type : string) : result PyVal :=
  if String.eqb data_type "number" then
    let! n := Py.int value in Ok (PInt n)
  else if String.eqb data_type "decimal" then
    let! f := Py.float value in Ok (PFloat f)
  else if String.eqb data_type "boolean" then
    match value with
    | PBool b => Ok (PInt (if b then 1 else 0))
    | PStr s => Ok (PInt (if Py.str_in (Str.lower s) truthy_tokens then 1 else 0))
    | _ => Ok (PInt (if Py.truthy value then 1 else 0))
    end
  else Ok (PStr (Py.str value)).

Definition _convert_value (value : PyVal) (data_type : string) : result PyVal :=
  if Py.is_none value || Py.eq_empty value then Ok PNone
  else except_value_type (convert_value_attempt value data_type) (Ok value).

End TypeMapper.

(** ** Type mapper of the import path ([DynamicExcelHandler]) *)

Definition type_defaults : list (string * PyVal) :=
  [("text", PStr ""); ("number", PInt 0); ("decimal", PFloat Float.zero);
   ("date", PStr ""); ("boolean", PBool false)]%string.

Definition _get_default_for_type (data_type : string) : PyVal :=
  literal_get type_defaults data_type (PStr "").

(** [column.default_value or self._get_default_for_type(column.data_type)] *)
Definition default_or_type_default (column : ColumnDefinition) : PyVal :=
  if Str.is_empty (default_value column)
  then _get_default_for_type (data_type column)
  else PStr (default_value column).

Definition import_truthy_tokens : list string := ["true"; "1"; "yes"; "on"; "y"]%string.

Section ImportTypeMapper.
Context {platform : Platform}.

(** The body of the [try] of [_convert_excel_value]. *)
Definition convert_excel_attempt (value : PyVal) (column : ColumnDefinition) : result PyVal :=
  if String.eqb (data_type column) "number" then
    let! f := Py.float value in let! n := Float.to_int f in Ok (PInt n)
  else if String.eqb (data_type column) "decimal" then
    let! f := Py.float value in Ok (PFloat f)
  else if String.eqb (data_type column) "boolean" then
    match value with
    | PBool b => Ok value
    | PStr s => Ok (PBool (Py.str_in (Str.lower s) import_truthy_tokens))
    | _ => Ok (PBool (Py.truthy value))
    end
  else if String.eqb (data_type column) "date" then
    if Py.isna value
    then Ok (PStr (if Str.is_empty (default_value column) then "" else default_value column))
    else match value with
         | PTimestamp ymd _ => Ok (PStr ymd)
         | _ => Ok (PStr (Py.str value))
         end
  else Ok (PStr (Str.strip (Py.str value))).

Definition _convert_excel_value (value : PyVal) (column : ColumnDefinition) : result PyVal :=
  if Py.isna value || Py.eq_empty value then Ok (default_or_type_default column)
  else except_value_type (convert_excel_attempt value column) (Ok (default_or_type_default column)).

End ImportTypeMapper.

(** ** Schema builder *)

(** One pass of the loop of [_generate_table_sql]: the line of a column. *)
Definition column_sql (column : ColumnDefinition) : string :=
  let sql_type := _get_sql_type (data_type column) in
  let null_constraint := if required column then "NOT NULL" else "" in
  let default_constraint :=
    if Str.is_empty (default_value column) then ""
    else "DEFAULT '" +:+ default_value column +:+ "'" in
  "    " +:+ name column +:+ " " +:+ sql_type +:+ " " +:+ null_constraint
  +:+ " " +:+ default_constraint +:+ ",".

Definition _generate_table_sql (columns : list ColumnDefinition) : string :=
  let sql_parts := ["CREATE TABLE catalogue_items ("%string] in
  let sql_parts := sql_parts ++ ["    id INTEGER PRIMARY KEY AUTOINCREMENT,"%string] in
  let sql_parts :=
    fold_left (fun parts column => parts ++ [column_sql column]) columns sql_parts in
  let sql_parts := sql_parts ++ ["    created_date TEXT,"%string] in
  let sql_parts := sql_parts ++ ["    modified_date TEXT"%string] in
  let sql_parts := sql_parts ++ [")"%string] in
  Str.join Str.nl sql_parts.

(** ** The database *)

(** What SQLite stores in a cell. *)
Inductive SqlVal : Type :=
| SNull
| SInt (n : Z)
| SReal (f : spec_float)
| SText (s : string).

Module Sql.

Definition is_null (v : SqlVal) : bool :=
  match v with SNull => true | _ => false end.

(** Binding a Python value to a [?] of a statement.  An integer must fit
    64 bits; a NaN is stored as NULL; a [Timestamp] has no adapter. *)
Definition bind_param (v : PyVal) : result SqlVal :=
  match v with
  | PNone => Ok SNull
  | PBool b => Ok (SInt (Py.int_of_bool b))
  | PInt n =>
      if (- 2 ^ 63 <=? n) && (n <? 2 ^ 63) then Ok (SInt n) else Raise OverflowError
  | PFloat f => Ok (if Float.is_nan f then SNull else SReal f)
  | PStr s => Ok (SText s)
  | PTimestamp _ _ => Raise BindingError
  end.

(** The parameters of a statement, bound in order. *)
Definition bind_params (vs : list PyVal) : result (list SqlVal) :=
  map_result bind_param vs.

(** *** Column affinity *)

Inductive affinity : Type := AffText | AffNumeric | AffInteger | AffReal | AffBlob.

(** The affinity of a column, from the type it is declared with. *)
Definition column_affinity (declared_type : string) : affinity :=
  let t := Str.lower declared_type in
  if Str.contains "int" t then AffInteger
  else if Str.contains "char" t || Str.contains "clob" t || Str.contains "text" t
  then AffText
  else if Str.contains "blob" t || Str.is_empty t then AffBlob
  else if Str.contains "real" t || Str.contains "floa" t || Str.contains "doub" t
  then AffReal
  else AffNumeric.

(** The digits at the head of a text: their value on top of [acc], and
    what follows them. *)
Fixpoint digits (s : string) (acc : Z) : Z * string :=
  match s with
  | String c r =>
      if Str.is_digit c then digits r (10 * acc + Str.digit_val c) else (acc, s)
  | EmptyString => (acc, s)
  end.

Definition starts_with_digit (s : string) : bool :=
  match s with
  | String c _ => Str.is_digit c
  | EmptyString => false
  end.

(** [("e" | "E") [sign] digits] up to the end of the text, or nothing. *)
Definition exponent_to_end (s : string) : bool :=
  match s with
  | EmptyString => true
  | String c r =>
      (Ascii.eqb c "e" || Ascii.eqb c "E")
      && (let d := snd (Literal.sign r) in
          starts_with_digit d && Str.is_empty (snd (digits d 0)))
  end.

(** A text that reads as a number: an integer literal of 64 bits, with
    its value, or another number. *)
Inductive numeric : Type :=
| Int64 (n : Z)
| OtherNumber.

(** Whether a text is a number for SQLite:
    [[sign] (digits ["." [digits]] | "." digits) [exponent]], with
    whitespace allowed at both ends. *)
Definition numeric_text (s : string) : option numeric :=
  let '(neg, body) := Literal.sign (Str.strip_with Str.is_literal_space s) in
  let '(v, rest) := digits body 0 in
  let whole := starts_with_digit body in
  match rest with
  | EmptyString =>
      if whole then
        let n := if neg then - v else v in
        Some (if (- 2 ^ 63 <=? n) && (n <? 2 ^ 63) then Int64 n else OtherNumber)
      else None
  | String c r =>
      if Ascii.eqb c "." then
        if (whole || starts_with_digit r) && exponent_to_end (snd (digits r 0))
        then Some OtherNumber
        else None
      else if whole && exponent_to_end rest then Some OtherNumber
      else None
  end.

(** A REAL that is equal to an integer strictly between [-2^63] and
    [2^63] is stored as that integer under INTEGER affinity. *)
Definition integer_if_integral (f : spec_float) : SqlVal :=
  match Float.integral f with
  | Some z => if (- 2 ^ 63 <? z) && (z <? 2 ^ 63) then SInt z else SReal f
  | None => SReal f
  end.

(** A column of REAL affinity keeps an integral REAL as an integer and
    reads it back as a REAL: the zero loses its sign. *)
Definition positive_zero (f : spec_float) : spec_float :=
  match f with
  | S754_zero _ => S754_zero false
  | _ => f
  end.

(** What a column of affinity [a] stores for the value [v] of an INSERT
    or an UPDATE. *)
Definition apply_affinity {platform : Platform} (a : affinity) (v : SqlVal) : SqlVal :=
  match a, v with
  | _, SNull => SNull
  | AffBlob, _ => v
  | AffText, SInt n => SText (Str.of_Z n)
  | AffText, SReal f => SText (sql_real_text f)
  | AffText, SText _ => v
  | (AffInteger | AffNumeric), SInt _ => v
  | (AffInteger | AffNumeric), SReal f => integer_if_integral f
  | (AffInteger | AffNumeric), SText s =>
      match numeric_text s with
      | Some (Int64 n) => SInt n
      | Some OtherNumber => integer_if_integral (sql_real_of_text s)
      | None => v
      end
  | AffReal, SInt n => SReal (Float.round_Z n)
  | AffReal, SReal f => SReal (positive_zero f)
  | AffReal, SText s =>
      match numeric_text s with
      | Some (Int64 n) => SReal (Float.round_Z n)
      | Some OtherNumber => SReal (positive_zero (sql_real_of_text s))
      | None => v
      end
  end.

(** *** LIKE *)

(** The text up to its first NUL: what [LIKE] reads of a text. *)
Fixpoint c_string (s : string) : string :=
  match s with
  | String c r => if Str.code c =? 0 then EmptyString else String c (c_string r)
  | EmptyString => EmptyString
  end.

(** [text LIKE pattern]: [%] stands for any run of characters, [_] for
    any one character, and letters compare without case. *)
Fixpoint like (pattern : string) (text : string) : bool :=
  match pattern with
  | EmptyString => Str.is_empty text
  | String p pattern' =>
      if Ascii.eqb p "%" then
        (fix skip (t : string) : bool :=
           like pattern' t
           || match t with
              | EmptyString => false
              | String _ t' => skip t'
              end) text
      else
        match text with
        | EmptyString => false
        | String c text' =>
            (Ascii.eqb p "_" || Ascii.eqb (Str.lower_char p) (Str.lower_char c))
            && like pattern' text'
        end
  end.

(** [v LIKE pattern] as a condition of WHERE: NULL is not a match. *)
Definition like_val {platform : Platform} (pattern : string) (v : SqlVal) : bool :=
  match v with
  | SNull => false
  | SInt n => like (c_string pattern) (Str.of_Z n)
  | SReal f => like (c_string pattern) (c_string (sql_real_text f))
  | SText s => like (c_string pattern) (c_string s)
  end.

(** The longest pattern [LIKE] takes, in bytes, and the deepest
    expression a statement may hold. *)
Definition max_like_pattern_length : Z := 50000.
Definition max_expr_depth : Z := 1000.

(** *** Names in a statement *)

(** What a key stands for when a statement holds it, unquoted, in an
    expression: the words [cast] and [raise] open a construct that the
    rest of the condition does not complete, [current_date],
    [current_time] and [current_timestamp] are the clock, and any other
    key is the column of that name. *)
Inductive reading : Type :=
| ColumnRef
| CurrentDate
| CurrentTime
| CurrentTimestamp
| SyntaxError.

Definition read_in_expression (key : string) : reading :=
  let k := Str.lower key in
  if String.eqb k "cast" || String.eqb k "raise" then SyntaxError
  else if String.eqb k "current_date" then CurrentDate
  else if String.eqb k "current_time" then CurrentTime
  else if String.eqb k "current_timestamp" then CurrentTimestamp
  else ColumnRef.

(** The clock of a statement, in UTC: ["YYYY-MM-DD"], ["HH:MM:SS"] and
    ["YYYY-MM-DD HH:MM:SS"]. *)
Record clock : Type := {
  date_now : string;
  time_now : string;
  timestamp_now : string
}.

(** The words SQLite does not take as the name of a column. *)
Definition refused_words : list string :=
  ["add"; "all"; "alter"; "and"; "as"; "autoincrement"; "between"; "case"; "check";
   "collate"; "commit"; "constraint"; "create"; "default"; "deferrable"; "delete";
   "distinct"; "drop"; "else"; "escape"; "except"; "exists"; "foreign"; "from";
   "group"; "having"; "in"; "index"; "insert"; "intersect"; "into"; "is"; "isnull";
   "join"; "limit"; "not"; "nothing"; "notnull"; "null"; "on"; "or"; "order";
   "primary"; "references"; "returning"; "select"; "set"; "table"; "then"; "to";
   "transaction"; "union"; "unique"; "update"; "using"; "values"; "when";
   "where"]%string.

(** A word that cannot name a column: a reserved word, whatever its
    case, or a word that starts with a digit. *)
Definition refused_name (word : string) : bool :=
  starts_with_digit word || Py.str_in (Str.lower word) refused_words.

(** *** CREATE TABLE *)

(** The tokens of the statements the schema builder writes: words of
    letters, digits and underscores, parentheses, commas and text
    literals.  Anything else is [TIllegal]. *)
Inductive token : Type :=
| TWord (w : string)
| TOpen
| TClose
| TComma
| TLiteral (s : string)
| TIllegal.

Inductive scanning : Type :=
| Between
| InWord (w : string)
| InLiteral (s : string)
| Closed (s : string).

Definition is_word_char (c : ascii) : bool :=
  ((97 <=? Str.code c) && (Str.code c <=? 122)) || Str.is_upper c || Str.is_digit c
  || Ascii.eqb c "_".

(** The characters of a text literal, the quote apart. *)
Definition is_literal_char (c : ascii) : bool :=
  (1 <=? Str.code c) && (Str.code c <=? 127) && negb (Str.code c =? 39).

(** A character read between two tokens: the tokens it completes and
    the state it leaves. *)
Definition enter (c : ascii) : option (list token * scanning) :=
  if is_word_char c then Some ([], InWord (String c EmptyString))
  else if Ascii.eqb c "(" then Some ([TOpen], Between)
  else if Ascii.eqb c ")" then Some ([TClose], Between)
  else if Ascii.eqb c "," then Some ([TComma], Between)
  else if Str.code c =? 39 then Some ([], InLiteral EmptyString)
  else if (Str.code c =? 32) || (Str.code c =? 10) then Some ([], Between)
  else None.

Definition next (state : scanning) (c : ascii) : option (list token * scanning) :=
  match state with
  | Between => enter c
  | InWord w =>
      if is_word_char c then Some ([], InWord (w +:+ String c EmptyString))
      else (fun '(ts, state') => (TWord w :: ts, state')) <$> enter c
  | InLiteral s =>
      if Str.code c =? 39 then Some ([], Closed s)
      else if is_literal_char c then Some ([], InLiteral (s +:+ String c EmptyString))
      else None
  | Closed s =>
      if Str.code c =? 39 then None
      else (fun '(ts, state') => (TLiteral s :: ts, state')) <$> enter c
  end.

Fixpoint scan (state : scanning) (sql : string) : list token :=
  match sql with
  | EmptyString =>
      match state with
      | Between => []
      | InWord w => [TWord w]
      | InLiteral _ => [TIllegal]
      | Closed s => [TLiteral s]
      end
  | String c rest =>
      match next state c with
      | Some (ts, state') => ts ++ scan state' rest
      | None => [TIllegal]
      end
  end.

(** The tokens between the commas of a list. *)
Fixpoint split_commas (ts : list token) (group : list token) : list (list token) :=
  match ts with
  | [] => [group]
  | TComma :: rest => group :: split_commas rest []
  | t :: rest => split_commas rest (group ++ [t])
  end.

Definition is_word (w : string) (t : token) : bool :=
  match t with
  | TWord w' => String.eqb w' w
  | _ => false
  end.

Definition is_literal (t : token) : bool :=
  match t with
  | TLiteral _ => true
  | _ => false
  end.

(** [name INTEGER PRIMARY KEY AUTOINCREMENT] *)
Definition primary_key_column (group : list token) : option string :=
  match group with
  | [TWord n; t; p; k; a] =>
      if is_word "INTEGER" t && is_word "PRIMARY" p && is_word "KEY" k
         && is_word "AUTOINCREMENT" a
      then Some n else None
  | _ => None
  end.

(** [[NOT NULL] [DEFAULT 'text']] *)
Definition column_constraints (ts : list token) : bool :=
  match ts with
  | [] => true
  | [a; b] => (is_word "NOT" a && is_word "NULL" b) || (is_word "DEFAULT" a && is_literal b)
  | [a; b; c; d] =>
      is_word "NOT" a && is_word "NULL" b && is_word "DEFAULT" c && is_literal d
  | _ => false
  end.

(** [name type [NOT NULL] [DEFAULT 'text']] with one of the types of the
    schema builder. *)
Definition plain_column (group : list token) : option string :=
  match group with
  | TWord n :: t :: constraints =>
      if (is_word "TEXT" t || is_word "INTEGER" t || is_word "REAL" t)
         && column_constraints constraints
      then Some n else None
  | _ => None
  end.

(** The most columns a table may have. *)
Definition max_columns : Z := 2000.

(** SQLite creates a table of these columns: no name is refused, no two
    are the same (case set aside), and they are not too many. *)
Definition column_names_ok (names : list string) : bool :=
  forallb (fun n => negb (refused_name n)) names
  && bool_decide (NoDup (Str.lower <$> names))
  && (Z.of_nat (length names) <=? max_columns).

(** The columns of a statement
    [CREATE TABLE catalogue_items (key-column, column, ..., column)]. *)
Definition create_table_columns (sql : string) : option (list string) :=
  match scan Between sql with
  | c :: t :: n :: TOpen :: rest =>
      if is_word "CREATE" c && is_word "TABLE" t && is_word "catalogue_items" n then
        match reverse rest with
        | TClose :: body =>
            match split_commas (reverse body) [] with
            | first :: others =>
                key ← primary_key_column first;
                names ← mapM plain_column others;
                Some (key :: names)
            | [] => None
            end
        | _ => None
        end
      else None
  | _ => None
  end.

(** SQLite's verdict on a statement of that form, shorter than a hundred
    million characters, run in a database without table
    [catalogue_items]: whether it creates the table.  [None]: the
    statement is not of that form. *)
Definition create_table (sql : string) : option bool :=
  if Z.of_nat (String.length sql) <? 10 ^ 8
  then column_names_ok <$> create_table_columns sql
  else None.

End Sql.

(** A row of [catalogue_items]: the surrogate key and, by column name,
    the cells of the defined columns and of [created_date] and
    [modified_date]. *)
Record Row : Type := {
  row_id : Z;
  cells : gmap string SqlVal
}.

(** [row[column]]; a column without a stored value reads as NULL. *)
Definition cell (r : Row) (column : string) : SqlVal :=
  default SNull (cells r !! column).

(** The row of table [catalogue_config]. *)
Record ConfigRow : Type := {
  stored_name : string;
  stored_columns : list ColumnDefinition;     (* columns_json *)
  stored_created : string;
  stored_modified : string
}.

(** The manager and its database file.  The table [catalogue_items] has
    the schema generated for the configuration the manager holds: the two
    are written together by [create_catalogue_structure].  A call that
    raises leaves the store as it was (its transaction is rolled back). *)
Record Store : Type := {
  catalogue_config : option Config;          (* self.catalogue_config *)
  config_table : option ConfigRow;           (* catalogue_config, row 1 *)
  catalogue_items : option (list Row);       (* None: no such table *)
  sqlite_sequence : Z                        (* AUTOINCREMENT counter *)
}.

(** The store of a fresh database file, after [__init__]. *)
Definition initial_store : Store :=
  {| catalogue_config := None; config_table := None;
     catalogue_items := None; sqlite_sequence := 0 |}.

(** [ORDER BY id] *)
Fixpoint insert_by_id (r : Row) (sorted : list Row) : list Row :=
  match sorted with
  | [] => [r]
  | r' :: rest =>
      if row_id r <? row_id r' then r :: sorted else r' :: insert_by_id r rest
  end.

Definition order_by_id (rows : list Row) : list Row :=
  fold_left (fun sorted r => insert_by_id r sorted) rows [].

(** The id AUTOINCREMENT gives the next row: one more than the largest
    id the table has ever held.  (SQLite gives up at the end of the 64-bit
    range, which a counter started at 1 does not reach.) *)
Definition next_rowid (rows : list Row) (seq : Z) : Z :=
  fold_left (fun m r => Z.max m (row_id r)) rows seq + 1.

(** The cells written by a statement that names [column_names] and
    stores [stored] in them, on top of [old]. *)
Definition assign (column_names : list string) (stored : list SqlVal)
  (old : gmap string SqlVal) : gmap string SqlVal :=
  fold_left (fun cs kv => <[fst kv := snd kv]> cs) (zip column_names stored) old.

(** [NOT NULL], checked on the columns a statement writes: no column
    created as required may receive NULL. *)
Definition not_null_ok (columns : list ColumnDefinition) (written : list string)
  (cs : gmap string SqlVal) : bool :=
  forallb (fun col =>
             negb (required col)
             || negb (Py.str_in (name col) written)
             || negb (Sql.is_null (default SNull (cs !! name col))))
          columns.

(** The columns of the table [_generate_table_sql] describes. *)
Definition table_columns (columns : list ColumnDefinition) : list string :=
  "id"%string :: (name <$> columns) ++ ["created_date"; "modified_date"]%string.

(** SQLite refuses a table in which two columns share a name, case set
    aside ("duplicate column name"). *)
Definition distinct_column_names (columns : list ColumnDefinition) : bool :=
  bool_decide (NoDup (Str.lower <$> table_columns columns)).

(** The type the table declares for a column: the one
    [_generate_table_sql] writes for the key, [INTEGER] for [id] and
    [TEXT] for the two audit columns. *)
Definition declared_type (columns : list ColumnDefinition) (column_name : string) : string :=
  match List.find (fun col => String.eqb (name col) column_name) columns with
  | Some col => _get_sql_type (data_type col)
  | None =>
      if String.eqb column_name "id" then "INTEGER"
      else if Py.str_in column_name ["created_date"; "modified_date"]%string then "TEXT"
      else ""
  end.

(** [dict.get(key, default)] *)
Definition dict_get (d : gmap string PyVal) (key : string) (dflt : PyVal) : PyVal :=
  default dflt (d !! key).

Section Store.
Context {platform : Platform}.

Definition create_catalogue_structure (st : Store) (current_time : string)
  (config : Config) : bool * Store :=
  let catalogue_name := config_name config in
  let columns := config_columns config in
  let table_sql := _generate_table_sql columns in
  if distinct_column_names columns && accepts_ddl table_sql then
    (true,
     {| catalogue_config := Some config;
        config_table := Some {| stored_name := catalogue_name;
                                stored_columns := columns;
                                stored_created := current_time;
                                stored_modified := current_time |};
        catalogue_items := Some [];
        sqlite_sequence := 0 |})
  else (false, st).

Definition load_catalogue_config (st : Store) : option Config * Store :=
  match config_table st with
  | Some row =>
      let config := {| config_name := stored_name row;
                       config_columns := stored_columns row |} in
      (Some config,
       {| catalogue_config := Some config; config_table := config_table st;
          catalogue_items := catalogue_items st;
          sqlite_sequence := sqlite_sequence st |})
  | None => (None, st)
  end.

(** What the table stores for the values a statement binds to the
    columns it names: each is converted by the affinity of its column. *)
Definition stored_values (columns : list ColumnDefinition) (column_names : list string)
  (bound : list SqlVal) : list SqlVal :=
  zip_with (fun column_name b =>
              Sql.apply_affinity (Sql.column_affinity (declared_type columns column_name)) b)
           column_names bound.

(** The loop of [add_item] that prepares the values. *)
Fixpoint add_item_values (columns : list ColumnDefinition)
  (item_data : gmap string PyVal) (values : list PyVal) : result (list PyVal) :=
  match columns with
  | [] => Ok values
  | col :: rest =>
      let raw_value := dict_get item_data (name col) (PStr (default_value col)) in
      let! converted_value := _convert_value raw_value (data_type col) in
      add_item_values rest item_data (values ++ [converted_value])
  end.

Definition add_item (st : Store) (current_time : string)
  (item_data : gmap string PyVal) : result (Z * Store) :=
  match catalogue_config st with
  | None => Raise (Exception_ "No catalogue structure defined")
  | Some config =>
      let columns := config_columns config in
      let column_names := (name <$> columns) ++ ["created_date"; "modified_date"]%string in
      let! values := add_item_values columns item_data [] in
      let values := values ++ [PStr current_time; PStr current_time] in
      match catalogue_items st with
      | None => Raise OperationalError
      | Some rows =>
          let! bound := Sql.bind_params values in
          let cs := assign column_names (stored_values columns column_names bound) ∅ in
          if not_null_ok columns column_names cs then
            let lastrowid := next_rowid rows (sqlite_sequence st) in
            Ok (lastrowid,
                {| catalogue_config := catalogue_config st;
                   config_table := config_table st;
                   catalogue_items :=
                     Some (rows ++ [{| row_id := lastrowid; cells := cs |}]);
                   sqlite_sequence := lastrowid |})
          else Raise IntegrityError
      end
  end.

Definition get_all_items (st : Store) : result (list Row) :=
  match catalogue_config st with
  | None => Ok []
  | Some _ =>
      match catalogue_items st with
      | None => Raise OperationalError
      | Some rows => Ok (order_by_id rows)
      end
  end.

(** The loop of [update_item] that prepares the SET clauses: the columns
    they name and the values they bind. *)
Fixpoint update_item_clauses (columns : list ColumnDefinition)
  (item_data : gmap string PyVal) (set_clauses : list string) (values : list PyVal)
  : result (list string * list PyVal) :=
  match columns with
  | [] => Ok (set_clauses, values)
  | col :: rest =>
      match item_data !! name col with
      | Some raw_value =>
          let! converted_value := _convert_value raw_value (data_type col) in
          update_item_clauses rest item_data
            (set_clauses ++ [name col]) (values ++ [converted_value])
      | None => update_item_clauses rest item_data set_clauses values
      end
  end.

(** [UPDATE catalogue_items SET ... WHERE id = ?] on one row; [stored]
    are the values the columns of the SET clauses store. *)
Definition update_row (columns : list ColumnDefinition) (set_clauses : list string)
  (stored : list SqlVal) (item_id : Z) (r : Row) : result Row :=
  if row_id r =? item_id then
    let cs := assign set_clauses stored (cells r) in
    if not_null_ok columns set_clauses cs
    then Ok {| row_id := row_id r; cells := cs |}
    else Raise IntegrityError
  else Ok r.

Definition update_item (st : Store) (current_time : string) (item_id : Z)
  (item_data : gmap string PyVal) : result (bool * Store) :=
  match catalogue_config st with
  | None => Ok (false, st)
  | Some config =>
      let columns := config_columns config in
      let! '(set_clauses, values) := update_item_clauses columns item_data [] [] in
      let set_clauses := set_clauses ++ ["modified_date"%string] in
      let values := values ++ [PStr current_time] in
      match catalogue_items st with
      | None => Raise OperationalError
      | Some rows =>
          let! bound := Sql.bind_params values in
          let! id_param := Sql.bind_param (PInt item_id) in
          let stored := stored_values columns set_clauses bound in
          let! rows' := map_result (update_row columns set_clauses stored item_id) rows in
          let rowcount := length (filter (fun r => row_id r = item_id) rows) in
          Ok (0 <? Z.of_nat rowcount,
              {| catalogue_config := catalogue_config st;
                 config_table := config_table st;
                 catalogue_items := Some rows';
                 sqlite_sequence := sqlite_sequence st |})
      end
  end.

Definition get_item_by_id (st : Store) (item_id : Z) : result (option Row) :=
  match catalogue_items st with
  | None => Raise OperationalError
  | Some rows =>
      let! id_param := Sql.bind_param (PInt item_id) in
      Ok (head (filter (fun r => row_id r = item_id) rows))
  end.

Definition delete_item (st : Store) (item_id : Z) : result (bool * Store) :=
  match catalogue_items st with
  | None => Raise OperationalError
  | Some rows =>
      let! id_param := Sql.bind_param (PInt item_id) in
      let rowcount := length (filter (fun r => row_id r = item_id) rows) in
      Ok (0 <? Z.of_nat rowcount,
          {| catalogue_config := catalogue_config st;
             config_table := config_table st;
             catalogue_items := Some (filter (fun r => row_id r <> item_id) rows);
             sqlite_sequence := sqlite_sequence st |})
  end.

(** What [col_name LIKE ?] compares for a row: the cell of the column,
    or the clock when the key is one of its names. *)
Definition search_value (now : Sql.clock) (r : Row) (col_name : string) : SqlVal :=
  match Sql.read_in_expression col_name with
  | Sql.CurrentDate => SText (Sql.date_now now)
  | Sql.CurrentTime => SText (Sql.time_now now)
  | Sql.CurrentTimestamp => SText (Sql.timestamp_now now)
  | _ => cell r col_name
  end.

(** The WHERE clause of [search_items]: some text column is LIKE the
    pattern. *)
Definition search_condition (now : Sql.clock) (text_columns : list string)
  (pattern : string) (r : Row) : bool :=
  existsb (fun col_name => Sql.like_val pattern (search_value now r col_name)) text_columns.

(** Whether the SELECT of [search_items] compares the pattern at all: it
    does for every row, and also without any row when its condition reads
    no column. *)
Definition compares_pattern (text_columns : list string) (rows : list Row) : bool :=
  match rows with [] => false | _ => true end
  || forallb (fun col_name =>
                match Sql.read_in_expression col_name with
                | Sql.ColumnRef => false
                | _ => true
                end) text_columns.

(** [now] is the clock SQLite reads for the statement. *)
Definition search_items (st : Store) (now : Sql.clock) (search_term : string)
  : result (list Row) :=
  match catalogue_config st with
  | None => Ok []
  | Some config =>
      let columns := config_columns config in
      let text_columns :=
        name <$> filter (fun col => data_type col = "text"%string) columns in
      match text_columns with
      | [] => Ok []
      | _ =>
          match catalogue_items st with
          | None => Raise OperationalError
          | Some rows =>
              let pattern := ("%" +:+ search_term +:+ "%")%string in
              if existsb (fun col_name =>
                            match Sql.read_in_expression col_name with
                            | Sql.SyntaxError => true
                            | _ => false
                            end) text_columns
              then Raise OperationalError
              else if Sql.max_expr_depth <=? Z.of_nat (length text_columns)
              then Raise OperationalError
              else if (Sql.max_like_pattern_length <? Z.of_nat (String.length pattern))
                      && compares_pattern text_columns rows
              then Raise OperationalError
              else
                Ok (order_by_id
                      (filter (fun r => search_condition now text_columns pattern r = true)
                              rows))
          end
      end
  end.

End Store.

(** ** Column matcher (the mapping loop of [import_from_excel]) *)

(** The first header equal to the label, case set aside. *)
Fixpoint exact_match (excel_cols : list string) (column : ColumnDefinition) : option string :=
  match excel_cols with
  | [] => None
  | excel_col :: rest =>
      if String.eqb (Str.lower excel_col) (Str.lower (display_name column))
      then Some excel_col
      else exact_match rest column
  end.

(** The first header that contains the label or is contained in it. *)
Fixpoint partial_match (excel_cols : list string) (column : ColumnDefinition) : option string :=
  match excel_cols with
  | [] => None
  | excel_col :: rest =>
      if Str.contains (Str.lower (display_name column)) (Str.lower excel_col)
         || Str.contains (Str.lower excel_col) (Str.lower (display_name column))
      then Some excel_col
      else partial_match rest column
  end.

(** The header a column definition takes, if any. *)
Definition matched_header (excel_cols : list string) (column : ColumnDefinition) : option string :=
  match exact_match excel_cols column with
  | Some excel_col => Some excel_col
  | None => partial_match excel_cols column
  end.

(** One pass of the loop over [self.columns]: the state is
    [(column_mapping, unmapped_columns)]. *)
Definition map_column (excel_cols : list string)
  (state : gmap string string * list string) (column : ColumnDefinition)
  : gmap string string * list string :=
  let '(column_mapping, unmapped_columns) := state in
  match matched_header excel_cols column with
  | Some excel_col => (<[excel_col := name column]> column_mapping, unmapped_columns)
  | None => (column_mapping, unmapped_columns ++ [display_name column])
  end.

Definition map_columns (excel_cols : list string) (columns : list ColumnDefinition)
  : gmap string string * list string :=
  fold_left (map_column excel_cols) columns (∅, []).

(** [column_mapping] for the headers of a sheet, which are stripped first. *)
Definition column_mapping (headers : list string) (columns : list ColumnDefinition)
  : gmap string string :=
  fst (map_columns (Str.strip <$> headers) columns).

(** ** Validation of a sheet ([validate_excel_format]) *)

(** The sheet as [pd.read_excel] delivers it: the headers, which are
    texts, and, row by row, the cells as [iterrows] yields them, one under
    each header. *)
Record DataFrame : Type := {
  df_columns : list string;
  df_rows : list (list PyVal)
}.

(** The dictionary [validate_excel_format] returns. *)
Module Report.

Record entry : Type := {
  catalogue_column : string;
  excel_column : string;
  required : bool
}.

Record t : Type := {
  valid : bool;
  rows : nat;
  columns : list string;
  matched_columns : list entry;
  unmatched_columns : list string;
  missing_columns : list string;
  errors : list string
}.

End Report.

(** The first header the loop of [validate_excel_format] accepts for a
    column. *)
Fixpoint validate_match (excel_cols : list string) (column : ColumnDefinition) : option string :=
  match excel_cols with
  | [] => None
  | excel_col :: rest =>
      if String.eqb (Str.lower excel_col) (Str.lower (display_name column))
         || Str.contains (Str.lower (display_name column)) (Str.lower excel_col)
         || Str.contains (Str.lower excel_col) (Str.lower (display_name column))
      then Some excel_col
      else validate_match rest column
  end.

(** One pass of the loop over [self.columns]. *)
Definition validate_column (excel_cols : list string) (result : Report.t)
  (column : ColumnDefinition) : Report.t :=
  match validate_match excel_cols column with
  | Some excel_col =>
      {| Report.valid := Report.valid result;
         Report.rows := Report.rows result;
         Report.columns := Report.columns result;
         Report.matched_columns :=
           Report.matched_columns result
           ++ [{| Report.catalogue_column := display_name column;
                  Report.excel_column := excel_col;
                  Report.required := required column |}];
         Report.unmatched_columns := Report.unmatched_columns result;
         Report.missing_columns := Report.missing_columns result;
         Report.errors := Report.errors result |}
  | None =>
      if required column then
        {| Report.valid := Report.valid result;
           Report.rows := Report.rows result;
           Report.columns := Report.columns result;
           Report.matched_columns := Report.matched_columns result;
           Report.unmatched_columns := Report.unmatched_columns result;
           Report.missing_columns := Report.missing_columns result ++ [display_name column];
           Report.errors := Report.errors result |}
      else
        {| Report.valid := Report.valid result;
           Report.rows := Report.rows result;
           Report.columns := Report.columns result;
           Report.matched_columns := Report.matched_columns result;
           Report.unmatched_columns := Report.unmatched_columns result ++ [display_name column];
           Report.missing_columns := Report.missing_columns result;
           Report.errors := Report.errors result |}
  end.

(** [validate_excel_format] on a sheet that could be read. *)
Definition validate_excel_format (columns : list ColumnDefinition) (df : DataFrame) : Report.t :=
  let result :=
    {| Report.valid := true;
       Report.rows := length (df_rows df);
       Report.columns := df_columns df;
       Report.matched_columns := [];
       Report.unmatched_columns := [];
       Report.missing_columns := [];
       Report.errors := [] |} in
  let excel_cols := Str.strip <$> df_columns df in
  let result := fold_left (validate_column excel_cols) columns result in
  match Report.missing_columns result with
  | [] => result
  | missing =>
      {| Report.valid := false;
         Report.rows := Report.rows result;
         Report.columns := Report.columns result;
         Report.matched_columns := Report.matched_columns result;
         Report.unmatched_columns := Report.unmatched_columns result;
         Report.missing_columns := missing;
         Report.errors :=
           Report.errors result
           ++ [("Missing required columns: " +:+ Str.join ", " missing)%string] |}
  end.

(** ** Import of the rows ([import_from_excel], after the mapping) *)

(** [df.rename(columns=column_mapping)] on the headers. *)
Definition rename (column_mapping : gmap string string) (excel_cols : list string)
  : list string :=
  (fun excel_col => default excel_col (column_mapping !! excel_col)) <$> excel_cols.

(** The cells of a row under a label; a frame has one cell under each
    header. *)
Definition row_cells (df_cols : list string) (row : list PyVal) (label : string)
  : list PyVal :=
  snd <$> filter (fun kv => fst kv = label) (zip df_cols row).

Section ImportRows.
Context {platform : Platform}.

(** The value an item takes for a column.  [row[column.name]] is the
    cell when one header bears the name; when several do it is a
    [Series], and [if pd.isna(...)] raises on its truth value. *)
Definition import_value (df_cols : list string) (row : list PyVal)
  (column : ColumnDefinition) : result PyVal :=
  if bool_decide (name column ∈ df_cols) then
    match row_cells df_cols row (name column) with
    | [raw_value] =>
        if Py.isna raw_value then Ok (default_or_type_default column)
        else _convert_excel_value raw_value column
    | _ => Raise ValueError
    end
  else Ok (default_or_type_default column).

(** The loop over [self.columns] that fills the item of a row. *)
Fixpoint import_item (df_cols : list string) (row : list PyVal)
  (columns : list ColumnDefinition) (item : gmap string PyVal)
  : result (gmap string PyVal) :=
  match columns with
  | [] => Ok item
  | column :: rest =>
      let! value := import_value df_cols row column in
      import_item df_cols row rest (<[name column := value]> item)
  end.

(** [value is not None and str(value).strip()] *)
Definition filled (value : PyVal) : bool :=
  negb (Py.is_none value) && negb (Str.is_empty (Str.strip (Py.str value))).

Definition _is_valid_item (columns : list ColumnDefinition) (item : gmap string PyVal)
  : bool :=
  let required_columns := filter (fun col => required col = true) columns in
  match required_columns with
  | [] => existsb (fun kv => filled (snd kv)) (map_to_list item)
  | _ =>
      existsb (fun column =>
                 match item !! name column with
                 | Some value => filled value
                 | None => false
                 end)
              required_columns
  end.

(** The loop over the rows of the frame. *)
Fixpoint import_rows (columns : list ColumnDefinition) (df_cols : list string)
  (rows : list (list PyVal)) (items : list (gmap string PyVal))
  : result (list (gmap string PyVal)) :=
  match rows with
  | [] => Ok items
  | row :: rest =>
      let! item := import_item df_cols row columns ∅ in
      import_rows columns df_cols rest
        (if _is_valid_item columns item then items ++ [item] else items)
  end.

(** [import_from_excel] on a sheet that could be read.  Whatever is
    raised inside is raised again as an [Exception] whose message starts
    as below and goes on with the text of the cause. *)
Definition import_from_excel (columns : list ColumnDefinition) (df : DataFrame)
  : result (list (gmap string PyVal)) :=
  let excel_cols := Str.strip <$> df_columns df in
  let df_cols := rename (column_mapping (df_columns df) columns) excel_cols in
  match import_rows columns df_cols (df_rows df) [] with
  | Ok items => Ok items
  | Raise _ => Raise (Exception_ "Error reading Excel file: ")
  end.

End ImportRows.

(** ** Export of a value ([_format_value_for_excel]) *)

Section ExportValue.
Context {platform : Platform}.

Definition _format_value_for_excel (value : PyVal) (column : ColumnDefinition)
  : result PyVal :=
  if Py.is_none value || Py.eq_empty value then Ok (PStr "")
  else if String.eqb (data_type column) "boolean" then
    match value with
    | PBool b => Ok (PStr (if b then "Yes" else "No"))
    | PInt _ | PStr _ => Ok (PStr (if Py.truthy value then "Yes" else "No"))
    | _ => Ok (PStr "No")
    end
  else if String.eqb (data_type column) "decimal" then
    except_value_type (let! f := Py.float value in Ok (PFloat f)) (Ok (PFloat Float.zero))
  else if String.eqb (data_type column) "number" then
    except_value_type (let! n := Py.int value in Ok (PInt n)) (Ok (PInt 0))
  else Ok (PStr (Py.str value)).

End ExportValue.

(** ** The setup wizard ([ColumnEditor], [SetupWizard.create_catalogue]) *)

(** [s.replace(' ', '_')] *)
Fixpoint replace_space (s : string) : string :=
  match s with
  | EmptyString => EmptyString
  | String c r => String (if Ascii.eqb c " " then "_"%char else c) (replace_space r)
  end.

(** The fields of a column editor, as they are typed. *)
Record ColumnEditor : Type := {
  name_input : string;
  display_name_input : string;
  data_type_combo : string;
  required_checkbox : bool;
  default_value_input : string
}.

Definition get_column_definition (editor : ColumnEditor) : ColumnDefinition :=
  {| name := replace_space (Str.lower (Str.strip (name_input editor)));
     display_name := Str.strip (display_name_input editor);
     data_type := data_type_combo editor;
     required := required_checkbox editor;
     default_value := Str.strip (default_value_input editor) |}.

Definition is_valid (editor : ColumnEditor) : bool :=
  negb (Str.is_empty (Str.strip (name_input editor)))
  && negb (Str.is_empty (Str.strip (display_name_input editor))).

(** How [create_catalogue] ends: with a warning, with the question about
    required fields answered No, or with the configuration
    [get_catalogue_config] returns afterwards. *)
Inductive Outcome : Type :=
| Warning (message : string)
| Declined
| Accepted (config : Config).

(** The loop of [create_catalogue] over the editors, each with the title
    of its group box. *)
Fixpoint validate_columns (column_editors : list (string * ColumnEditor))
  (columns : list ColumnDefinition) (column_names : gset string)
  : string + list ColumnDefinition :=
  match column_editors with
  | [] => inr columns
  | (title, editor) :: rest =>
      if negb (is_valid editor)
      then inl ("Please complete all fields for " +:+ title +:+ "!")%string
      else
        let col_def := get_column_definition editor in
        if bool_decide (name col_def ∈ column_names)
        then inl ("Duplicate column name: " +:+ name col_def +:+ "!")%string
        else validate_columns rest (columns ++ [col_def]) ({[ name col_def ]} ∪ column_names)
  end.

(** [create_catalogue]; [reply_yes] is the answer to the question asked
    when no column is required. *)
Definition create_catalogue (catalogue_name_input : string)
  (column_editors : list (string * ColumnEditor)) (reply_yes : bool) : Outcome :=
  let catalogue_name := Str.strip catalogue_name_input in
  if Str.is_empty catalogue_name then Warning "Please enter a catalogue name!"
  else
    match validate_columns column_editors [] ∅ with
    | inl message => Warning message
    | inr columns =>
        if negb (existsb required columns) && negb reply_yes then Declined
        else Accepted {| config_name := catalogue_name; config_columns := columns |}
    end.

(** ** The manager across sessions and the import loop of the window *)

(** [DynamicDatabaseManager(db_path)] on the database file of an earlier
    session: the new manager holds no configuration until it loads one,
    and the file is as it was. *)
Definition reopen (st : Store) : Store :=
  {| catalogue_config := None;
     config_table := config_table st;
     catalogue_items := catalogue_items st;
     sqlite_sequence := sqlite_sequence st |}.

Section ImportLoop.
Context {platform : Platform}.


End ImportLoop.

(** * Vocabulary of the properties *)

(** Containment of the label in the header or of the header in the
    label, case set aside. *)
Definition overlaps (column : ColumnDefinition) (h : string) : bool :=
  Str.contains (Str.lower (display_name column)) (Str.lower h)
  || Str.contains (Str.lower h) (Str.lower (display_name column)).

(** The inputs the specification calls true: a text that lowercases to
    one of the tokens, or a value other than text that is true natively. *)
Definition reads_true (tokens : list string) (x : PyVal) : bool :=
  match x with
  | PStr s => Py.str_in (Str.lower s) tokens
  | _ => Py.truthy x
  end.

(** The logical types of the specification, the tag the code keeps for
    each in [data_type], and the storage primitive the specification
    gives it. *)
Inductive logical_type : Type := LText | LInteger | LDecimal | LDate | LBoolean.

Definition type_tag (t : logical_type) : string :=
  match t with
  | LText => "text"
  | LInteger => "number"
  | LDecimal => "decimal"
  | LDate => "date"
  | LBoolean => "boolean"
  end.

Definition storage_primitive (t : logical_type) : string :=
  match t with
  | LText => "TEXT"
  | LInteger => "INTEGER"
  | LDecimal => "REAL"
  | LDate => "TEXT"
  | LBoolean => "INTEGER"
  end.

(** A header is the first of its kind in a list. *)
Definition first_such (P : string -> Prop) (excel_cols : list string) (h : string) : Prop :=
  exists before after, excel_cols = before ++ h :: after /\ P h /\ Forall (fun h' => ~ P h') before.

(** The keys of a catalogue are distinct and none is the name of an audit
    column. *)
Definition distinct_keys (columns : list ColumnDefinition) : Prop :=
  NoDup ((name <$> columns) ++ ["created_date"; "modified_date"]%string).

(** The Configured state: the manager holds a configuration, whose keys
    are distinct, and the row table exists with [rows]. *)
Definition Configured (st : Store) (config : Config) (rows : list Row) : Prop :=
  catalogue_config st = Some config
  /\ catalogue_items st = Some rows
  /\ distinct_keys (config_columns config).

(** Every character of a text passes a test. *)
Fixpoint all_chars (p : ascii -> bool) (s : string) : bool :=
  match s with
  | EmptyString => true
  | String c r => p c && all_chars p r
  end.

(** A sanitised key, as the specification has it: a non-empty word of
    lowercase letters, digits and underscores. *)
Definition is_key_char (c : ascii) : bool :=
  ((97 <=? Str.code c) && (Str.code c <=? 122)) || Str.is_digit c || Ascii.eqb c "_".

Definition sanitised (key : string) : bool :=
  negb (Str.is_empty key) && all_chars is_key_char key.

(** A valid configuration of the specification: its keys are sanitised,
    distinct, and none is the name of the surrogate key or of an audit
    column. *)
Definition valid_config (config : Config) : Prop :=
  Forall (fun col => sanitised (name col) = true) (config_columns config)
  /\ NoDup (table_columns (config_columns config)).

(** A valid configuration whose statement SQLite is known to execute: no
    key is a word SQLite refuses as a column name, no declared default
    holds a quote, a NUL or a character outside ASCII, the columns are at
    most 1997 (2000 with the surrogate key and the audit columns) and the
    statement is shorter than a hundred million characters. *)
Definition plain_config (config : Config) : Prop :=
  valid_config config
  /\ Forall (fun col => Sql.refused_name (name col) = false
                        /\ all_chars Sql.is_literal_char (default_value col) = true)
            (config_columns config)
  /\ Z.of_nat (length (config_columns config)) <= 1997
  /\ Z.of_nat (String.length (_generate_table_sql (config_columns config))) < 10 ^ 8.

(** The database of the platform is SQLite: it executes the statements
    [Sql.create_table] says it executes and refuses those it says it
    refuses. *)
Definition follows_sqlite (platform : Platform) : Prop :=
  forall sql verdict, Sql.create_table sql = Some verdict -> accepts_ddl sql = verdict.

(** The statement of the specification for a list of columns: the
    surrogate key, a line per column, the two audit columns.  A tag that
    is none of the five logical types is stored as TEXT. *)
Definition logical_type_of (tag : string) : option logical_type :=
  if String.eqb tag "text" then Some LText
  else if String.eqb tag "number" then Some LInteger
  else if String.eqb tag "decimal" then Some LDecimal
  else if String.eqb tag "date" then Some LDate
  else if String.eqb tag "boolean" then Some LBoolean
  else None.

Definition column_line (column : ColumnDefinition) : string :=
  "    " +:+ name column +:+ " "
  +:+ match logical_type_of (data_type column) with
      | Some t => storage_primitive t
      | None => "TEXT"
      end
  +:+ " " +:+ (if required column then "NOT NULL" else "")
  +:+ " " +:+ (if String.eqb (default_value column) "" then ""
               else "DEFAULT '" +:+ default_value column +:+ "'")
  +:+ ",".

Fixpoint column_lines (columns : list ColumnDefinition) (rest : string) : string :=
  match columns with
  | [] => rest
  | column :: columns' => column_line column +:+ Str.nl +:+ column_lines columns' rest
  end.

Definition table_statement (columns : list ColumnDefinition) : string :=
  "CREATE TABLE catalogue_items (" +:+ Str.nl
  +:+ "    id INTEGER PRIMARY KEY AUTOINCREMENT," +:+ Str.nl
  +:+ column_lines columns
        ("    created_date TEXT," +:+ Str.nl
         +:+ "    modified_date TEXT" +:+ Str.nl
         +:+ ")").

(** The scanner of [Sql] run over a part of a statement: the tokens it
    completes and the state it is left in. *)
Fixpoint scan_run (state : Sql.scanning) (text : string)
  : option (list Sql.token * Sql.scanning) :=
  match text with
  | EmptyString => Some ([], state)
  | String c rest =>
      match Sql.next state c with
      | Some (ts, state') =>
          match scan_run state' rest with
          | Some (ts', state'') => Some (ts ++ ts', state'')
          | None => None
          end
      | None => None
      end
  end.

(** The tokens of the line of a column. *)
Definition column_tokens (col : ColumnDefinition) : list Sql.token :=
  [Sql.TWord (name col); Sql.TWord (_get_sql_type (data_type col))]
  ++ (if required col then [Sql.TWord "NOT"; Sql.TWord "NULL"] else [])
  ++ (if String.eqb (default_value col) "" then []
      else [Sql.TWord "DEFAULT"; Sql.TLiteral (default_value col)]).

(** The keys and defaults the scanner reads as words and literals. *)
Definition scanned (col : ColumnDefinition) : Prop :=
  name col <> ""%string
  /\ all_chars Sql.is_word_char (name col) = true
  /\ all_chars Sql.is_literal_char (default_value col) = true.

(** The tokens of the statement of a list of columns. *)
Definition statement_tokens (columns : list ColumnDefinition) : list Sql.token :=
  [Sql.TWord "CREATE"; Sql.TWord "TABLE"; Sql.TWord "catalogue_items"; Sql.TOpen;
   Sql.TWord "id"; Sql.TWord "INTEGER"; Sql.TWord "PRIMARY"; Sql.TWord "KEY";
   Sql.TWord "AUTOINCREMENT"; Sql.TComma]
  ++ concat ((fun col => column_tokens col ++ [Sql.TComma]) <$> columns)
  ++ [Sql.TWord "created_date"; Sql.TWord "TEXT"; Sql.TComma;
      Sql.TWord "modified_date"; Sql.TWord "TEXT"; Sql.TClose].

(** The value [add_item] reads for a column: the one supplied, or the
    declared default for a missing key. *)
Definition raw_value (item_data : gmap string PyVal) (col : ColumnDefinition) : PyVal :=
  dict_get item_data (name col) (PStr (default_value col)).



(** The text columns of a catalogue, as [search_items] lists them. *)
Definition text_columns (config : Config) : list string :=
  name <$> filter (fun col => data_type col = "text"%string) (config_columns config).


(** The columns a mapping supplies a value for, in definition order. *)
Definition assigned (columns : list ColumnDefinition) (item_data : gmap string PyVal)
  : list ColumnDefinition :=
  filter (fun col => is_Some (item_data !! name col)) columns.






(** What every store reached from a fresh database satisfies: the
    configuration the manager holds is the stored one, the stored one has
    distinct keys, the row table exists exactly when a configuration is
    stored, and the rows are in increasing order of id, none above the
    sequence counter. *)
Definition well_formed (st : Store) : Prop :=
  (forall config, catalogue_config st = Some config ->
     exists row, config_table st = Some row
                 /\ stored_name row = config_name config
                 /\ stored_columns row = config_columns config)
  /\ (forall row, config_table st = Some row -> distinct_keys (stored_columns row))
  /\ (is_Some (config_table st) <-> is_Some (catalogue_items st))
  /\ (forall rows, catalogue_items st = Some rows ->
        StronglySorted Z.lt (row_id <$> rows)
        /\ Forall (fun r => row_id r <= sqlite_sequence st) rows).

(** One call of the manager that returns. *)
Inductive step {platform : Platform} : Store -> Store -> Prop :=
| step_create st current_time config :
    step st (snd (create_catalogue_structure st current_time config))
| step_load st :
    step st (snd (load_catalogue_config st))
| step_add st current_time item_data new_id st' :
    add_item st current_time item_data = Ok (new_id, st') -> step st st'
| step_update st current_time item_id item_data matched st' :
    update_item st current_time item_id item_data = Ok (matched, st') -> step st st'
| step_delete st item_id deleted st' :
    delete_item st item_id = Ok (deleted, st') -> step st st'.

Inductive reachable {platform : Platform} : Store -> Prop :=
| reachable_initial : reachable initial_store
| reachable_step st st' : reachable st -> step st st' -> reachable st'.



(** A value exported and imported again: [_convert_excel_value] on what
    [_format_value_for_excel] returns. *)
Definition export_import_value {platform : Platform} (value : PyVal)
  (column : ColumnDefinition) : result PyVal :=
  let! formatted := _format_value_for_excel value column in
  _convert_excel_value formatted column.

(** A value of the Python type the import path gives a column: an int for
    number, a float for decimal, a bool for boolean, and a str for text,
    date and any other tag. *)
Definition has_column_type (data_type : string) (v : PyVal) : bool :=
  match v with
  | PInt _ => String.eqb data_type "number"
  | PFloat _ => String.eqb data_type "decimal"
  | PBool _ => String.eqb data_type "boolean"
  | PStr _ =>
      negb (String.eqb data_type "number" || String.eqb data_type "decimal"
            || String.eqb data_type "boolean")
  | _ => false
  end.

(** What [_convert_value] makes of a value the import path has converted:
    a boolean becomes 1 or 0, the empty text None, and every other value
    is kept. *)
Definition as_stored (converted : PyVal) : PyVal :=
  match converted with
  | PBool b => PInt (Py.int_of_bool b)
  | PStr EmptyString => PNone
  | _ => converted
  end.

(** ** Stores and catalogues of the examples *)

(** A platform to run closed examples on.  None of them prints a float;
    the numeric texts they store are short decimals, which SQLite reads as
    [float()] does; the database follows [Sql.create_table] and refuses
    the statements it gives no verdict on. *)
Definition example_platform : Platform :=
  {| float_repr := fun _ => "0.0"%string;
     sql_real_text := fun _ => "0.0"%string;
     sql_real_of_text := fun s => default Float.zero (Literal.parse_float s);
     accepts_ddl := fun sql => default false (Sql.create_table sql) |}.

(** The clock of the examples. *)
Definition example_clock : Sql.clock :=
  {| Sql.date_now := "2024-01-01";
     Sql.time_now := "10:30:00";
     Sql.timestamp_now := "2024-01-01 10:30:00" |}.

(** The catalogue of the scenario of the specification. *)
Definition scenario_config : Config :=
  {| config_name := "Parts";
     config_columns :=
       [ {| name := "name"; display_name := "Name"; data_type := "text";
            required := true; default_value := "" |};
         {| name := "qty"; display_name := "Quantity"; data_type := "number";
            required := false; default_value := "0" |} ] |}.

Definition scenario_store : Store :=
  snd (create_catalogue_structure (platform := example_platform)
         initial_store "2024-01-01T09:00:00" scenario_config).

(** The scenario store after [add_item({name: "Bolt"})]. *)
Definition scenario_store_with_row : Store :=
  match add_item (platform := example_platform) scenario_store "2024-01-01T10:00:00"
          {[ "name"%string := PStr "Bolt" ]} with
  | Ok (_, st) => st
  | Raise _ => scenario_store
  end.

(** A sheet for the scenario catalogue: a row "Bolt" and a row of empty
    cells. *)
Definition scenario_sheet : DataFrame :=
  {| df_columns := ["Name"; "Quantity"];
     df_rows := [[PStr "Bolt"; PInt 12]; [PFloat S754_nan; PFloat S754_nan]] |}.

(** A sheet without the column of the quantities. *)
Definition names_sheet : DataFrame :=
  {| df_columns := ["Name"]; df_rows := [[PStr "Bolt"]] |}.

(** The columns of a catalogue whose required column is an integer
    without declared default. *)
Definition counted_columns : list ColumnDefinition :=
  [ {| name := "name"; display_name := "Name"; data_type := "text";
       required := false; default_value := "" |};
    {| name := "qty"; display_name := "Quantity"; data_type := "number";
       required := true; default_value := "" |} ].

(** A sheet whose quantity is the text "inf". *)
Definition infinite_sheet : DataFrame :=
  {| df_columns := ["Name"; "Quantity"]; df_rows := [[PStr "Bolt"; PStr "inf"]] |}.

(** The editors of the wizard, filled in for the scenario catalogue. *)
Definition scenario_editors : list (string * ColumnEditor) :=
  [ ("Column 1",
     {| name_input := " Name"; display_name_input := "Name"; data_type_combo := "text";
        required_checkbox := true; default_value_input := "" |});
    ("Column 2",
     {| name_input := "Qty"; display_name_input := "Quantity "; data_type_combo := "number";
        required_checkbox := false; default_value_input := "0" |}) ]%string.

(** * Properties *)

(** ** Literals and floats on examples *)

Example parse_float_three :
  Literal.parse_float "3.0" = Some (S754_finite false 6755399441055744 (-51))
  /\ Float.to_int (S754_finite false 6755399441055744 (-51)) = Ok 3.
Proof. split; reflexivity. Qed.

Example parse_float_tenth :
  Literal.parse_float " 0.1 " = Some (S754_finite false 7205759403792794 (-56)).
Proof. reflexivity. Qed.

Example parse_float_rounds_to_nearest :
  Literal.parse_float "1e23" = Some (S754_finite false 5960464477539062 24)
  /\ Literal.parse_float "9007199254740993" = Some (S754_finite false 4503599627370496 1).
Proof. split; vm_compute; reflexivity. Qed.

Example parse_float_special :
  Literal.parse_float "-Infinity" = Some (S754_infinity true)
  /\ Literal.parse_float "NaN" = Some S754_nan
  /\ Literal.parse_float "1e400" = Some (S754_infinity false)
  /\ Literal.parse_float "1_0.5e1_0" = Some (S754_finite false 6881280000000000 (-16)).
Proof. repeat split; vm_compute; reflexivity. Qed.

Example parse_float_rejects :
  Literal.parse_float "." = None /\ Literal.parse_float "1e" = None
  /\ Literal.parse_float "1__0" = None /\ Literal.parse_float "abc" = None
  /\ Literal.parse_float "" = None.
Proof. repeat split. Qed.

Example parse_int_examples :
  Literal.parse_int " 3_0 " = Some 30 /\ Literal.parse_int "-12" = Some (-12)
  /\ Literal.parse_int "3.0" = None /\ Literal.parse_int "+ 3" = None
  /\ Literal.parse_int "" = None.
Proof. repeat split. Qed.

Example float_to_int_truncates :
  (let! f := Py.float (PStr "-2.9") in Float.to_int f) = Ok (-2)
  /\ (let! f := Py.float (PStr "2.9") in Float.to_int f) = Ok 2
  /\ (let! f := Py.float (PStr "inf") in Float.to_int f) = Raise OverflowError
  /\ (let! f := Py.float (PStr "nan") in Float.to_int f) = Raise ValueError
  /\ Py.float (PInt (2 ^ 1024)) = Raise OverflowError.
Proof. repeat split; vm_compute; reflexivity. Qed.

Example strip_lower_contains :
  Str.strip "  Item Name  " = "Item Name"%string
  /\ Str.lower "Item Name" = "item name"%string
  /\ Str.contains "name" "item name" = true
  /\ Str.contains "item name" "name" = false
  /\ Str.of_Z (-12) = "-12"%string.
Proof. repeat split. Qed.

Example like_examples :
  Sql.like "%ol%" "Bolt" = true /\ Sql.like "%OL%" "Bolt" = true
  /\ Sql.like "%b_l%" "Bolt" = true /\ Sql.like "%x%" "Bolt" = false
  /\ Sql.like "%%" "" = true.
Proof. repeat split. Qed.

(** ** Type mapper *)

Lemma to_int_raises f e :
  Float.to_int f = Raise e -> e = ValueError \/ e = OverflowError.
Proof. destruct f; simpl; intros Hr; inversion Hr; auto. Qed.

Lemma int_raises v e :
  Py.int v = Raise e -> e = ValueError \/ e = TypeError \/ e = OverflowError.
Proof.
  destruct v; simpl; intros Hr; try (inversion Hr; auto; fail).
  - apply to_int_raises in Hr. tauto.
  - destruct (Literal.parse_int s); inversion Hr; auto.
Qed.

Lemma float_raises v e :
  Py.float v = Raise e -> e = ValueError \/ e = TypeError \/ e = OverflowError.
Proof.
  destruct v; simpl; intros Hr; try (inversion Hr; auto; fail).
  - unfold Float.of_int in Hr. destruct (Float.round_Z n); inversion Hr; auto.
  - destruct (Literal.parse_float s); inversion Hr; auto.
Qed.

Section TypeMapperFacts.
Context {platform : Platform}.

Lemma convert_value_attempt_raises value ty e :
  convert_value_attempt value ty = Raise e ->
  e = ValueError \/ e = TypeError \/ e = OverflowError.
Proof.
  unfold convert_value_attempt.
  destruct (String.eqb ty "number").
  { destruct (Py.int value) eqn:Hi; simpl; [discriminate|].
    intros Hr; inversion Hr; subst. eapply int_raises; eauto. }
  destruct (String.eqb ty "decimal").
  { destruct (Py.float value) eqn:Hf; simpl; [discriminate|].
    intros Hr; inversion Hr; subst. eapply float_raises; eauto. }
  destruct (String.eqb ty "boolean"); [destruct value|]; discriminate.
Qed.

Lemma convert_excel_attempt_raises value column e :
  convert_excel_attempt value column = Raise e ->
  e = ValueError \/ e = TypeError \/ e = OverflowError.
Proof.
  unfold convert_excel_attempt.
  destruct (String.eqb (data_type column) "number").
  { destruct (Py.float value) eqn:Hf; simpl.
    - destruct (Float.to_int a) eqn:Hi; simpl; [discriminate|].
      intros Hr; inversion Hr; subst. apply to_int_raises in Hi. tauto.
    - intros Hr; inversion Hr; subst. eapply float_raises; eauto. }
  destruct (String.eqb (data_type column) "decimal").
  { destruct (Py.float value) eqn:Hf; simpl; [discriminate|].
    intros Hr; inversion Hr; subst. eapply float_raises; eauto. }
  destruct (String.eqb (data_type column) "boolean"); [destruct value; discriminate|].
  destruct (String.eqb (data_type column) "date"); [|discriminate].
  destruct (Py.isna value); [discriminate|]. destruct value; discriminate.
Qed.


Lemma except_value_type_benign {A} (body handler : result A) e :
  body = Raise e -> e <> OverflowError ->
  e = ValueError \/ e = TypeError \/ e = OverflowError ->
  except_value_type body handler = handler.
Proof. intros -> Hne [-> | [-> | ->]]; simpl; congruence. Qed.

Lemma except_value_type_raises {A} (body handler h : result A) e :
  (forall e', body = Raise e' -> e' = ValueError \/ e' = TypeError \/ e' = OverflowError) ->
  handler = h -> (forall e', h <> Raise e') ->
  except_value_type body handler = Raise e -> e = OverflowError.
Proof.
  intros Hb -> Hh. unfold except_value_type.
  destruct body as [a | e0]; [discriminate|].
  destruct (Hb e0 eq_refl) as [-> | [-> | ->]]; intros Hr.
  - exfalso. eapply Hh; eauto.
  - exfalso. eapply Hh; eauto.
  - congruence.
Qed.

End TypeMapperFacts.

(** The zero value of a type, as [_get_default_for_type] lists them. *)
Lemma type_zero_values :
  _get_default_for_type "text" = PStr ""
  /\ _get_default_for_type "number" = PInt 0
  /\ _get_default_for_type "decimal" = PFloat (S754_zero false)
  /\ _get_default_for_type "date" = PStr ""
  /\ _get_default_for_type "boolean" = PBool false.
Proof. repeat split. Qed.

(** C1 (as stated, refuted).  On the store's write path an input that
    cannot be converted comes back as it was: the text "abc" offered to a
    decimal column is returned unchanged, not as 0.0 or a default. *)
Lemma store_coercion_returns_unconverted_input :
  _convert_value (platform := example_platform) (PStr "abc") "decimal" = Ok (PStr "abc")
  /\ Py.float (PStr "abc") = Raise ValueError.
Proof. split; reflexivity. Qed.

(** C1 (amended).  Coercion raises nothing but an [OverflowError].  On the
    import path a missing value, the empty string and every input whose
    conversion fails with a [ValueError] or [TypeError] yield the column's
    declared default when it is not empty and the zero value of the type
    otherwise; so an unparseable text in a decimal column without declared
    default yields 0.0.  On the store's write path [None] and the empty
    string yield [None], and every other input whose conversion fails with
    a [ValueError] or [TypeError] is returned unchanged. *)
Theorem coercion_failure_policy {platform : Platform}
  (value : PyVal) (column : ColumnDefinition) (ty : string) :
  (forall e, _convert_excel_value value column = Raise e -> e = OverflowError)
  /\ (Py.isna value || Py.eq_empty value = true ->
      _convert_excel_value value column = Ok (default_or_type_default column))
  /\ (forall e, convert_excel_attempt value column = Raise e -> e <> OverflowError ->
      _convert_excel_value value column = Ok (default_or_type_default column))
  /\ (default_value column <> ""%string ->
      default_or_type_default column = PStr (default_value column))
  /\ (default_value column = ""%string ->
      default_or_type_default column = _get_default_for_type (data_type column))
  /\ (forall s, data_type column = "decimal"%string -> default_value column = ""%string ->
      Literal.parse_float s = None ->
      _convert_excel_value (PStr s) column = Ok (PFloat (S754_zero false)))
  /\ (forall e, _convert_value value ty = Raise e -> e = OverflowError)
  /\ (Py.is_none value || Py.eq_empty value = true -> _convert_value value ty = Ok PNone)
  /\ (forall e, Py.is_none value || Py.eq_empty value = false ->
      convert_value_attempt value ty = Raise e -> e <> OverflowError ->
      _convert_value value ty = Ok value).
Proof.
  repeat apply conj.
  - intros e. unfold _convert_excel_value.
    destruct (Py.isna value || Py.eq_empty value); [discriminate|].
    eapply except_value_type_raises; [|reflexivity|discriminate].
    intros e'. apply convert_excel_attempt_raises.
  - intros Hm. unfold _convert_excel_value. now rewrite Hm.
  - intros e Hr Hne. unfold _convert_excel_value.
    destruct (Py.isna value || Py.eq_empty value); [reflexivity|].
    eapply except_value_type_benign; eauto using convert_excel_attempt_raises.
  - intros Hd. unfold default_or_type_default.
    destruct (default_value column); [congruence | reflexivity].
  - intros Hd. unfold default_or_type_default. now rewrite Hd.
  - intros s Hty Hd Hp. unfold _convert_excel_value, convert_excel_attempt,
      default_or_type_default.
    rewrite Hty, Hd. simpl. rewrite Hp. simpl.
    destruct (Str.is_empty s); reflexivity.
  - intros e. unfold _convert_value.
    destruct (Py.is_none value || Py.eq_empty value); [discriminate|].
    eapply except_value_type_raises; [|reflexivity|discriminate].
    intros e'. apply convert_value_attempt_raises.
  - intros Hm. unfold _convert_value. now rewrite Hm.
  - intros e Hm Hr Hne. unfold _convert_value. rewrite Hm.
    eapply except_value_type_benign; eauto using convert_value_attempt_raises.
Qed.

(** The policy of C1 at work: "abc" in a decimal column. *)
Lemma coercion_failure_policy_witness :
  let column := {| name := "price"; display_name := "Price"; data_type := "decimal";
                   required := false; default_value := "" |} in
  _convert_excel_value (platform := example_platform) (PStr "abc") column
    = Ok (PFloat (S754_zero false))
  /\ _convert_value (platform := example_platform) (PStr "abc") "decimal" = Ok (PStr "abc").
Proof.
  intros column.
  pose proof (coercion_failure_policy (platform := example_platform)
                (PStr "abc") column "decimal") as Hp.
  split.
  - apply Hp; reflexivity.
  - destruct Hp as (_ & _ & _ & _ & _ & _ & _ & _ & Hs).
    apply (Hs ValueError); [reflexivity | reflexivity | discriminate].
Defined.

(** C2 (as stated, refuted).  The store's write path applies [int()] to the
    input itself: "3.0" is no integer literal and is kept as text, and the
    empty string becomes [None] whatever the declared default. *)
Lemma store_integer_coercion_keeps_decimal_text :
  _convert_value (platform := example_platform) (PStr "3.0") "number" = Ok (PStr "3.0")
  /\ _convert_value (platform := example_platform) (PStr "3.0") "number" <> Ok (PInt 3)
  /\ _convert_value (platform := example_platform) (PStr "") "number" = Ok PNone.
Proof. split; [reflexivity | split; [discriminate | reflexivity]]. Qed.

(** C2 (amended).  For an integer column the import path parses through a
    float and truncates, so "3.0" gives 3, and the empty string gives the
    declared default or 0; the store's write path parses an integer
    literal directly, so it keeps "3.0" as text and turns the empty string
    into [None]. *)
Theorem integer_coercion {platform : Platform} (column : ColumnDefinition) :
  data_type column = "number"%string ->
  _convert_excel_value (PStr "3.0") column = Ok (PInt 3)
  /\ _convert_excel_value (PStr "") column
     = Ok (if Str.is_empty (default_value column) then PInt 0
           else PStr (default_value column))
  /\ (forall value f n,
        Py.isna value || Py.eq_empty value = false ->
        Py.float value = Ok f -> Float.to_int f = Ok n ->
        _convert_excel_value value column = Ok (PInt n))
  /\ _convert_value (PStr "3.0") (data_type column) = Ok (PStr "3.0")
  /\ _convert_value (PStr "") (data_type column) = Ok PNone
  /\ (forall value n,
        Py.is_none value || Py.eq_empty value = false ->
        Py.int value = Ok n ->
        _convert_value value (data_type column) = Ok (PInt n)).
Proof.
  intros Hty. repeat apply conj.
  - unfold _convert_excel_value, convert_excel_attempt. rewrite Hty. reflexivity.
  - unfold _convert_excel_value, default_or_type_default. rewrite Hty. reflexivity.
  - intros value f n Hm Hf Hn.
    unfold _convert_excel_value, convert_excel_attempt. rewrite Hm, Hty. simpl.
    rewrite Hf. simpl. rewrite Hn. reflexivity.
  - rewrite Hty. reflexivity.
  - rewrite Hty. reflexivity.
  - intros value n Hm Hn. rewrite Hty.
    unfold _convert_value, convert_value_attempt. rewrite Hm. simpl.
    rewrite Hn. reflexivity.
Qed.

Lemma integer_coercion_witness :
  let column := {| name := "qty"; display_name := "Quantity"; data_type := "number";
                   required := false; default_value := "" |} in
  _convert_excel_value (platform := example_platform) (PStr "3.0") column = Ok (PInt 3)
  /\ _convert_excel_value (platform := example_platform) (PStr "") column = Ok (PInt 0).
Proof.
  intros column.
  destruct (integer_coercion (platform := example_platform) column eq_refl)
    as (H3 & H0 & _).
  split; [exact H3 | exact H0].
Defined.

(** ** Boolean coercion *)

Lemma truthy_flag (b : bool) : Py.truthy (PInt (if b then 1 else 0)) = b.
Proof. now destruct b. Qed.

(** C6 (as stated, refuted).  On the import path the empty string of a
    boolean column with declared default "yes" is coerced to that default,
    the text "yes", which is true, although the empty string is none of
    the tokens; and a missing cell, the float NaN, which is true natively,
    is coerced to [False] when the column declares no default. *)
Lemma import_boolean_empty_takes_default :
  let with_default := {| name := "active"; display_name := "Active";
                         data_type := "boolean"; required := false;
                         default_value := "yes" |} in
  let without_default := {| name := "active"; display_name := "Active";
                            data_type := "boolean"; required := false;
                            default_value := "" |} in
  _convert_excel_value (platform := example_platform) (PStr "") with_default
    = Ok (PStr "yes")
  /\ Py.truthy (PStr "yes") = true
  /\ reads_true import_truthy_tokens (PStr "") = false
  /\ _convert_excel_value (platform := example_platform) (PFloat S754_nan) without_default
      = Ok (PBool false)
  /\ reads_true import_truthy_tokens (PFloat S754_nan) = true.
Proof. repeat split. Qed.

(** C6 (amended).  For a boolean column the store's write path coerces
    every input [x] to a value that is true exactly when [x] is a text
    that lowercases to one of "true", "1", "yes", "on" or a value other
    than text that is true natively.  The import path does the same, with
    "y" accepted besides, for every input that is neither missing nor the
    empty string; a missing or empty input yields the declared default
    when it is not empty and [False] otherwise. *)
Theorem boolean_coercion {platform : Platform} (column : ColumnDefinition) (x : PyVal) :
  data_type column = "boolean"%string ->
  (exists r, _convert_value x (data_type column) = Ok r
             /\ Py.truthy r = reads_true truthy_tokens x)
  /\ (Py.isna x || Py.eq_empty x = false ->
      exists r, _convert_excel_value x column = Ok r
                /\ Py.truthy r = reads_true import_truthy_tokens x)
  /\ (Py.isna x || Py.eq_empty x = true ->
      _convert_excel_value x column
      = Ok (if Str.is_empty (default_value column) then PBool false
            else PStr (default_value column))).
Proof.
  intros Hty. repeat apply conj.
  - rewrite Hty. destruct x as [ | b | n | f | s | d t].
    + exists PNone. split; reflexivity.
    + exists (PInt (if b then 1 else 0)). split; [reflexivity | apply truthy_flag].
    + exists (PInt (if Py.truthy (PInt n) then 1 else 0)).
      split; [reflexivity | apply truthy_flag].
    + exists (PInt (if Py.truthy (PFloat f) then 1 else 0)).
      split; [reflexivity | apply truthy_flag].
    + destruct s as [|c s]; [exists PNone; split; reflexivity|].
      exists (PInt (if Py.str_in (Str.lower (String c s)) truthy_tokens then 1 else 0)).
      split; [reflexivity | apply truthy_flag].
    + exists (PInt 1). split; reflexivity.
  - intros Hm. unfold _convert_excel_value, convert_excel_attempt. rewrite Hm, Hty. simpl.
    destruct x as [ | b | n | f | s | d t]; eexists; split; reflexivity.
  - intros Hm. unfold _convert_excel_value, default_or_type_default. rewrite Hm, Hty.
    reflexivity.
Qed.

Lemma boolean_coercion_witness :
  let column := {| name := "active"; display_name := "Active"; data_type := "boolean";
                   required := false; default_value := "" |} in
  exists r, _convert_excel_value (platform := example_platform) (PStr "Y") column = Ok r
            /\ Py.truthy r = true.
Proof.
  intros column.
  destruct (boolean_coercion (platform := example_platform) column (PStr "Y") eq_refl)
    as (_ & Himport & _).
  exact (Himport eq_refl).
Defined.

(** ** Schema builder *)

Lemma get_sql_type_storage_primitive (t : logical_type) :
  _get_sql_type (type_tag t) = storage_primitive t.
Proof. destruct t; reflexivity. Qed.

Lemma fold_left_snoc_map {A B} (f : A -> B) (l : list A) (init : list B) :
  fold_left (fun parts a => parts ++ [f a]) l init = init ++ (f <$> l).
Proof.
  revert init. induction l as [|a l IH]; intros init; simpl.
  - now rewrite app_nil_r.
  - rewrite IH. now rewrite <- app_assoc.
Qed.

Lemma get_sql_type_logical_type (tag : string) :
  _get_sql_type tag
  = match logical_type_of tag with
    | Some t => storage_primitive t
    | None => "TEXT"%string
    end.
Proof.
  unfold _get_sql_type, type_mapping, logical_type_of. cbn [literal_get].
  rewrite !(String.eqb_sym _ tag).
  repeat (destruct (String.eqb tag _); [reflexivity|]). reflexivity.
Qed.

Lemma column_sql_line (column : ColumnDefinition) : column_sql column = column_line column.
Proof.
  unfold column_sql, column_line. cbv zeta. rewrite get_sql_type_logical_type.
  now destruct (default_value column).
Qed.

Lemma join_column_lines (columns : list ColumnDefinition) (line : string)
  (lines : list string) :
  Str.join Str.nl ((column_sql <$> columns) ++ line :: lines)
  = column_lines columns (Str.join Str.nl (line :: lines)).
Proof.
  induction columns as [|column columns IH]; [reflexivity|].
  cbn [fmap list_fmap app column_lines]. rewrite <- IH, <- column_sql_line.
  destruct columns; reflexivity.
Qed.

Lemma generate_table_sql_statement (columns : list ColumnDefinition) :
  _generate_table_sql columns = table_statement columns.
Proof.
  unfold _generate_table_sql, table_statement. cbv zeta. rewrite fold_left_snoc_map.
  rewrite <- !app_assoc. cbn [app].
  change (Str.join Str.nl ("CREATE TABLE catalogue_items ("%string
                           :: "    id INTEGER PRIMARY KEY AUTOINCREMENT,"%string
                           :: (column_sql <$> columns)
                              ++ ["    created_date TEXT,"; "    modified_date TEXT"; ")"]%string))
    with ("CREATE TABLE catalogue_items (" +:+ Str.nl
          +:+ Str.join Str.nl
                ("    id INTEGER PRIMARY KEY AUTOINCREMENT,"%string
                 :: (column_sql <$> columns)
                    ++ ["    created_date TEXT,"; "    modified_date TEXT"; ")"]%string)).
  f_equal. f_equal.
  transitivity ("    id INTEGER PRIMARY KEY AUTOINCREMENT," +:+ Str.nl
                +:+ Str.join Str.nl
                      ((column_sql <$> columns)
                       ++ ["    created_date TEXT,"; "    modified_date TEXT"; ")"]%string)).
  - destruct columns; reflexivity.
  - now rewrite join_column_lines.
Qed.

(** C7.  The generated statement is, line by line: the opening line, the
    surrogate integer primary key, one line per column definition in
    definition order, the two audit timestamp columns and the closing
    line.  The line of a column carries its name, the storage primitive of
    its type (text: TEXT, integer: INTEGER, decimal: REAL, date: TEXT,
    boolean: INTEGER), [NOT NULL] exactly when the column is required and a
    literal [DEFAULT] clause exactly when its declared default is not
    empty. *)
Theorem generate_table_sql_layout (columns : list ColumnDefinition) :
  _generate_table_sql columns
  = "CREATE TABLE catalogue_items (" +:+ Str.nl
    +:+ "    id INTEGER PRIMARY KEY AUTOINCREMENT," +:+ Str.nl
    +:+ column_lines columns
          ("    created_date TEXT," +:+ Str.nl
           +:+ "    modified_date TEXT" +:+ Str.nl
           +:+ ")")
  /\ forall (column : ColumnDefinition) (t : logical_type),
       data_type column = type_tag t ->
       column_line column
       = "    " +:+ name column +:+ " " +:+ storage_primitive t
         +:+ " " +:+ (if required column then "NOT NULL" else "")
         +:+ " " +:+ (if String.eqb (default_value column) "" then ""
                      else "DEFAULT '" +:+ default_value column +:+ "'")
         +:+ ",".
Proof.
  split.
  - apply generate_table_sql_statement.
  - intros column t Ht. unfold column_line. rewrite Ht. now destruct t.
Qed.

(** The statement of the scenario of the specification: a required text
    column and an integer column with declared default 0. *)
Lemma generate_table_sql_layout_witness :
  _generate_table_sql
    [ {| name := "name"; display_name := "Name"; data_type := "text";
         required := true; default_value := "" |};
      {| name := "qty"; display_name := "Quantity"; data_type := "number";
         required := false; default_value := "0" |} ]
  = "CREATE TABLE catalogue_items (" +:+ Str.nl
    +:+ "    id INTEGER PRIMARY KEY AUTOINCREMENT," +:+ Str.nl
    +:+ "    name TEXT NOT NULL ," +:+ Str.nl
    +:+ "    qty INTEGER  DEFAULT '0'," +:+ Str.nl
    +:+ "    created_date TEXT," +:+ Str.nl
    +:+ "    modified_date TEXT" +:+ Str.nl
    +:+ ")".
Proof.
  set (name_column := {| name := "name"; display_name := "Name"; data_type := "text";
                         required := true; default_value := "" |}).
  set (qty_column := {| name := "qty"; display_name := "Quantity"; data_type := "number";
                        required := false; default_value := "0" |}).
  destruct (generate_table_sql_layout [name_column; qty_column]) as [Hsql Hline].
  rewrite Hsql. cbn [column_lines].
  rewrite (Hline name_column LText eq_refl), (Hline qty_column LInteger eq_refl).
  reflexivity.
Defined.

(** ** Column matcher *)

Section ColumnMatcher.
Variable excel_cols : list string.

Lemma map_columns_snoc (columns : list ColumnDefinition) (column : ColumnDefinition) :
  fst (map_columns excel_cols (columns ++ [column]))
  = match matched_header excel_cols column with
    | Some excel_col => <[excel_col := name column]> (fst (map_columns excel_cols columns))
    | None => fst (map_columns excel_cols columns)
    end.
Proof.
  unfold map_columns. rewrite fold_left_app. simpl.
  destruct (fold_left (map_column excel_cols) columns (∅, [])) as [m u].
  unfold map_column. now destruct (matched_header excel_cols column).
Qed.

(** The mapping gives a header to the last column definition that took it. *)
Lemma map_columns_last (columns : list ColumnDefinition) (h : string) :
  fst (map_columns excel_cols columns) !! h
  = name <$> last (filter (fun c => matched_header excel_cols c = Some h) columns).
Proof.
  induction columns as [|column columns IH] using rev_ind.
  - reflexivity.
  - rewrite map_columns_snoc, filter_app.
    destruct (matched_header excel_cols column) as [h'|] eqn:Hm.
    + destruct (decide (h' = h)) as [->|Hne].
      * rewrite lookup_insert_eq.
        rewrite (filter_cons_True _ column []) by exact Hm.
        rewrite filter_nil, last_snoc. reflexivity.
      * rewrite lookup_insert_ne by exact Hne.
        rewrite (filter_cons_False _ column []) by congruence.
        rewrite filter_nil, app_nil_r. exact IH.
    + rewrite (filter_cons_False _ column []) by congruence.
      rewrite filter_nil, app_nil_r. exact IH.
Qed.

Lemma exact_match_Some column h :
  exact_match excel_cols column = Some h ->
  exists before after,
    excel_cols = before ++ h :: after
    /\ Str.lower h = Str.lower (display_name column)
    /\ Forall (fun h' => Str.lower h' <> Str.lower (display_name column)) before.
Proof.
  induction excel_cols as [|x l IH]; simpl; [discriminate|].
  destruct (String.eqb_spec (Str.lower x) (Str.lower (display_name column))) as [He|Hne].
  - intros [= <-]. exists [], l. auto.
  - intros Hm. destruct (IH Hm) as (before & after & -> & Hh & Hb).
    exists (x :: before), after. auto.
Qed.

Lemma exact_match_None column :
  exact_match excel_cols column = None ->
  Forall (fun h' => Str.lower h' <> Str.lower (display_name column)) excel_cols.
Proof.
  induction excel_cols as [|x l IH]; simpl; [constructor|].
  destruct (String.eqb_spec (Str.lower x) (Str.lower (display_name column))) as [He|Hne].
  - discriminate.
  - auto.
Qed.

Lemma partial_match_Some column h :
  partial_match excel_cols column = Some h ->
  exists before after,
    excel_cols = before ++ h :: after
    /\ overlaps column h = true
    /\ Forall (fun h' => overlaps column h' = false) before.
Proof.
  induction excel_cols as [|x l IH]; simpl; [discriminate|].
  fold (overlaps column x). destruct (overlaps column x) eqn:Ho.
  - intros [= <-]. exists [], l. auto.
  - intros Hm. destruct (IH Hm) as (before & after & -> & Hh & Hb).
    exists (x :: before), after. auto.
Qed.

Lemma partial_match_None column :
  partial_match excel_cols column = None ->
  Forall (fun h' => overlaps column h' = false) excel_cols.
Proof.
  induction excel_cols as [|x l IH]; simpl; [constructor|].
  fold (overlaps column x). destruct (overlaps column x) eqn:Ho; [discriminate | auto].
Qed.

End ColumnMatcher.

Lemma exact_match_first column before h after :
  Str.lower h = Str.lower (display_name column) ->
  Forall (fun h' => Str.lower h' <> Str.lower (display_name column)) before ->
  exact_match (before ++ h :: after) column = Some h.
Proof.
  intros Hh Hb. induction Hb as [|x l Hx Hl IH]; simpl.
  - rewrite Hh, String.eqb_refl. reflexivity.
  - destruct (String.eqb_spec (Str.lower x) (Str.lower (display_name column)));
      [contradiction | exact IH].
Qed.

Lemma exact_match_absent column excel_cols :
  Forall (fun h' => Str.lower h' <> Str.lower (display_name column)) excel_cols ->
  exact_match excel_cols column = None.
Proof.
  intros Hb. induction Hb as [|x l Hx Hl IH]; simpl; [reflexivity|].
  destruct (String.eqb_spec (Str.lower x) (Str.lower (display_name column)));
    [contradiction | exact IH].
Qed.

Lemma partial_match_first column before h after :
  overlaps column h = true ->
  Forall (fun h' => overlaps column h' = false) before ->
  partial_match (before ++ h :: after) column = Some h.
Proof.
  intros Hh Hb. induction Hb as [|x l Hx Hl IH]; simpl.
  - fold (overlaps column h). now rewrite Hh.
  - fold (overlaps column x). now rewrite Hx.
Qed.

(** C3 (as stated, refuted).  With the single header "Name", the column
    labelled "Name" takes it by equality and the later column labelled
    "Item Name" takes it again by containment: the mapping ends with the
    header given to the later column, the earlier match displaced. *)
Lemma later_match_displaces_earlier :
  let c1 := {| name := "name"; display_name := "Name"; data_type := "text";
               required := true; default_value := "" |} in
  let c2 := {| name := "item_name"; display_name := "Item Name"; data_type := "text";
               required := false; default_value := "" |} in
  matched_header ["Name"%string] c1 = Some "Name"%string
  /\ matched_header ["Name"%string] c2 = Some "Name"%string
  /\ column_mapping ["Name"%string] [c1; c2] !! "Name"%string = Some "item_name"%string
  /\ column_mapping ["Name"%string] [c1; c2] !! "Name"%string <> Some (name c1).
Proof.
  assert (Hm : column_mapping ["Name"%string]
                 [ {| name := "name"; display_name := "Name"; data_type := "text";
                      required := true; default_value := "" |};
                   {| name := "item_name"; display_name := "Item Name"; data_type := "text";
                      required := false; default_value := "" |} ] !! "Name"%string
               = Some "item_name"%string) by (vm_compute; reflexivity).
  cbv zeta. repeat split; try reflexivity; try exact Hm.
  rewrite Hm. discriminate.
Qed.

(** C3 (amended).  Each column definition is tried in order, and takes the
    first header equal to its label, case set aside, or, when no header is
    equal, the first header that contains the label or is contained in it;
    it does so whether or not an earlier definition took the same header.
    The mapping gives a header to one column only, and a header taken by
    several column definitions stays with the last of them: a later match
    replaces an earlier one. *)
Theorem column_matching (headers : list string) (columns : list ColumnDefinition) :
  let excel_cols := Str.strip <$> headers in
  (forall column h,
      matched_header excel_cols column = Some h <->
      first_such (fun h' => Str.lower h' = Str.lower (display_name column)) excel_cols h
      \/ (Forall (fun h' => Str.lower h' <> Str.lower (display_name column)) excel_cols
          /\ first_such (fun h' => overlaps column h' = true) excel_cols h))
  /\ (forall h,
        column_mapping headers columns !! h
        = name <$> last (filter (fun c => matched_header excel_cols c = Some h) columns))
  /\ (forall h k1 k2,
        column_mapping headers columns !! h = Some k1 ->
        column_mapping headers columns !! h = Some k2 -> k1 = k2).
Proof.
  intros excel_cols. repeat apply conj.
  - intros column h. unfold matched_header, first_such. split.
    + destruct (exact_match excel_cols column) as [h'|] eqn:He.
      * intros [= <-]. left. apply exact_match_Some in He.
        destruct He as (before & after & Heq & Hh & Hb).
        exists before, after. repeat split; auto.
      * intros Hp. right. split; [now apply exact_match_None|].
        apply partial_match_Some in Hp.
        destruct Hp as (before & after & Heq & Hh & Hb).
        exists before, after. repeat split; auto.
        eapply Forall_impl; [exact Hb|]. simpl. intros x Hx. now rewrite Hx.
    + intros [(before & after & Heq & Hh & Hb) | (Hnone & before & after & Heq & Hh & Hb)].
      * rewrite Heq, exact_match_first; auto.
      * rewrite exact_match_absent by exact Hnone.
        rewrite Heq. apply partial_match_first; [exact Hh|].
        eapply Forall_impl; [exact Hb|]. simpl. intros x Hx.
        now destruct (overlaps column x).
  - intros h. apply map_columns_last.
  - intros h k1 k2 H1 H2. congruence.
Qed.

(** The scenario of the specification: the header "Item Name" goes to the
    column labelled "Name" by containment. *)
Lemma column_matching_witness :
  column_mapping ["Item Name"%string]
    [ {| name := "name"; display_name := "Name"; data_type := "text";
         required := true; default_value := "" |} ] !! "Item Name"%string
  = Some "name"%string.
Proof.
  destruct (column_matching ["Item Name"%string]
              [ {| name := "name"; display_name := "Name"; data_type := "text";
                   required := true; default_value := "" |} ]) as (_ & Hlast & _).
  rewrite Hlast. vm_compute. reflexivity.
Defined.

(** ** Catalogue store *)

Lemma map_result_Forall2 {A B} (f : A -> result B) (l : list A) (bs : list B) :
  map_result f l = Ok bs <-> Forall2 (fun a b => f a = Ok b) l bs.
Proof.
  revert bs. induction l as [|a l IH]; intros bs; simpl.
  - split; [intros [= <-]; constructor | intros Hf; now inversion Hf].
  - destruct (f a) as [b|e] eqn:Hfa; simpl.
    + destruct (map_result f l) as [bs'|e] eqn:Hm; simpl.
      * split.
        -- intros [= <-]. constructor; [exact Hfa | now apply IH].
        -- intros Hf. inversion Hf as [|? b' ? bs'' Hb Hbs]; subst.
           apply IH in Hbs. congruence.
      * split; [discriminate|].
        intros Hf. inversion Hf as [|? b' ? bs'' Hb Hbs]; subst.
        apply IH in Hbs. discriminate.
    + split; [discriminate|].
      intros Hf. inversion Hf as [|? b' ? bs'' Hb Hbs]; subst. congruence.
Qed.







Lemma fold_max_le (rows : list Row) (seq : Z) :
  seq <= fold_left (fun m r => Z.max m (row_id r)) rows seq
  /\ forall r, r ∈ rows -> row_id r <= fold_left (fun m r => Z.max m (row_id r)) rows seq.
Proof.
  revert seq. induction rows as [|r rows IH]; intros seq; simpl.
  - split; [lia | intros r Hr; inversion Hr].
  - destruct (IH (Z.max seq (row_id r))) as [Hs Hr]. split; [lia|].
    intros r' Hin. apply elem_of_cons in Hin as [-> | Hin]; [lia | now apply Hr].
Qed.

Lemma next_rowid_fresh (rows : list Row) (seq : Z) :
  seq < next_rowid rows seq /\ forall r, r ∈ rows -> row_id r < next_rowid rows seq.
Proof.
  unfold next_rowid. destruct (fold_max_le rows seq) as [Hs Hr]. split; [lia|].
  intros r Hin. specialize (Hr r Hin). lia.
Qed.

Lemma distinct_column_names_keys (columns : list ColumnDefinition) :
  distinct_column_names columns = true -> distinct_keys columns.
Proof.
  unfold distinct_column_names, distinct_keys, table_columns. intros Hd.
  apply bool_decide_eq_true in Hd. apply NoDup_fmap_1 in Hd.
  now apply NoDup_cons in Hd as [_ Hd].
Qed.





Section StoreFacts.
Context {platform : Platform}.








End StoreFacts.

Section AddItem.
Context {platform : Platform}.




End AddItem.




(** ** The statement SQLite reads *)

Lemma string_app_cons (x : ascii) (a b : string) : String x a +:+ b = String x (a +:+ b).
Proof. reflexivity. Qed.

Lemma string_app_assoc (a b c : string) : (a +:+ b) +:+ c = a +:+ (b +:+ c).
Proof. induction a as [|x a IH]; [reflexivity|]. rewrite !string_app_cons. now rewrite IH. Qed.

Lemma string_app_empty_r (a : string) : a +:+ "" = a.
Proof. induction a as [|x a IH]; [reflexivity|]. rewrite string_app_cons. now rewrite IH. Qed.

Lemma scan_app (state state' : Sql.scanning) (text rest : string) (ts : list Sql.token) :
  scan_run state text = Some (ts, state') ->
  Sql.scan state (text +:+ rest) = ts ++ Sql.scan state' rest.
Proof.
  revert state ts. induction text as [|c text IH]; intros state ts Hrun.
  - injection Hrun as <- <-. reflexivity.
  - cbn [scan_run] in Hrun. rewrite string_app_cons. cbn [Sql.scan].
    destruct (Sql.next state c) as [[ts1 state1]|]; [|discriminate].
    destruct (scan_run state1 text) as [[ts2 state2]|] eqn:Hrest; [|discriminate].
    injection Hrun as <- <-. rewrite (IH _ _ Hrest). now rewrite app_assoc.
Qed.

Lemma scan_run_word (w a : string) :
  all_chars Sql.is_word_char w = true ->
  scan_run (Sql.InWord a) w = Some ([], Sql.InWord (a +:+ w)).
Proof.
  revert a. induction w as [|c w IH]; intros a Hw.
  - now rewrite string_app_empty_r.
  - cbn [all_chars] in Hw. apply andb_true_iff in Hw as [Hc Hw].
    cbn [scan_run Sql.next]. rewrite Hc, (IH _ Hw), string_app_assoc. reflexivity.
Qed.

Lemma scan_run_name (w : string) :
  w <> ""%string -> all_chars Sql.is_word_char w = true ->
  scan_run Sql.Between w = Some ([], Sql.InWord w).
Proof.
  destruct w as [|c w]; [congruence|]. intros _ Hw.
  cbn [all_chars] in Hw. apply andb_true_iff in Hw as [Hc Hw].
  cbn [scan_run Sql.next]. unfold Sql.enter. rewrite Hc, (scan_run_word _ _ Hw). reflexivity.
Qed.

Lemma scan_run_literal (d a : string) :
  all_chars Sql.is_literal_char d = true ->
  scan_run (Sql.InLiteral a) d = Some ([], Sql.InLiteral (a +:+ d)).
Proof.
  revert a. induction d as [|c d IH]; intros a Hd.
  - now rewrite string_app_empty_r.
  - cbn [all_chars] in Hd. apply andb_true_iff in Hd as [Hc Hd].
    cbn [scan_run Sql.next]. rewrite Hc.
    assert (Hq : (Str.code c =? 39) = false).
    { unfold Sql.is_literal_char in Hc. apply andb_true_iff in Hc as [_ Hc].
      now apply negb_true_iff in Hc. }
    rewrite Hq, (IH _ Hd), string_app_assoc. reflexivity.
Qed.

Lemma scan_run_app (state : Sql.scanning) (a b : string) :
  scan_run state (a +:+ b)
  = match scan_run state a with
    | Some (ts, state') =>
        match scan_run state' b with
        | Some (ts', state'') => Some (ts ++ ts', state'')
        | None => None
        end
    | None => None
    end.
Proof.
  revert state. induction a as [|c a IH]; intros state.
  - change ("" +:+ b) with b. cbn [scan_run].
    now destruct (scan_run state b) as [[ts state']|].
  - rewrite string_app_cons. cbn [scan_run].
    destruct (Sql.next state c) as [[ts1 state1]|]; [|reflexivity].
    rewrite IH. destruct (scan_run state1 a) as [[ts2 state2]|]; [|reflexivity].
    destruct (scan_run state2 b) as [[ts3 state3]|]; [|reflexivity].
    now rewrite app_assoc.
Qed.

Lemma get_sql_type_cases (tag : string) :
  _get_sql_type tag = "TEXT"%string \/ _get_sql_type tag = "INTEGER"%string
  \/ _get_sql_type tag = "REAL"%string.
Proof.
  rewrite get_sql_type_logical_type.
  destruct (logical_type_of tag) as [[]|]; cbn; tauto.
Qed.

(** The scanner run over a text without variable part. *)
Ltac scan_eval :=
  match goal with
  | |- context [scan_run ?state ?text] =>
      let r := eval vm_compute in (scan_run state text) in
      change (scan_run state text) with r; cbv beta iota
  end.

Ltac scan_piece := rewrite scan_run_app; scan_eval.

Lemma scan_run_column_line (col : ColumnDefinition) :
  name col <> ""%string ->
  all_chars Sql.is_word_char (name col) = true ->
  all_chars Sql.is_literal_char (default_value col) = true ->
  scan_run Sql.Between (column_line col +:+ Str.nl)
  = Some (column_tokens col ++ [Sql.TComma], Sql.Between).
Proof.
  intros Hne Hname Hdefault.
  unfold column_line, column_tokens. rewrite <- get_sql_type_logical_type.
  rewrite !string_app_assoc. scan_piece.
  rewrite scan_run_app, (scan_run_name _ Hne Hname). cbv beta iota.
  destruct (default_value col) as [|c d] eqn:Hd.
  - destruct (get_sql_type_cases (data_type col)) as [-> | [-> | ->]];
      destruct (required col); scan_eval; reflexivity.
  - change (String.eqb (String c d) "") with false. cbv iota.
    rewrite !string_app_assoc.
    assert (Hlit : forall a, scan_run (Sql.InLiteral a) (String c d +:+ "'" +:+ "," +:+ Str.nl)
                             = Some ([Sql.TLiteral (a +:+ String c d); Sql.TComma], Sql.Between)).
    { intros a. rewrite scan_run_app, (scan_run_literal _ _ Hdefault). cbv beta iota.
      reflexivity. }
    destruct (get_sql_type_cases (data_type col)) as [-> | [-> | ->]];
      destruct (required col);
      do 6 scan_piece; rewrite Hlit; reflexivity.
Qed.

Lemma scan_column_lines (columns : list ColumnDefinition) (rest : string) :
  Forall scanned columns ->
  Sql.scan Sql.Between (column_lines columns rest)
  = concat ((fun col => column_tokens col ++ [Sql.TComma]) <$> columns)
    ++ Sql.scan Sql.Between rest.
Proof.
  induction 1 as [|col columns (Hne & Hname & Hdefault) _ IH]; [reflexivity|].
  cbn [column_lines fmap list_fmap concat]. rewrite <- string_app_assoc.
  rewrite (scan_app _ _ _ _ _ (scan_run_column_line col Hne Hname Hdefault)).
  rewrite IH, <- !app_assoc. reflexivity.
Qed.

Lemma scan_table_statement (columns : list ColumnDefinition) :
  Forall scanned columns ->
  Sql.scan Sql.Between (table_statement columns) = statement_tokens columns.
Proof.
  intros Hcolumns. unfold table_statement, statement_tokens.
  do 4 (erewrite scan_app by (vm_compute; reflexivity)).
  rewrite (scan_column_lines _ _ Hcolumns). reflexivity.
Qed.

Lemma split_commas_group (group rest acc : list Sql.token) :
  Forall (fun t => t <> Sql.TComma) group ->
  Sql.split_commas (group ++ Sql.TComma :: rest) acc
  = (acc ++ group) :: Sql.split_commas rest [].
Proof.
  intros Hgroup. revert acc. induction Hgroup as [|t group Ht _ IH]; intros acc.
  - now rewrite app_nil_r.
  - cbn [app Sql.split_commas]. destruct t; try congruence; rewrite IH, <- app_assoc; reflexivity.
Qed.

Lemma split_commas_last (group acc : list Sql.token) :
  Forall (fun t => t <> Sql.TComma) group ->
  Sql.split_commas group acc = [acc ++ group].
Proof.
  intros Hgroup. revert acc. induction Hgroup as [|t group Ht _ IH]; intros acc.
  - now rewrite app_nil_r.
  - cbn [Sql.split_commas]. destruct t; try congruence; rewrite IH, <- app_assoc; reflexivity.
Qed.

Lemma column_tokens_no_comma (col : ColumnDefinition) :
  Forall (fun t => t <> Sql.TComma) (column_tokens col).
Proof.
  unfold column_tokens.
  destruct (required col), (String.eqb (default_value col) ""); repeat constructor; discriminate.
Qed.

Lemma split_commas_columns (columns : list ColumnDefinition) (rest : list Sql.token) :
  Sql.split_commas (concat ((fun col => column_tokens col ++ [Sql.TComma]) <$> columns) ++ rest) []
  = (column_tokens <$> columns) ++ Sql.split_commas rest [].
Proof.
  induction columns as [|col columns IH]; [reflexivity|].
  cbn [fmap list_fmap concat]. rewrite <- !app_assoc. cbn [app].
  rewrite split_commas_group by apply column_tokens_no_comma.
  cbn [app]. now rewrite IH.
Qed.

Lemma plain_column_tokens (col : ColumnDefinition) :
  Sql.plain_column (column_tokens col) = Some (name col).
Proof.
  unfold column_tokens.
  destruct (get_sql_type_cases (data_type col)) as [-> | [-> | ->]];
    destruct (required col), (String.eqb (default_value col) ""); reflexivity.
Qed.

Lemma create_table_columns_statement (columns : list ColumnDefinition) :
  Forall scanned columns ->
  Sql.create_table_columns (table_statement columns) = Some (table_columns columns).
Proof.
  intros Hcolumns. unfold Sql.create_table_columns.
  rewrite (scan_table_statement _ Hcolumns). unfold statement_tokens.
  cbn [app]. cbn [Sql.is_word String.eqb Ascii.eqb Bool.eqb andb].
  match goal with
  | |- context [reverse ?l] =>
      replace l
        with ((Sql.TWord "id" :: Sql.TWord "INTEGER" :: Sql.TWord "PRIMARY" :: Sql.TWord "KEY"
               :: Sql.TWord "AUTOINCREMENT" :: Sql.TComma
               :: concat ((fun col => column_tokens col ++ [Sql.TComma]) <$> columns)
                  ++ [Sql.TWord "created_date"; Sql.TWord "TEXT"; Sql.TComma;
                      Sql.TWord "modified_date"; Sql.TWord "TEXT"])
              ++ [Sql.TClose])
        by (cbn [app]; rewrite <- app_assoc; reflexivity)
  end.
  rewrite reverse_snoc, reverse_involutive.
  match goal with
  | |- context [Sql.split_commas (?i :: ?a :: ?b :: ?c :: ?d :: Sql.TComma :: ?rest) []] =>
      change (Sql.split_commas (i :: a :: b :: c :: d :: Sql.TComma :: rest) [])
        with (Sql.split_commas ([i; a; b; c; d] ++ Sql.TComma :: rest) [])
  end.
  rewrite split_commas_group by (repeat constructor; discriminate).
  rewrite split_commas_columns.
  change (Sql.split_commas [Sql.TWord "created_date"; Sql.TWord "TEXT"; Sql.TComma;
                            Sql.TWord "modified_date"; Sql.TWord "TEXT"] [])
    with [[Sql.TWord "created_date"; Sql.TWord "TEXT"];
          [Sql.TWord "modified_date"; Sql.TWord "TEXT"]].
  change (Sql.primary_key_column _) with (Some "id"%string). cbn [mbind option_bind].
  assert (Hnames : mapM Sql.plain_column
                     ((column_tokens <$> columns)
                      ++ [[Sql.TWord "created_date"; Sql.TWord "TEXT"];
                          [Sql.TWord "modified_date"; Sql.TWord "TEXT"]])
                   = Some ((name <$> columns) ++ ["created_date"; "modified_date"]%string)).
  { apply mapM_Some. apply Forall2_app.
    - apply Forall2_fmap, Forall_Forall2_diag, Forall_forall. intros col _.
      apply plain_column_tokens.
    - repeat constructor. }
  rewrite Hnames. reflexivity.
Qed.

Lemma all_chars_impl (p q : ascii -> bool) (s : string) :
  (forall c, p c = true -> q c = true) -> all_chars p s = true -> all_chars q s = true.
Proof.
  intros Hpq. induction s as [|c s IH]; [reflexivity|].
  cbn [all_chars]. rewrite !andb_true_iff. intros [Hc Hs]. auto.
Qed.

Lemma key_char_word_char (c : ascii) : is_key_char c = true -> Sql.is_word_char c = true.
Proof.
  unfold is_key_char, Sql.is_word_char.
  destruct ((97 <=? Str.code c) && (Str.code c <=? 122)); [reflexivity|].
  destruct (Str.is_digit c); [intros _; apply orb_true_iff; left; apply orb_true_r|].
  destruct (Ascii.eqb c "_"); [intros _; apply orb_true_r | discriminate].
Qed.

Lemma key_char_lower (c : ascii) : is_key_char c = true -> Str.lower_char c = c.
Proof.
  unfold is_key_char, Str.lower_char, Str.is_upper, Str.is_digit. intros Hc.
  destruct ((65 <=? Str.code c) && (Str.code c <=? 90)) eqn:Hup; [|reflexivity].
  exfalso. apply andb_true_iff in Hup as [H1 H2]. apply Z.leb_le in H1, H2.
  apply orb_true_iff in Hc as [Hc | Hc]; [apply orb_true_iff in Hc as [Hc | Hc]|].
  - apply andb_true_iff in Hc as [H3 _]. apply Z.leb_le in H3. lia.
  - apply andb_true_iff in Hc as [_ H3]. apply Z.leb_le in H3. lia.
  - apply Ascii.eqb_eq in Hc. subst c. change (Str.code "_") with 95 in H2. lia.
Qed.

Lemma sanitised_lower (key : string) : all_chars is_key_char key = true -> Str.lower key = key.
Proof.
  induction key as [|c key IH]; [reflexivity|].
  cbn [all_chars Str.lower]. rewrite andb_true_iff. intros [Hc Hkey].
  now rewrite (key_char_lower _ Hc), IH.
Qed.

Lemma sanitised_word (key : string) :
  sanitised key = true ->
  key <> ""%string /\ all_chars Sql.is_word_char key = true /\ Str.lower key = key.
Proof.
  unfold sanitised. rewrite andb_true_iff. intros [Hne Hkey]. repeat split.
  - intros ->. discriminate.
  - eapply all_chars_impl; [apply key_char_word_char | exact Hkey].
  - now apply sanitised_lower.
Qed.

Lemma plain_config_names (config : Config) :
  plain_config config ->
  Forall scanned (config_columns config)
  /\ Sql.column_names_ok (table_columns (config_columns config)) = true.
Proof.
  intros ((Hkeys & Hnd) & Hplain & Hcount & _). split.
  - apply Forall_forall. intros col Hin.
    rewrite Forall_forall in Hkeys, Hplain.
    destruct (sanitised_word _ (Hkeys col Hin)) as (Hne & Hword & _).
    destruct (Hplain col Hin) as [_ Hdefault]. repeat split; assumption.
  - unfold Sql.column_names_ok. rewrite !andb_true_iff. repeat split.
    + apply forallb_forall. intros key Hin. apply list_elem_of_In in Hin.
      unfold table_columns in Hin. rewrite elem_of_cons, elem_of_app in Hin.
      destruct Hin as [-> | [Hin | Hin]]; [reflexivity | |].
      * apply list_elem_of_fmap in Hin as (col & -> & Hin).
        rewrite Forall_forall in Hplain. destruct (Hplain col Hin) as [-> _]. reflexivity.
      * rewrite !elem_of_cons, elem_of_nil in Hin. destruct Hin as [-> | [-> | []]]; reflexivity.
    + apply bool_decide_eq_true.
      replace (Str.lower <$> table_columns (config_columns config))
        with (table_columns (config_columns config)); [exact Hnd|].
      unfold table_columns. rewrite fmap_cons, fmap_app. f_equal. f_equal.
      rewrite <- list_fmap_compose. apply list_fmap_ext. intros i col Hi.
      rewrite Forall_forall in Hkeys. cbn.
      symmetry. apply sanitised_word, Hkeys. eapply list_elem_of_lookup_2; eauto.
    + apply Z.leb_le. unfold table_columns, Sql.max_columns.
      cbn [length]. rewrite length_app, length_fmap. cbn [length]. lia.
Qed.

Lemma create_table_plain (config : Config) :
  plain_config config ->
  Sql.create_table (_generate_table_sql (config_columns config)) = Some true.
Proof.
  intros Hplain. destruct (plain_config_names _ Hplain) as [Hscanned Hnames].
  destruct Hplain as (_ & _ & _ & Hlen). unfold Sql.create_table.
  apply Z.ltb_lt in Hlen. rewrite Hlen.
  rewrite generate_table_sql_statement, (create_table_columns_statement _ Hscanned).
  cbn [fmap option_fmap option_map]. now rewrite Hnames.
Qed.

Lemma example_platform_follows_sqlite : follows_sqlite example_platform.
Proof. intros sql verdict Hverdict. cbn. now rewrite Hverdict. Qed.

(** C9 (as stated, refuted).  The catalogue whose one key is [order] is
    valid (the key is sanitised and is no reserved name), but [order] is a
    word SQLite does not take as a column name: the statement fails,
    [create_catalogue_structure] returns false, and the store keeps the
    configuration and the row it held. *)
Lemma create_catalogue_structure_refuses_sql_word :
  let tasks := {| config_name := "Tasks";
                  config_columns :=
                    [ {| name := "order"; display_name := "Order"; data_type := "number";
                         required := false; default_value := "" |} ] |} in
  valid_config tasks
  /\ Sql.create_table (_generate_table_sql (config_columns tasks)) = Some false
  /\ follows_sqlite example_platform
  /\ (exists row, catalogue_items scenario_store_with_row = Some [row])
  /\ create_catalogue_structure (platform := example_platform) scenario_store_with_row
       "2024-01-02T09:00:00" tasks = (false, scenario_store_with_row).
Proof.
  cbv zeta. repeat apply conj.
  - repeat constructor.
  - apply (bool_decide_unpack _). vm_compute. reflexivity.
  - vm_compute. reflexivity.
  - apply example_platform_follows_sqlite.
  - eexists. vm_compute. reflexivity.
  - vm_compute. reflexivity.
Qed.

(** C9 (amended).  On SQLite, whatever the store holds, creating the
    structure of a valid configuration whose keys SQLite takes as column
    names (none is a reserved word of SQL, none starts with a digit), whose
    declared defaults hold no quote, NUL or character outside ASCII, and
    whose table has at most 2000 columns (the statement being shorter than
    a hundred million characters), and creating it again with the same
    configuration, succeeds both times; after each call the store is
    Configured with that configuration and its row table is empty. *)
Theorem create_catalogue_structure_idempotent {platform : Platform}
  (st : Store) (config : Config) (time1 time2 : string) :
  follows_sqlite platform ->
  plain_config config ->
  let first := create_catalogue_structure st time1 config in
  let second := create_catalogue_structure (snd first) time2 config in
  (fst first = true
   /\ Configured (snd first) config []
   /\ get_all_items (snd first) = Ok []
   /\ fst (load_catalogue_config (snd first)) = Some config)
  /\ (fst second = true
      /\ Configured (snd second) config []
      /\ get_all_items (snd second) = Ok []
      /\ fst (load_catalogue_config (snd second)) = Some config).
Proof.
  intros Hsqlite Hplain first second.
  pose proof (Hsqlite _ _ (create_table_plain _ Hplain)) as Hddl.
  destruct (plain_config_names _ Hplain) as [_ Hok].
  assert (Hnames : distinct_column_names (config_columns config) = true).
  { unfold Sql.column_names_ok in Hok. rewrite !andb_true_iff in Hok. tauto. }
  assert (Hcreate : forall s t,
             create_catalogue_structure s t config
             = (true,
                {| catalogue_config := Some config;
                   config_table := Some {| stored_name := config_name config;
                                           stored_columns := config_columns config;
                                           stored_created := t;
                                           stored_modified := t |};
                   catalogue_items := Some [];
                   sqlite_sequence := 0 |})).
  { intros s t. unfold create_catalogue_structure. now rewrite Hnames, Hddl. }
  pose proof (distinct_column_names_keys _ Hnames) as Hdk.
  subst first second. rewrite !Hcreate. simpl.
  destruct config as [n cols]. simpl.
  split; (split; [reflexivity|]; split; [|split; reflexivity]);
    (split; [reflexivity|]; split; [reflexivity | exact Hdk]).
Qed.

Lemma scenario_config_plain : plain_config scenario_config.
Proof.
  split; [split|split; [|split]].
  - repeat constructor.
  - apply (bool_decide_unpack _). vm_compute. reflexivity.
  - repeat constructor.
  - vm_compute. discriminate.
  - vm_compute. reflexivity.
Qed.

(** A store that holds a row is emptied by either call. *)
Lemma create_catalogue_structure_idempotent_witness :
  (exists row, catalogue_items scenario_store_with_row = Some [row])
  /\ let first := create_catalogue_structure (platform := example_platform)
                    scenario_store_with_row "2024-01-02T09:00:00" scenario_config in
     let second := create_catalogue_structure (platform := example_platform)
                     (snd first) "2024-01-02T09:05:00" scenario_config in
     catalogue_items (snd first) = Some [] /\ catalogue_items (snd second) = Some [].
Proof.
  split.
  - eexists. vm_compute. reflexivity.
  - pose proof (create_catalogue_structure_idempotent (platform := example_platform)
                  scenario_store_with_row scenario_config
                  "2024-01-02T09:00:00" "2024-01-02T09:05:00"
                  example_platform_follows_sqlite scenario_config_plain) as Hc.
    cbv zeta in Hc. destruct Hc as ((_ & (_ & H1 & _) & _) & (_ & (_ & H2 & _) & _)).
    split; [exact H1 | exact H2].
Defined.

(** ** Search *)








Section Search.
Context {platform : Platform}.







End Search.

Lemma filter_all {A} (P : A -> Prop) `{forall x, Decision (P x)} (l : list A) :
  (forall x, x ∈ l -> P x) -> filter P l = l.
Proof.
  induction l as [|a l IH]; intros Hall; [reflexivity|].
  rewrite filter_cons_True by (apply Hall; left).
  rewrite IH; [reflexivity|]. intros x Hx. apply Hall. now right.
Qed.




(** The keys SQLite does not read as columns.  A text column keyed
    [cast] is created and filled like any other, but every search of its
    catalogue raises.  A text column keyed [current_date] is not what a
    search compares: the term "2024" finds the row whose cell holds "Bolt",
    by the date of the clock, and the term "Bolt" finds nothing. *)
Example search_items_reads_keys_as_sqlite :
  let notes (key : string) :=
    {| config_name := "Notes";
       config_columns :=
         [ {| name := key; display_name := "Note"; data_type := "text";
              required := false; default_value := "" |} ] |} in
  let filled (key : string) :=
    match add_item (platform := example_platform)
            (snd (create_catalogue_structure (platform := example_platform)
                    initial_store "2024-01-01T09:00:00" (notes key)))
            "2024-01-01T10:00:00" {[ key := PStr "Bolt" ]} with
    | Ok (_, st) => st
    | Raise _ => initial_store
    end in
  (exists row, get_all_items (filled "cast") = Ok [row] /\ cell row "cast" = SText "Bolt")
  /\ search_items (platform := example_platform) (filled "cast") example_clock "Bolt"
     = Raise OperationalError
  /\ search_items (platform := example_platform) (filled "cast") example_clock ""
     = Raise OperationalError
  /\ (exists row,
        get_all_items (filled "current_date") = Ok [row]
        /\ cell row "current_date" = SText "Bolt"
        /\ search_items (platform := example_platform) (filled "current_date")
             example_clock "2024" = Ok [row])
  /\ search_items (platform := example_platform) (filled "current_date")
       example_clock "Bolt" = Ok [].
Proof.
  cbv zeta. repeat apply conj.
  - eexists. split; vm_compute; reflexivity.
  - vm_compute. reflexivity.
  - vm_compute. reflexivity.
  - eexists. repeat split; vm_compute; reflexivity.
  - vm_compute. reflexivity.
Qed.

(** ** Update *)




Section UpdateItem.
Context {platform : Platform}.

Lemma update_item_clauses_acc (columns : list ColumnDefinition)
  (item_data : gmap string PyVal) (set_clauses : list string) (values : list PyVal) :
  update_item_clauses columns item_data set_clauses values
  = let! converted :=
      map_result (fun col => _convert_value (raw_value item_data col) (data_type col))
                 (assigned columns item_data) in
    Ok (set_clauses ++ (name <$> assigned columns item_data), values ++ converted).
Proof.
  revert set_clauses values.
  induction columns as [|col columns IH]; intros set_clauses values; simpl.
  - now rewrite !app_nil_r.
  - unfold assigned. destruct (item_data !! name col) as [raw|] eqn:Hraw.
    + rewrite filter_cons_True by (rewrite Hraw; eauto). simpl.
      unfold raw_value at 1, dict_get. rewrite Hraw. simpl.
      destruct (_convert_value raw (data_type col)) as [v|e]; simpl; [|reflexivity].
      rewrite IH. fold (assigned columns item_data).
      destruct (map_result _ (assigned columns item_data)) as [vs|e]; simpl;
        [|reflexivity].
      now rewrite <- !app_assoc.
    + rewrite filter_cons_False by (rewrite Hraw; intros [? ?]; discriminate).
      apply IH.
Qed.





End UpdateItem.





(** ** NULL for empty values *)

Section EmptyValues.
Context {platform : Platform}.



Lemma update_item_inv (st st' : Store) (current_time : string) (item_id : Z)
  (item_data : gmap string PyVal) (config : Config) (matched : bool) :
  catalogue_config st = Some config ->
  update_item st current_time item_id item_data = Ok (matched, st') ->
  exists rows rows' bound,
    catalogue_items st = Some rows
    /\ catalogue_items st' = Some rows'
    /\ Forall2 (fun col b =>
                  exists v, _convert_value (raw_value item_data col) (data_type col) = Ok v
                            /\ Sql.bind_param v = Ok b)
               (assigned (config_columns config) item_data) bound
    /\ Forall2 (fun r r' =>
                  update_row (config_columns config)
                    ((name <$> assigned (config_columns config) item_data)
                     ++ ["modified_date"%string])
                    (stored_values (config_columns config)
                       ((name <$> assigned (config_columns config) item_data)
                        ++ ["modified_date"%string])
                       (bound ++ [SText current_time]))
                    item_id r = Ok r')
               rows rows'.
Proof.
  intros Hcfg Hupd. unfold update_item in Hupd.
  rewrite Hcfg, update_item_clauses_acc in Hupd.
  destruct (map_result _ (assigned (config_columns config) item_data))
    as [values|] eqn:Hvs; simpl in Hupd; [|discriminate].
  destruct (catalogue_items st) as [rows|]; [|discriminate].
  destruct (Sql.bind_params _) as [bound_all|] eqn:Hb; cbn [bind] in Hupd; [|discriminate].
  destruct ((- 2 ^ 63 <=? item_id) && (item_id <? 2 ^ 63)); cbn [bind] in Hupd;
    [|discriminate].
  destruct (map_result _ rows) as [rows'|] eqn:Hrows'; cbn [bind] in Hupd; [|discriminate].
  injection Hupd as _ <-.
  apply map_result_Forall2 in Hvs. apply map_result_Forall2 in Hb.
  apply map_result_Forall2 in Hrows'.
  apply Forall2_app_inv_l in Hb as (bound & tail & Hst & Htail & ->).
  apply Forall2_cons_inv_l in Htail as (t1 & tail' & [= <-] & Htail & ->).
  apply Forall2_nil_inv_l in Htail as ->.
  exists rows, rows', bound. repeat split; [|exact Hrows'].
  apply Forall2_same_length_lookup.
  split; [rewrite (Forall2_length _ _ _ Hvs); exact (Forall2_length _ _ _ Hst)|].
  intros i col w Hi Hw.
  destruct (Forall2_lookup_l _ _ _ _ _ Hvs Hi) as (v & Hv & Hconv).
  exists v. split; [exact Hconv | exact (Forall2_lookup_lr _ _ _ _ _ _ Hst Hv Hw)].
Qed.


End EmptyValues.




(** ** Invariant of the store *)

Lemma insert_by_id_last (r : Row) (sorted : list Row) :
  Forall (fun r' => row_id r' < row_id r) sorted ->
  insert_by_id r sorted = sorted ++ [r].
Proof.
  induction 1 as [|r' sorted Hr' _ IH]; [reflexivity|].
  simpl. destruct (Z.ltb_spec (row_id r) (row_id r')); [lia|]. now rewrite IH.
Qed.

Lemma order_by_id_sorted (rows : list Row) :
  StronglySorted Z.lt (row_id <$> rows) -> order_by_id rows = rows.
Proof.
  unfold order_by_id. intros Hsorted.
  assert (Hgen : forall acc,
             StronglySorted Z.lt (row_id <$> (acc ++ rows)) ->
             fold_left (fun sorted r => insert_by_id r sorted) rows acc = acc ++ rows).
  { clear Hsorted. induction rows as [|r rows IH]; intros acc Hs; simpl.
    - now rewrite app_nil_r.
    - rewrite insert_by_id_last.
      + rewrite IH; rewrite <- app_assoc; [reflexivity | exact Hs].
      + rewrite fmap_app, fmap_cons in Hs.
        apply Forall_forall. intros r' Hr'.
        apply (StronglySorted_app_1_elem_of _ _ _ (row_id r') (row_id r) Hs).
        * apply list_elem_of_fmap. eauto.
        * left. }
  apply (Hgen []). exact Hsorted.
Qed.

Lemma sorted_ids_filter (P : Row -> Prop) `{forall r, Decision (P r)} (rows : list Row) :
  StronglySorted Z.lt (row_id <$> rows) ->
  StronglySorted Z.lt (row_id <$> filter P rows).
Proof.
  induction rows as [|r rows IH]; intros Hs; [constructor|].
  rewrite fmap_cons in Hs. apply StronglySorted_cons in Hs as [Hall Hs].
  destruct (decide (P r)).
  - rewrite filter_cons_True by assumption. rewrite fmap_cons.
    apply StronglySorted_cons. split; [|now apply IH].
    apply Forall_forall. intros x Hx. rewrite Forall_forall in Hall. apply Hall.
    apply list_elem_of_fmap in Hx as (r' & -> & Hr').
    apply list_elem_of_fmap. exists r'. split; [reflexivity|].
    apply list_elem_of_filter in Hr'. tauto.
  - rewrite filter_cons_False by assumption. now apply IH.
Qed.

Section Invariant.
Context {platform : Platform}.

Lemma update_row_same_id columns set_clauses bound item_id (rows rows' : list Row) :
  Forall2 (fun r r' => update_row columns set_clauses bound item_id r = Ok r') rows rows' ->
  row_id <$> rows' = row_id <$> rows.
Proof.
  induction 1 as [|r r' rows rows' Hr _ IH]; [reflexivity|].
  rewrite !fmap_cons, IH. f_equal.
  unfold update_row in Hr. destruct (row_id r =? item_id).
  - destruct (not_null_ok _ _ _); [|discriminate]. now injection Hr as <-.
  - now injection Hr as <-.
Qed.

Lemma step_well_formed (st st' : Store) :
  well_formed st -> 0 <= sqlite_sequence st -> step st st' ->
  well_formed st' /\ 0 <= sqlite_sequence st'.
Proof.
  intros Hwf Hseq Hstep. pose proof Hwf as (Hconfig & Hkeys & Htable & Hrows).
  destruct Hstep as [st current_time config | st
                    | st current_time item_data new_id st' Hadd
                    | st current_time item_id item_data matched st' Hupd
                    | st item_id deleted st' Hdel].
  - unfold create_catalogue_structure.
    destruct (distinct_column_names (config_columns config)) eqn:Hnames; simpl;
      [|split; assumption].
    destruct (accepts_ddl _); simpl; [|split; assumption].
    split; [|lia]. split; [|split; [|split]]; simpl.
    + intros c [= <-]. eexists. split; [reflexivity|]. split; reflexivity.
    + intros row [= <-]. simpl. now apply distinct_column_names_keys.
    + split; eauto.
    + intros rows [= <-]. split; constructor.
  - unfold load_catalogue_config. destruct (config_table st) as [row|] eqn:Hrow; simpl;
      [|split; assumption].
    split; [|exact Hseq]. split; [|split; [|split]]; simpl.
    + intros c [= <-]. exists row. split; [reflexivity|]. split; reflexivity.
    + exact Hkeys.
    + exact Htable.
    + exact Hrows.
  - unfold add_item in Hadd. destruct (catalogue_config st) as [config|] eqn:Hcfg;
      [|discriminate].
    destruct (add_item_values _ _ _) as [values|]; simpl in Hadd; [|discriminate].
    destruct (catalogue_items st) as [rows|] eqn:Hitems; [|discriminate].
    destruct (Sql.bind_params _) as [bound|]; simpl in Hadd; [|discriminate].
    destruct (not_null_ok _ _ _); [|discriminate].
    injection Hadd as <- <-. simpl.
    destruct (Hrows rows eq_refl) as [Hsorted Hbound].
    destruct (next_rowid_fresh rows (sqlite_sequence st)) as [Hfresh Hids].
    split; [|lia]. split; [|split; [|split]]; simpl.
    + exact Hconfig.
    + exact Hkeys.
    + split; intros _; [eauto|]. apply Htable. eauto.
    + intros rows' [= <-]. split.
      * rewrite fmap_app. apply StronglySorted_app_2.
        -- intros x1 x2 Hx1 Hx2. apply list_elem_of_singleton in Hx2 as ->.
           apply list_elem_of_fmap in Hx1 as (r & -> & Hr). now apply Hids.
        -- exact Hsorted.
        -- repeat constructor.
      * apply Forall_app. split.
        -- eapply Forall_impl; [exact Hbound|]. simpl. intros r Hr. lia.
        -- repeat constructor. simpl. lia.
  - destruct (catalogue_config st) as [config|] eqn:Hcfg.
    + destruct (update_item_inv _ _ _ _ _ _ _ Hcfg Hupd)
        as (rows & rows' & stored & Hitems & Hitems' & _ & Hrel).
      unfold update_item in Hupd. rewrite Hcfg, Hitems in Hupd.
      destruct (update_item_clauses _ _ _ _) as [[sc vs]|]; simpl in Hupd; [|discriminate].
      destruct (Sql.bind_params _); simpl in Hupd; [|discriminate].
      destruct ((- 2 ^ 63 <=? item_id) && (item_id <? 2 ^ 63)); simpl in Hupd;
        [|discriminate].
      destruct (map_result _ rows) as [rows''|]; simpl in Hupd; [|discriminate].
      injection Hupd as _ <-. simpl in *. injection Hitems' as ->.
      destruct (Hrows rows Hitems) as [Hsorted Hbound].
      split; [|exact Hseq]. split; [|split; [|split]]; simpl.
      * intros c Hc. apply Hconfig. congruence.
      * exact Hkeys.
      * split; intros _; [eauto|]. apply Htable. eauto.
      * intros ? [= <-]. split.
        -- now rewrite (update_row_same_id _ _ _ _ _ _ Hrel).
        -- apply Forall_forall. intros r' Hr'.
           assert (Hid : row_id r' ∈ row_id <$> rows') by (apply list_elem_of_fmap; eauto).
           rewrite (update_row_same_id _ _ _ _ _ _ Hrel) in Hid.
           apply list_elem_of_fmap in Hid as (r & -> & Hr).
           rewrite Forall_forall in Hbound. now apply Hbound.
    + unfold update_item in Hupd. rewrite Hcfg in Hupd. injection Hupd as _ <-.
      split; assumption.
  - unfold delete_item in Hdel. destruct (catalogue_items st) as [rows|] eqn:Hitems;
      [|discriminate].
    simpl in Hdel.
    destruct ((- 2 ^ 63 <=? item_id) && (item_id <? 2 ^ 63)); simpl in Hdel;
      [|discriminate].
    injection Hdel as _ <-. simpl.
    destruct (Hrows rows eq_refl) as [Hsorted Hbound].
    split; [|exact Hseq]. split; [|split; [|split]]; simpl.
    + exact Hconfig.
    + exact Hkeys.
    + split; intros _; [eauto|]. apply Htable. eauto.
    + intros ? [= <-]. split; [now apply sorted_ids_filter|].
      apply Forall_forall. intros r Hr. apply list_elem_of_filter in Hr as [_ Hr].
      rewrite Forall_forall in Hbound. now apply Hbound.
Qed.

(** Every store reached from a fresh database is well formed. *)
Lemma reachable_well_formed (st : Store) :
  reachable st -> well_formed st /\ 0 <= sqlite_sequence st.
Proof.
  induction 1 as [|st st' _ [IH Hseq] Hstep].
  - split; [|reflexivity]. split; [|split; [|split]]; simpl.
    + discriminate.
    + discriminate.
    + split; intros [? ?]; discriminate.
    + discriminate.
  - eapply step_well_formed; eauto.
Qed.


(** Deleting an id no row has returns false and leaves the table as it
    was. *)
Lemma delete_item_absent (st : Store) (rows : list Row) (item_id : Z) :
  catalogue_items st = Some rows ->
  - 2 ^ 63 <= item_id < 2 ^ 63 ->
  (forall r, r ∈ rows -> row_id r <> item_id) ->
  exists st', delete_item st item_id = Ok (false, st')
              /\ catalogue_items st' = Some rows.
Proof.
  intros Hitems Hid Hnone. unfold delete_item. rewrite Hitems.
  assert (Hrange : (- 2 ^ 63 <=? item_id) && (item_id <? 2 ^ 63) = true).
  { apply andb_true_iff. split; [apply Z.leb_le | apply Z.ltb_lt]; lia. }
  simpl. rewrite Hrange. simpl.
  rewrite (filter_all (fun r => row_id r <> item_id) rows Hnone).
  assert (Hf : filter (fun r => row_id r = item_id) rows = []).
  { clear Hitems. induction rows as [|r rows IH]; [reflexivity|].
    rewrite filter_cons_False by (apply Hnone; left).
    apply IH. intros r' Hr'. apply Hnone. now right. }
  rewrite Hf. eexists. split; reflexivity.
Qed.

End Invariant.

(** The scenario store with its row is reached from a fresh database. *)
Lemma scenario_store_reachable :
  reachable (platform := example_platform) scenario_store_with_row.
Proof.
  eapply reachable_step.
  - eapply reachable_step; [apply reachable_initial|].
    apply (step_create (platform := example_platform)
             initial_store "2024-01-01T09:00:00" scenario_config).
  - apply (step_add (platform := example_platform) scenario_store "2024-01-01T10:00:00"
             {[ "name"%string := PStr "Bolt" ]} 1 scenario_store_with_row).
    vm_compute. reflexivity.
Qed.


(** * Further properties of the code *)

(** ** The catalogue store: rows by id *)

Lemma filter_none {A} (P : A -> Prop) `{forall x, Decision (P x)} (l : list A) :
  (forall x, x ∈ l -> ~ P x) -> filter P l = [].
Proof.
  induction l as [|a l IH]; intros Hall; [reflexivity|].
  rewrite filter_cons_False by (apply Hall; left).
  apply IH. intros x Hx. apply Hall. now right.
Qed.


Section RowsById.
Context {platform : Platform}.



(** X2.  [delete_item] removes the row of the id and no other: afterwards
    [get_item_by_id] finds nothing under the id and what it found before
    under the others; it returns true exactly when a row had the id, and
    a call that returns false leaves the store as it was. *)
Theorem delete_item_removes_the_row (st st' : Store) (item_id : Z) (deleted : bool) :
  delete_item st item_id = Ok (deleted, st') ->
  get_item_by_id st' item_id = Ok None
  /\ (forall other, other <> item_id ->
        get_item_by_id st' other = get_item_by_id st other)
  /\ (deleted = true <-> exists r, get_item_by_id st item_id = Ok (Some r))
  /\ (deleted = false -> st' = st).
Proof.
  unfold delete_item, get_item_by_id. intros Hdel.
  destruct (catalogue_items st) as [rows|] eqn:Hitems; [|discriminate].
  destruct (Sql.bind_param (PInt item_id)) as [id_param|]; simpl in Hdel; [|discriminate].
  injection Hdel as <- <-. cbn [catalogue_items].
  split; [|split; [|split]].
  - simpl. rewrite filter_none; [reflexivity|].
    intros r Hr. apply list_elem_of_filter in Hr. tauto.
  - intros other Hne. destruct (Sql.bind_param (PInt other)); [|reflexivity]. simpl.
    do 2 f_equal. clear Hitems. induction rows as [|r rows IH]; [reflexivity|].
    destruct (decide (row_id r = item_id)) as [Heq|Hneq].
    + rewrite (filter_cons_False (fun r => row_id r <> item_id)) by tauto.
      rewrite (filter_cons_False (fun r => row_id r = other)) by congruence.
      exact IH.
    + rewrite (filter_cons_True (fun r => row_id r <> item_id)) by exact Hneq.
      destruct (decide (row_id r = other)).
      * rewrite !(filter_cons_True (fun r => row_id r = other)) by assumption.
        now rewrite IH.
      * rewrite !(filter_cons_False (fun r => row_id r = other)) by assumption.
        exact IH.
  - destruct (filter (fun r => row_id r = item_id) rows) as [|r found]; simpl.
    + split; [discriminate|]. intros [r Hr]. discriminate.
    + split; [|reflexivity]. intros _. now exists r.
  - intros Hcount. rewrite filter_all.
    + destruct st. simpl in *. now rewrite Hitems.
    + intros r Hr Heq.
      assert (Hin : r ∈ filter (fun r => row_id r = item_id) rows)
        by (apply list_elem_of_filter; tauto).
      destruct (filter (fun r => row_id r = item_id) rows); [inversion Hin|].
      discriminate.
Qed.


End RowsById.


(** The scenario: deleting the row "Bolt" empties the table. *)
Lemma delete_item_removes_the_row_witness :
  exists st',
    delete_item scenario_store_with_row 1 = Ok (true, st')
    /\ catalogue_items st' = Some []
    /\ get_item_by_id st' 1 = Ok None.
Proof.
  eexists. split; [vm_compute; reflexivity|]. split; [reflexivity|].
  eapply (delete_item_removes_the_row scenario_store_with_row _ 1 true).
  vm_compute. reflexivity.
Defined.


(** ** The catalogue store: sessions, keys *)

Section Sessions.
Context {platform : Platform}.

(** X5.  A catalogue outlives the session: a new manager on the database
    of a store reached from a fresh one lists nothing before it has
    loaded the configuration, and [load_catalogue_config] gives it the
    configuration and the state the earlier manager had. *)
Theorem reopen_load_restores (st : Store) (config : Config) :
  reachable st ->
  catalogue_config st = Some config ->
  get_all_items (reopen st) = Ok []
  /\ load_catalogue_config (reopen st) = (Some config, st).
Proof.
  intros Hreach Hcfg.
  destruct (reachable_well_formed st Hreach) as [(Hconfig & _) _].
  destruct (Hconfig config Hcfg) as (row & Hrow & Hname & Hcols).
  split; [reflexivity|].
  unfold load_catalogue_config, reopen. simpl. rewrite Hrow.
  destruct config as [cname ccols]. simpl in *. subst.
  destruct st. simpl in *. subst. reflexivity.
Qed.

Lemma add_item_values_insert_ne (columns : list ColumnDefinition)
  (item_data : gmap string PyVal) (key : string) (value : PyVal) (values : list PyVal) :
  key ∉ name <$> columns ->
  add_item_values columns (<[key := value]> item_data) values
  = add_item_values columns item_data values.
Proof.
  revert values. induction columns as [|col columns IH]; intros values Hkey; [reflexivity|].
  rewrite fmap_cons, not_elem_of_cons in Hkey. destruct Hkey as [Hne Hkey].
  simpl. unfold dict_get. rewrite lookup_insert_ne by exact Hne.
  destruct (_convert_value _ _); simpl; [|reflexivity]. now apply IH.
Qed.

Lemma update_item_clauses_insert_ne (columns : list ColumnDefinition)
  (item_data : gmap string PyVal) (key : string) (value : PyVal)
  (set_clauses : list string) (values : list PyVal) :
  key ∉ name <$> columns ->
  update_item_clauses columns (<[key := value]> item_data) set_clauses values
  = update_item_clauses columns item_data set_clauses values.
Proof.
  revert set_clauses values.
  induction columns as [|col columns IH]; intros set_clauses values Hkey; [reflexivity|].
  rewrite fmap_cons, not_elem_of_cons in Hkey. destruct Hkey as [Hne Hkey].
  simpl. rewrite lookup_insert_ne by exact Hne.
  destruct (item_data !! name col); [|now apply IH].
  destruct (_convert_value _ _); simpl; [|reflexivity]. now apply IH.
Qed.

(** X6.  A key of the mapping that is not the key of a defined column is
    ignored by [add_item] and by [update_item]: with or without it the
    call does the same. *)
Theorem undefined_keys_are_ignored (st : Store) (config : Config) (current_time : string)
  (item_id : Z) (item_data : gmap string PyVal) (key : string) (value : PyVal) :
  catalogue_config st = Some config ->
  key ∉ name <$> config_columns config ->
  add_item st current_time (<[key := value]> item_data)
  = add_item st current_time item_data
  /\ update_item st current_time item_id (<[key := value]> item_data)
     = update_item st current_time item_id item_data.
Proof.
  intros Hcfg Hkey. unfold add_item, update_item. rewrite Hcfg.
  rewrite add_item_values_insert_ne by exact Hkey.
  rewrite update_item_clauses_insert_ne by exact Hkey.
  split; reflexivity.
Qed.


End Sessions.

(** The scenario store, reopened and loaded. *)
Lemma reopen_load_restores_witness :
  get_all_items (reopen scenario_store_with_row) = Ok []
  /\ load_catalogue_config (reopen scenario_store_with_row)
     = (Some scenario_config, scenario_store_with_row).
Proof.
  apply (reopen_load_restores (platform := example_platform)
           scenario_store_with_row scenario_config scenario_store_reachable).
  reflexivity.
Defined.

(** The scenario: a key [colour] is not a column of the catalogue. *)
Lemma undefined_keys_are_ignored_witness :
  add_item (platform := example_platform) scenario_store "2024-01-01T10:00:00"
    (<[ "colour"%string := PStr "red" ]> {[ "name"%string := PStr "Bolt" ]})
  = add_item (platform := example_platform) scenario_store "2024-01-01T10:00:00"
      {[ "name"%string := PStr "Bolt" ]}
  /\ update_item (platform := example_platform) scenario_store "2024-01-01T10:00:00" 1
       (<[ "colour"%string := PStr "red" ]> {[ "name"%string := PStr "Bolt" ]})
     = update_item (platform := example_platform) scenario_store "2024-01-01T10:00:00" 1
         {[ "name"%string := PStr "Bolt" ]}.
Proof.
  apply (undefined_keys_are_ignored (platform := example_platform)
           scenario_store scenario_config).
  - reflexivity.
  - apply (bool_decide_unpack _). vm_compute. reflexivity.
Defined.


(** ** The listing after a change *)

Section Listing.
Context {platform : Platform}.



End Listing.


(** ** Search *)




Section SearchExtras.
Context {platform : Platform}.



(** X10.  In a store reached from a fresh database the rows [search_items]
    finds are rows of the listing of [get_all_items], in the order of the
    listing. *)
Theorem search_items_sublist_of_listing (st : Store) (now : Sql.clock)
  (search_term : string) (found : list Row) :
  reachable st ->
  search_items st now search_term = Ok found ->
  exists listed, get_all_items st = Ok listed /\ sublist found listed.
Proof.
  intros Hreach Hsearch.
  destruct (reachable_well_formed st Hreach) as [(Hconfig & _ & Htable & Hrows) _].
  unfold search_items in Hsearch. unfold get_all_items.
  destruct (catalogue_config st) as [config|] eqn:Hcfg.
  - destruct (Hconfig config eq_refl) as (row & Hrow & _).
    destruct (proj1 Htable) as [rows Hitems]; [rewrite Hrow; eauto|].
    rewrite Hitems in *. destruct (Hrows rows eq_refl) as [Hsorted _].
    exists rows. split; [now rewrite order_by_id_sorted|].
    destruct (name <$> filter _ (config_columns config)).
    + injection Hsearch as <-. apply sublist_nil_l.
    + destruct (existsb _ _); [discriminate|].
      destruct (Sql.max_expr_depth <=? _); [discriminate|].
      destruct (_ && _); [discriminate|].
      injection Hsearch as <-. rewrite order_by_id_sorted.
      * apply sublist_filter.
      * now apply sorted_ids_filter.
  - injection Hsearch as <-. exists []. split; [reflexivity|]. constructor.
Qed.

End SearchExtras.


(** The scenario: what the term "bolt" finds is part of the listing. *)
Lemma search_items_sublist_of_listing_witness :
  exists found listed,
    search_items (platform := example_platform) scenario_store_with_row example_clock "bolt"
    = Ok found
    /\ get_all_items scenario_store_with_row = Ok listed
    /\ sublist found listed.
Proof.
  assert (Hfound : exists found,
             search_items (platform := example_platform) scenario_store_with_row
               example_clock "bolt"
             = Ok found) by (eexists; vm_compute; reflexivity).
  destruct Hfound as (found & Hfound).
  destruct (search_items_sublist_of_listing (platform := example_platform)
              scenario_store_with_row example_clock "bolt" found
              scenario_store_reachable Hfound)
    as (listed & Hlisted & Hsub).
  exists found, listed. split; [exact Hfound|]. split; assumption.
Defined.

(** ** Integers and floats *)

Lemma digits2_pos_lower (p : positive) : 2 ^ (Zpos (digits2_pos p) - 1) <= Zpos p.
Proof.
  induction p as [p IH|p IH|]; simpl digits2_pos.
  - rewrite Pos2Z.inj_succ. replace (Z.succ (Zpos (digits2_pos p)) - 1)
      with (Z.succ (Zpos (digits2_pos p) - 1)) by lia.
    rewrite Z.pow_succ_r by lia. lia.
  - rewrite Pos2Z.inj_succ. replace (Z.succ (Zpos (digits2_pos p)) - 1)
      with (Z.succ (Zpos (digits2_pos p) - 1)) by lia.
    rewrite Z.pow_succ_r by lia. lia.
  - simpl. lia.
Qed.

Lemma digits2_pos_iter (p k : positive) :
  digits2_pos (Pos.iter xO p k) = (digits2_pos p + k)%positive.
Proof.
  induction k as [|k IH] using Pos.peano_ind.
  - simpl. lia.
  - rewrite Pos.iter_succ. simpl. rewrite IH. lia.
Qed.

Lemma Zpos_iter (p k : positive) : Zpos (Pos.iter xO p k) = Zpos p * 2 ^ Zpos k.
Proof.
  induction k as [|k IH] using Pos.peano_ind.
  - simpl. lia.
  - rewrite Pos.iter_succ, Pos2Z.inj_succ, Z.pow_succ_r by lia.
    rewrite Pos2Z.inj_xO, IH. lia.
Qed.

Lemma binary_round_aux_exact (s : bool) (m : positive) (e : Z) :
  Zpos (digits2_pos m) = 53 -> - 1074 <= e <= 971 ->
  binary_round_aux 53 1024 s (Zpos m) e loc_Exact = S754_finite s m e.
Proof.
  intros Hdigits He.
  assert (Hfexp : fexp 53 1024 (53 + e) - e = 0) by (unfold fexp, emin; lia).
  unfold binary_round_aux, shr_fexp. cbn [Zdigits2 shr_record_of_loc].
  rewrite Hdigits, Hfexp. cbn [shr shr_m loc_of_shr_record round_nearest_even Zdigits2
                              shr_record_of_loc].
  rewrite Hdigits, Hfexp. cbn [shr shr_m].
  destruct (Z.leb_spec e (1024 - 53)); [reflexivity|lia].
Qed.

Lemma binary_round_exact (s : bool) (p : positive) :
  Zpos p < 2 ^ 53 ->
  exists m e, binary_round 53 1024 s p 0 = S754_finite s m e
              /\ e <= 0 /\ Zpos m = Zpos p * 2 ^ (- e).
Proof.
  intros Hp. pose proof (digits2_pos_lower p) as Hlow.
  assert (Hd : Zpos (digits2_pos p) <= 53).
  { destruct (Z.le_gt_cases (Zpos (digits2_pos p)) 53) as [|Hgt]; [assumption|].
    assert (2 ^ 53 <= 2 ^ (Zpos (digits2_pos p) - 1)) by (apply Z.pow_le_mono_r; lia).
    lia. }
  unfold binary_round.
  assert (Hfexp : fexp 53 1024 (Zpos (digits2_pos p) + 0) = Zpos (digits2_pos p) - 53)
    by (unfold fexp, emin; lia).
  rewrite Hfexp. unfold shl_align. rewrite Z.sub_0_r.
  destruct (Zpos (digits2_pos p) - 53) as [|k|k] eqn:Hk; [| lia |].
  - exists p, 0. rewrite binary_round_aux_exact by lia.
    split; [reflexivity|]. split; [lia|]. simpl. lia.
  - exists (Pos.iter xO p k), (Zneg k). rewrite binary_round_aux_exact.
    + split; [reflexivity|]. split; [lia|]. rewrite Zpos_iter. reflexivity.
    + rewrite digits2_pos_iter. lia.
    + lia.
Qed.

Lemma shiftl_exact (m p : Z) (e : Z) :
  e <= 0 -> m = p * 2 ^ (- e) -> Z.shiftl m e = p.
Proof.
  intros He ->. replace e with (- - e) at 2 by lia.
  rewrite <- Z.shiftr_opp_r, Z.opp_involutive, Z.shiftr_div_pow2 by lia.
  apply Z.div_mul. apply Z.pow_nonzero; lia.
Qed.

(** Below 2^53 every integer is a float: [int(float(n))] is [n]. *)
Lemma round_Z_exact (n : Z) :
  Z.abs n < 2 ^ 53 ->
  exists f, Float.of_int n = Ok f /\ Float.to_int f = Ok n.
Proof.
  intros Hn. unfold Float.of_int, Float.round_Z, Float.prec, Float.emax, binary_normalize.
  destruct n as [|p|p].
  - eexists. split; reflexivity.
  - destruct (binary_round_exact false p) as (m & e & -> & He & Hm); [lia|].
    eexists. split; [reflexivity|]. simpl. now rewrite (shiftl_exact _ (Zpos p)).
  - destruct (binary_round_exact true p) as (m & e & -> & He & Hm); [lia|].
    eexists. split; [reflexivity|]. simpl. now rewrite (shiftl_exact _ (Zpos p)).
Qed.

(** ** Type mapper: the import path, the store and the export *)

Section TypeMapperExtras.
Context {platform : Platform}.

Lemma convert_excel_value_integer (column : ColumnDefinition) (n : Z) :
  data_type column = "number"%string ->
  Z.abs n < 2 ^ 53 ->
  _convert_excel_value (PInt n) column = Ok (PInt n)
  /\ _convert_excel_value (PFloat (Float.round_Z n)) column = Ok (PInt n).
Proof.
  intros Hty Hn. destruct (round_Z_exact n Hn) as (f & Hf & Hint).
  assert (Hround : Float.round_Z n = f).
  { unfold Float.of_int in Hf. destruct (Float.round_Z n); congruence. }
  unfold _convert_excel_value, convert_excel_attempt. rewrite Hty.
  split.
  - simpl. rewrite Hf. simpl. rewrite Hint. reflexivity.
  - rewrite Hround.
    assert (Hnan : Float.is_nan f = false) by (now destruct f).
    cbn [Py.isna Py.eq_empty Py.float bind]. rewrite Hnan, Hint. reflexivity.
Qed.

(** X11.  The import path keeps an integer of an integer column as it is
    when its magnitude is below 2^53, whether the cell delivers it as an
    integer or as the float of that integer; beyond, the float in between
    shows: 2^53 + 1 becomes 2^53. *)
Theorem import_keeps_integers_below_2_53 (column : ColumnDefinition) (n : Z) :
  data_type column = "number"%string ->
  Z.abs n < 2 ^ 53 ->
  _convert_excel_value (PInt n) column = Ok (PInt n)
  /\ _convert_excel_value (PFloat (Float.round_Z n)) column = Ok (PInt n)
  /\ _convert_excel_value (PInt (2 ^ 53 + 1)) column = Ok (PInt (2 ^ 53)).
Proof.
  intros Hty Hn. destruct (convert_excel_value_integer column n Hty Hn) as [Hint Hfloat].
  split; [exact Hint|]. split; [exact Hfloat|].
  unfold _convert_excel_value, convert_excel_attempt. rewrite Hty.
  vm_compute. reflexivity.
Qed.

(** X12.  What the import path makes of a cell, the store accepts: its
    coercion of an imported value does not raise, and a value the import
    path has converted itself is stored as it is, a boolean as 1 or 0 and
    the empty text as None. *)
Theorem imported_value_is_coerced_by_the_store (x : PyVal) (column : ColumnDefinition)
  (r : PyVal) :
  _convert_excel_value x column = Ok r ->
  (exists v, _convert_value r (data_type column) = Ok v)
  /\ (convert_excel_attempt x column = Ok r ->
      _convert_value r (data_type column) = Ok (as_stored r)).
Proof.
  intros Hr.
  assert (Hattempt : forall r', convert_excel_attempt x column = Ok r' ->
                                _convert_value r' (data_type column) = Ok (as_stored r')).
  { intros r' Ha. unfold convert_excel_attempt in Ha.
    unfold _convert_value, convert_value_attempt.
    destruct (String.eqb (data_type column) "number").
    { destruct (Py.float x) as [f|]; simpl in Ha; [|discriminate].
      destruct (Float.to_int f) as [n|]; simpl in Ha; [|discriminate].
      injection Ha as <-. reflexivity. }
    destruct (String.eqb (data_type column) "decimal").
    { destruct (Py.float x) as [f|]; simpl in Ha; [|discriminate].
      injection Ha as <-. reflexivity. }
    destruct (String.eqb (data_type column) "boolean").
    { destruct x; injection Ha as <-; simpl;
        repeat match goal with |- context [if ?b then _ else _] => destruct b end;
        reflexivity. }
    assert (Htext : forall s, r' = PStr s ->
              (if Py.is_none r' || Py.eq_empty r' then Ok PNone
               else except_value_type (Ok (PStr (Py.str r'))) (Ok r'))
              = Ok (as_stored r')).
    { intros s ->. destruct s; reflexivity. }
    destruct (String.eqb (data_type column) "date").
    - destruct (Py.isna x); [injection Ha as <-; eapply Htext; reflexivity|].
      destruct x; injection Ha as <-; eapply Htext; reflexivity.
    - injection Ha as <-. eapply Htext. reflexivity. }
  split; [|intros Ha; now apply Hattempt].
  assert (Hdefault : exists v,
             _convert_value (default_or_type_default column) (data_type column) = Ok v).
  { unfold default_or_type_default, _get_default_for_type, _convert_value,
      convert_value_attempt.
    destruct (default_value column) as [|c d] eqn:Hd; simpl Str.is_empty; cbv iota.
    - unfold type_defaults, literal_get.
      destruct (String.eqb "text" (data_type column)) eqn:E1;
        [apply String.eqb_eq in E1 as <-; eexists; reflexivity|].
      destruct (String.eqb "number" (data_type column)) eqn:E2;
        [apply String.eqb_eq in E2 as <-; eexists; reflexivity|].
      destruct (String.eqb "decimal" (data_type column)) eqn:E3;
        [apply String.eqb_eq in E3 as <-; eexists; reflexivity|].
      destruct (String.eqb "date" (data_type column)) eqn:E4;
        [apply String.eqb_eq in E4 as <-; eexists; reflexivity|].
      destruct (String.eqb "boolean" (data_type column)) eqn:E5;
        [apply String.eqb_eq in E5 as <-; eexists; reflexivity|].
      eexists. reflexivity.
    - simpl Py.is_none. simpl Py.eq_empty. cbv iota. simpl orb. cbv iota.
      destruct (String.eqb (data_type column) "number").
      { simpl. destruct (Literal.parse_int _); eexists; reflexivity. }
      destruct (String.eqb (data_type column) "decimal").
      { simpl. destruct (Literal.parse_float _); eexists; reflexivity. }
      destruct (String.eqb (data_type column) "boolean"); eexists; reflexivity. }
  unfold _convert_excel_value in Hr.
  destruct (Py.isna x || Py.eq_empty x); [injection Hr as <-; exact Hdefault|].
  destruct (convert_excel_attempt x column) as [r'|e] eqn:Ha.
  - simpl in Hr. injection Hr as <-. eexists. now apply Hattempt.
  - destruct e; simpl in Hr; try discriminate; injection Hr as <-; exact Hdefault.
Qed.

End TypeMapperExtras.

Section RoundTrip.
Context {platform : Platform}.

(** X13.  A value exported and imported again.  None and the empty text
    come back as the declared default, or as the zero value of the type
    (a NULL of an integer column as 0); an integer below 2^53 of an
    integer column and a float other than NaN of a decimal column come
    back as they are; a boolean or an integer of a boolean column comes
    back as its truth value; a text comes back stripped, and the text of
    a date column as it is. *)
Theorem export_import_value_round_trip (column : ColumnDefinition) :
  (forall v, Py.is_none v || Py.eq_empty v = true ->
             export_import_value v column = Ok (default_or_type_default column))
  /\ (data_type column = "number"%string ->
      forall n, Z.abs n < 2 ^ 53 -> export_import_value (PInt n) column = Ok (PInt n))
  /\ (data_type column = "decimal"%string ->
      forall f, Float.is_nan f = false ->
                export_import_value (PFloat f) column = Ok (PFloat f))
  /\ (data_type column = "boolean"%string ->
      forall v, (exists b, v = PBool b) \/ (exists n, v = PInt n) ->
                export_import_value v column = Ok (PBool (Py.truthy v)))
  /\ (data_type column = "text"%string ->
      forall s, s <> ""%string ->
                export_import_value (PStr s) column = Ok (PStr (Str.strip s)))
  /\ (data_type column = "date"%string ->
      forall s, s <> ""%string -> export_import_value (PStr s) column = Ok (PStr s)).
Proof.
  unfold export_import_value, _format_value_for_excel.
  split; [|split; [|split; [|split; [|split]]]].
  - intros v ->. reflexivity.
  - intros Hty n Hn. rewrite Hty. simpl.
    apply (convert_excel_value_integer column n Hty Hn).
  - intros Hty f Hnan. rewrite Hty. simpl.
    unfold _convert_excel_value, convert_excel_attempt. rewrite Hty. simpl.
    rewrite Hnan. reflexivity.
  - intros Hty v [[b ->] | [n ->]]; rewrite Hty; simpl.
    + unfold _convert_excel_value, convert_excel_attempt. rewrite Hty.
      destruct b; reflexivity.
    + unfold _convert_excel_value, convert_excel_attempt. rewrite Hty.
      destruct (n =? 0); reflexivity.
  - intros Hty s Hs. rewrite Hty. destruct s as [|c s]; [contradiction|]. simpl.
    unfold _convert_excel_value, convert_excel_attempt. rewrite Hty. reflexivity.
  - intros Hty s Hs. rewrite Hty. destruct s as [|c s]; [contradiction|]. simpl.
    unfold _convert_excel_value, convert_excel_attempt. rewrite Hty. reflexivity.
Qed.

End RoundTrip.

(** The scenario: an item without quantity is exported with an empty cell
    and read back with the declared default; the quantity 12 comes back
    as it is. *)
Lemma export_import_value_round_trip_witness :
  let qty := {| name := "qty"; display_name := "Quantity"; data_type := "number";
                required := false; default_value := "0" |} in
  export_import_value (platform := example_platform) PNone qty = Ok (PStr "0")
  /\ export_import_value (platform := example_platform) (PInt 12) qty = Ok (PInt 12).
Proof.
  intros qty.
  destruct (export_import_value_round_trip (platform := example_platform) qty)
    as (Hnone & Hint & _).
  split; [apply (Hnone PNone); reflexivity|].
  apply (Hint eq_refl 12). vm_compute. reflexivity.
Defined.

Section ColumnType.
Context {platform : Platform}.

(** X23.  The import path returns a value of the type of the column (an
    int for number, a float for decimal, a bool for boolean, a str for
    text, date and any other tag), or else the declared default of the
    column, as the text it is declared with. *)
Theorem import_value_has_column_type (x : PyVal) (column : ColumnDefinition) (r : PyVal) :
  _convert_excel_value x column = Ok r ->
  has_column_type (data_type column) r = true
  \/ (default_value column <> ""%string /\ r = PStr (default_value column)).
Proof.
  intros Hr.
  assert (Hdefault : has_column_type (data_type column) (default_or_type_default column) = true
                     \/ (default_value column <> ""%string
                         /\ default_or_type_default column = PStr (default_value column))).
  { unfold default_or_type_default.
    destruct (default_value column) as [|c d]; [left | right; split; [discriminate|reflexivity]].
    simpl. unfold _get_default_for_type, type_defaults, literal_get.
    destruct (String.eqb_spec "text" (data_type column)) as [<-|]; [reflexivity|].
    destruct (String.eqb_spec "number" (data_type column)) as [<-|]; [reflexivity|].
    destruct (String.eqb_spec "decimal" (data_type column)) as [<-|]; [reflexivity|].
    destruct (String.eqb_spec "date" (data_type column)) as [<-|]; [reflexivity|].
    destruct (String.eqb_spec "boolean" (data_type column)) as [<-|]; [reflexivity|].
    simpl.
    destruct (String.eqb_spec (data_type column) "number"); [congruence|].
    destruct (String.eqb_spec (data_type column) "decimal"); [congruence|].
    destruct (String.eqb_spec (data_type column) "boolean"); [congruence|].
    reflexivity. }
  unfold _convert_excel_value in Hr.
  destruct (Py.isna x || Py.eq_empty x); [injection Hr as <-; exact Hdefault|].
  destruct (convert_excel_attempt x column) as [r'|e] eqn:Ha.
  - simpl in Hr. injection Hr as <-. left. unfold convert_excel_attempt in Ha.
    destruct (String.eqb (data_type column) "number") eqn:E1.
    { destruct (Py.float x) as [f|]; simpl in Ha; [|discriminate].
      destruct (Float.to_int f) as [n|]; simpl in Ha; [|discriminate].
      injection Ha as <-. simpl. exact E1. }
    destruct (String.eqb (data_type column) "decimal") eqn:E2.
    { destruct (Py.float x) as [f|]; simpl in Ha; [|discriminate].
      injection Ha as <-. simpl. exact E2. }
    destruct (String.eqb (data_type column) "boolean") eqn:E3.
    { destruct x; injection Ha as <-; simpl; exact E3. }
    assert (Htext : forall s, has_column_type (data_type column) (PStr s) = true)
      by (intros s; simpl; now rewrite E1, E2, E3).
    destruct (String.eqb (data_type column) "date").
    + destruct (Py.isna x); [injection Ha as <-; apply Htext|].
      destruct x; injection Ha as <-; apply Htext.
    + injection Ha as <-. apply Htext.
  - destruct e; simpl in Hr; try discriminate; injection Hr as <-; exact Hdefault.
Qed.

End ColumnType.

(** The integer column [qty] of the scenario: the cell "7.0" is imported
    as an int, the empty cell as the declared default "0", a text. *)
Lemma import_value_has_column_type_witness :
  let qty := {| name := "qty"; display_name := "Quantity"; data_type := "number";
                required := false; default_value := "0" |} in
  _convert_excel_value (platform := example_platform) (PStr "7.0") qty = Ok (PInt 7)
  /\ (has_column_type "number" (PInt 7) = true
      \/ ("0"%string <> ""%string /\ PInt 7 = PStr "0")).
Proof.
  intros qty. split; [reflexivity|].
  apply (import_value_has_column_type (platform := example_platform) (PStr "7.0") qty).
  reflexivity.
Defined.

(** An integer column [qty]: 12 is kept, as the integer and as the float. *)
Lemma import_keeps_integers_below_2_53_witness :
  let qty := {| name := "qty"; display_name := "Quantity"; data_type := "number";
                required := false; default_value := "0" |} in
  _convert_excel_value (platform := example_platform) (PInt 12) qty = Ok (PInt 12)
  /\ _convert_excel_value (platform := example_platform) (PFloat (Float.round_Z 12)) qty
     = Ok (PInt 12)
  /\ _convert_excel_value (platform := example_platform) (PInt (2 ^ 53 + 1)) qty
     = Ok (PInt (2 ^ 53)).
Proof.
  apply (import_keeps_integers_below_2_53 (platform := example_platform)); [reflexivity|].
  vm_compute. reflexivity.
Defined.

(** A boolean column: the cell "Yes" is imported as True and stored as 1. *)
Lemma imported_value_is_coerced_by_the_store_witness :
  let flag := {| name := "in_stock"; display_name := "In stock"; data_type := "boolean";
                 required := false; default_value := "" |} in
  _convert_excel_value (platform := example_platform) (PStr "Yes") flag = Ok (PBool true)
  /\ _convert_value (platform := example_platform) (PBool true) "boolean" = Ok (PInt 1).
Proof.
  intros flag. split; [reflexivity|].
  apply (imported_value_is_coerced_by_the_store (platform := example_platform)
           (PStr "Yes") flag (PBool true)); reflexivity.
Defined.

(** ** Import of the rows *)

Lemma strip_cons_nonempty (c : ascii) (r : string) :
  Str.is_space c = false -> Str.strip (String c r) <> ""%string.
Proof.
  intros Hc. unfold Str.strip, Str.strip_with. simpl. rewrite Hc. simpl.
  destruct (Str.rstrip_with Str.is_space r); [rewrite Hc|]; discriminate.
Qed.

Lemma strip_of_Z_nonempty (n : Z) : Str.strip (Str.of_Z n) <> ""%string.
Proof.
  unfold Str.of_Z.
  destruct n as [|p|p]; simpl; [apply strip_cons_nonempty; reflexivity | |].
  - unfold NilZero.string_of_uint.
    destruct (Pos.to_uint p); simpl; apply strip_cons_nonempty; reflexivity.
  - apply strip_cons_nonempty. reflexivity.
Qed.

Section ImportRowsFacts.
Context {platform : Platform}.

Lemma import_item_lookup_notin (df_cols : list string) (row : list PyVal)
  (columns : list ColumnDefinition) (item0 item : gmap string PyVal) (key : string) :
  key ∉ name <$> columns ->
  import_item df_cols row columns item0 = Ok item ->
  item !! key = item0 !! key.
Proof.
  revert item0. induction columns as [|column columns IH]; intros item0 Hkey Hrun.
  - now injection Hrun as <-.
  - rewrite fmap_cons, not_elem_of_cons in Hkey. destruct Hkey as [Hne Hkey].
    simpl in Hrun. destruct (import_value df_cols row column) as [value|];
      simpl in Hrun; [|discriminate].
    rewrite (IH _ Hkey Hrun). now apply lookup_insert_ne.
Qed.

Lemma import_item_lookup (df_cols : list string) (row : list PyVal)
  (columns : list ColumnDefinition) (item0 item : gmap string PyVal)
  (column : ColumnDefinition) :
  NoDup (name <$> columns) ->
  column ∈ columns ->
  import_item df_cols row columns item0 = Ok item ->
  exists value, import_value df_cols row column = Ok value
                /\ item !! name column = Some value.
Proof.
  revert item0. induction columns as [|c columns IH]; intros item0 Hnd Hin Hrun.
  - now apply elem_of_nil in Hin.
  - rewrite fmap_cons in Hnd. apply NoDup_cons in Hnd as [Hfresh Hnd].
    simpl in Hrun. destruct (import_value df_cols row c) as [value|] eqn:Hvalue;
      simpl in Hrun; [|discriminate].
    apply elem_of_cons in Hin as [-> | Hin].
    + exists value. split; [exact Hvalue|].
      rewrite (import_item_lookup_notin _ _ _ _ _ _ Hfresh Hrun).
      apply lookup_insert_eq.
    + now apply (IH _ Hnd Hin Hrun).
Qed.

Lemma import_item_keys (df_cols : list string) (row : list PyVal)
  (columns : list ColumnDefinition) (item0 item : gmap string PyVal) :
  import_item df_cols row columns item0 = Ok item ->
  forall key, is_Some (item !! key) <-> is_Some (item0 !! key) \/ key ∈ name <$> columns.
Proof.
  revert item0. induction columns as [|c columns IH]; intros item0 Hrun key.
  - injection Hrun as <-. rewrite fmap_nil, elem_of_nil. tauto.
  - simpl in Hrun. destruct (import_value df_cols row c) as [value|];
      simpl in Hrun; [|discriminate].
    rewrite (IH _ Hrun key), fmap_cons, elem_of_cons, lookup_insert_is_Some.
    destruct (decide (name c = key)) as [->|Hne]; [tauto|]. split.
    + intros [[? | [_ ?]] | ?]; tauto.
    + intros [? | [? | ?]]; [left; right; tauto | congruence | tauto].
Qed.

Lemma import_item_raises (df_cols : list string) (row : list PyVal)
  (columns : list ColumnDefinition) (item0 : gmap string PyVal) :
  (exists e, import_item df_cols row columns item0 = Raise e)
  <-> exists column e, column ∈ columns /\ import_value df_cols row column = Raise e.
Proof.
  revert item0. induction columns as [|c columns IH]; intros item0; simpl.
  - split; [intros [e He]; discriminate|].
    intros (column & e & Hin & _). now apply elem_of_nil in Hin.
  - destruct (import_value df_cols row c) as [value|e] eqn:Hvalue; simpl.
    + rewrite IH. split.
      * intros (column & e & Hin & He). exists column, e. split; [now right | exact He].
      * intros (column & e & Hin & He). apply elem_of_cons in Hin as [-> | Hin];
          [congruence|]. eauto.
    + split; [|eauto]. intros _. exists c, e. split; [left | exact Hvalue].
Qed.

(** The loop over the rows keeps, in order, the items of the rows that
    pass [_is_valid_item]. *)
Lemma import_rows_run (columns : list ColumnDefinition) (df_cols : list string)
  (rows : list (list PyVal)) (acc items : list (gmap string PyVal)) :
  import_rows columns df_cols rows acc = Ok items ->
  exists all_items,
    Forall2 (fun row item => import_item df_cols row columns ∅ = Ok item) rows all_items
    /\ items = acc ++ filter (fun item => _is_valid_item columns item = true) all_items.
Proof.
  revert acc. induction rows as [|row rows IH]; intros acc Hrun.
  - injection Hrun as <-. exists []. split; [constructor|]. now rewrite app_nil_r.
  - simpl in Hrun. destruct (import_item df_cols row columns ∅) as [item|] eqn:Hitem;
      simpl in Hrun; [|discriminate].
    destruct (IH _ Hrun) as (all_items & Hall & ->).
    exists (item :: all_items). split; [now constructor|].
    destruct (_is_valid_item columns item) eqn:Hvalid.
    + rewrite filter_cons_True by exact Hvalid. now rewrite <- app_assoc.
    + rewrite filter_cons_False by congruence. reflexivity.
Qed.

Lemma import_rows_raises (columns : list ColumnDefinition) (df_cols : list string)
  (rows : list (list PyVal)) (acc : list (gmap string PyVal)) :
  (exists e, import_rows columns df_cols rows acc = Raise e)
  <-> exists row e, row ∈ rows /\ import_item df_cols row columns ∅ = Raise e.
Proof.
  revert acc. induction rows as [|row rows IH]; intros acc; simpl.
  - split; [intros [e He]; discriminate|].
    intros (row & e & Hin & _). now apply elem_of_nil in Hin.
  - destruct (import_item df_cols row columns ∅) as [item|e] eqn:Hitem; simpl.
    + rewrite IH. split.
      * intros (r & e & Hin & He). exists r, e. split; [now right | exact He].
      * intros (r & e & Hin & He). apply elem_of_cons in Hin as [-> | Hin];
          [congruence|]. eauto.
    + split; [|eauto]. intros _. exists row, e. split; [left | exact Hitem].
Qed.

Lemma import_from_excel_run (columns : list ColumnDefinition) (df : DataFrame)
  (items : list (gmap string PyVal)) :
  import_from_excel columns df = Ok items ->
  exists all_items,
    Forall2 (fun row item =>
               import_item
                 (rename (column_mapping (df_columns df) columns)
                    (Str.strip <$> df_columns df))
                 row columns ∅ = Ok item)
            (df_rows df) all_items
    /\ items = filter (fun item => _is_valid_item columns item = true) all_items.
Proof.
  unfold import_from_excel. intros Hrun.
  destruct (import_rows _ _ _ _) as [items'|] eqn:Hrows; [|discriminate].
  injection Hrun as <-. now apply import_rows_run in Hrows.
Qed.

(** X14.  What [import_from_excel] returns: the items of the rows that
    pass [_is_valid_item], in the order of the rows; each item has a value
    under the key of every column and under no other key. *)
Theorem import_from_excel_items (columns : list ColumnDefinition) (df : DataFrame)
  (items : list (gmap string PyVal)) :
  import_from_excel columns df = Ok items ->
  (exists all_items,
     Forall2 (fun row item =>
                import_item
                  (rename (column_mapping (df_columns df) columns)
                     (Str.strip <$> df_columns df))
                  row columns ∅ = Ok item)
             (df_rows df) all_items
     /\ items = filter (fun item => _is_valid_item columns item = true) all_items)
  /\ (length items <= length (df_rows df))%nat
  /\ forall item, item ∈ items ->
       forall key, is_Some (item !! key) <-> key ∈ name <$> columns.
Proof.
  intros Hrun. destruct (import_from_excel_run _ _ _ Hrun) as (all_items & Hall & ->).
  split; [eauto|]. split.
  - rewrite (Forall2_length _ _ _ Hall). apply length_filter.
  - intros item Hitem key. apply list_elem_of_filter in Hitem as [_ Hitem].
    destruct (proj1 (list_elem_of_lookup _ _) Hitem) as [i Hi].
    destruct (Forall2_lookup_r _ _ _ _ _ Hall Hi) as (row & _ & Hrow).
    rewrite (import_item_keys _ _ _ _ _ Hrow key), lookup_empty.
    split; [intros [[? ?] | ?]; [discriminate | assumption] | tauto].
Qed.

(** X15.  A column whose key no header bears after the renaming takes its
    declared default, or the zero value of its type, in every item. *)
Theorem unmapped_column_takes_default (columns : list ColumnDefinition) (df : DataFrame)
  (items : list (gmap string PyVal)) (column : ColumnDefinition) :
  import_from_excel columns df = Ok items ->
  NoDup (name <$> columns) ->
  column ∈ columns ->
  name column ∉ rename (column_mapping (df_columns df) columns)
                  (Str.strip <$> df_columns df) ->
  forall item, item ∈ items -> item !! name column = Some (default_or_type_default column).
Proof.
  intros Hrun Hnd Hcol Hunmapped item Hitem.
  destruct (import_from_excel_run _ _ _ Hrun) as (all_items & Hall & ->).
  apply list_elem_of_filter in Hitem as [_ Hitem].
  destruct (proj1 (list_elem_of_lookup _ _) Hitem) as [i Hi].
  destruct (Forall2_lookup_r _ _ _ _ _ Hall Hi) as (row & _ & Hrow).
  destruct (import_item_lookup _ _ _ _ _ _ Hnd Hcol Hrow) as (value & Hvalue & ->).
  unfold import_value in Hvalue. rewrite bool_decide_eq_false_2 in Hvalue by exact Hunmapped.
  now injection Hvalue as <-.
Qed.

(** X16.  [import_from_excel] raises exactly when, in some row, the value
    of some column raises: a cell whose conversion raises, or a key that
    several headers bear.  One such cell loses the whole sheet. *)
Theorem import_from_excel_raises_iff (columns : list ColumnDefinition) (df : DataFrame) :
  import_from_excel columns df = Raise (Exception_ "Error reading Excel file: ")
  <-> exists row column e,
        row ∈ df_rows df /\ column ∈ columns
        /\ import_value
             (rename (column_mapping (df_columns df) columns) (Str.strip <$> df_columns df))
             row column = Raise e.
Proof.
  unfold import_from_excel.
  set (df_cols := rename (column_mapping (df_columns df) columns)
                    (Str.strip <$> df_columns df)).
  pose proof (import_rows_raises columns df_cols (df_rows df) []) as Hrows.
  destruct (import_rows columns df_cols (df_rows df) []) as [items|e].
  - split; [discriminate|]. intros (row & column & e & Hrow & Hcol & He).
    destruct (proj2 (import_item_raises df_cols row columns ∅)) as [e' He']; [eauto|].
    destruct (proj2 Hrows) as [e'' He'']; [eauto|discriminate].
  - split; [|reflexivity]. intros _.
    destruct (proj1 Hrows) as (row & e' & Hrow & He'); [eauto|].
    destruct (proj1 (import_item_raises df_cols row columns ∅)) as (column & e'' & Hcol & He'');
      [eauto|].
    exists row, column, e''. split; [exact Hrow|]. split; assumption.
Qed.

Lemma import_value_filled (df_cols : list string) (row : list PyVal)
  (column : ColumnDefinition) (value : PyVal) :
  data_type column = "number"%string \/ data_type column = "boolean"%string ->
  default_value column = ""%string ->
  import_value df_cols row column = Ok value ->
  filled value = true.
Proof.
  intros Hty Hdefault Hvalue.
  assert (Hint : forall n, filled (PInt n) = true).
  { intros n. unfold filled. simpl.
    pose proof (strip_of_Z_nonempty n). now destruct (Str.strip (Str.of_Z n)). }
  assert (Hbool : forall b, filled (PBool b) = true) by (intros []; reflexivity).
  assert (Hd : exists v, default_or_type_default column = v /\ filled v = true).
  { unfold default_or_type_default. rewrite Hdefault. simpl.
    destruct Hty as [-> | ->]; eexists; (split; [reflexivity|]);
      [apply Hint | apply Hbool]. }
  destruct Hd as (d & Hd & Hfilled).
  assert (Hconv : forall raw, _convert_excel_value raw column = Ok value ->
                              filled value = true).
  { intros raw Hraw. unfold _convert_excel_value in Hraw. rewrite Hd in Hraw.
    destruct (Py.isna raw || Py.eq_empty raw); [now injection Hraw as <-|].
    destruct (convert_excel_attempt raw column) as [r|e] eqn:Ha.
    - simpl in Hraw. injection Hraw as <-. unfold convert_excel_attempt in Ha.
      destruct Hty as [Hty | Hty]; rewrite Hty in Ha; simpl in Ha.
      + destruct (Py.float raw) as [f|]; simpl in Ha; [|discriminate].
        destruct (Float.to_int f) as [n|]; simpl in Ha; [|discriminate].
        injection Ha as <-. apply Hint.
      + destruct raw; injection Ha as <-; apply Hbool.
    - destruct e; simpl in Hraw; try discriminate; now injection Hraw as <-. }
  unfold import_value in Hvalue. rewrite Hd in Hvalue.
  destruct (bool_decide _); [|now injection Hvalue as <-].
  destruct (row_cells df_cols row (name column)) as [|raw [|]]; try discriminate.
  destruct (Py.isna raw); [now injection Hvalue as <-|]. now apply (Hconv raw).
Qed.

(** X17.  When a required column of integer or boolean type has no
    declared default, no row is left out: the zero value the column takes
    for an empty cell counts as a filled required field, so a row of empty
    cells is imported too. *)
Theorem required_number_column_keeps_every_row (columns : list ColumnDefinition)
  (df : DataFrame) (items : list (gmap string PyVal)) (column : ColumnDefinition) :
  import_from_excel columns df = Ok items ->
  NoDup (name <$> columns) ->
  column ∈ columns ->
  required column = true ->
  data_type column = "number"%string \/ data_type column = "boolean"%string ->
  default_value column = ""%string ->
  length items = length (df_rows df).
Proof.
  intros Hrun Hnd Hcol Hreq Hty Hdefault.
  destruct (import_from_excel_run _ _ _ Hrun) as (all_items & Hall & ->).
  rewrite (Forall2_length _ _ _ Hall). f_equal. apply filter_all.
  intros item Hitem.
  destruct (proj1 (list_elem_of_lookup _ _) Hitem) as [i Hi].
  destruct (Forall2_lookup_r _ _ _ _ _ Hall Hi) as (row & _ & Hrow).
  destruct (import_item_lookup _ _ _ _ _ _ Hnd Hcol Hrow) as (value & Hvalue & Hlookup).
  apply (import_value_filled _ _ _ _ Hty Hdefault) in Hvalue.
  unfold _is_valid_item.
  assert (Hin : column ∈ filter (fun col => required col = true) columns)
    by (apply list_elem_of_filter; tauto).
  destruct (filter (fun col => required col = true) columns) as [|c cs] eqn:Hf;
    [now apply elem_of_nil in Hin|].
  apply existsb_exists. exists column. split; [now apply list_elem_of_In|].
  now rewrite Hlookup.
Qed.

End ImportRowsFacts.

(** The sheet with the quantity "inf": the import fails on that cell. *)
Lemma import_from_excel_raises_iff_witness :
  import_from_excel (platform := example_platform)
    (config_columns scenario_config) infinite_sheet
  = Raise (Exception_ "Error reading Excel file: ").
Proof.
  apply (import_from_excel_raises_iff (platform := example_platform)).
  exists [PStr "Bolt"; PStr "inf"],
    {| name := "qty"; display_name := "Quantity"; data_type := "number";
       required := false; default_value := "0" |}, OverflowError.
  split; [left|]. split; [right; left|]. vm_compute. reflexivity.
Defined.

(** The scenario sheet: the row "Bolt" is imported with both keys, the
    row of empty cells is left out. *)
Lemma import_from_excel_items_witness :
  exists items,
    import_from_excel (platform := example_platform)
      (config_columns scenario_config) scenario_sheet = Ok items
    /\ (length items <= 2)%nat
    /\ forall item, item ∈ items ->
         forall key, is_Some (item !! key) <-> key ∈ ["name"; "qty"]%string.
Proof.
  assert (Hrun : exists items,
             import_from_excel (platform := example_platform)
               (config_columns scenario_config) scenario_sheet = Ok items)
    by (eexists; vm_compute; reflexivity).
  destruct Hrun as (items & Hrun). exists items. split; [exact Hrun|].
  apply (import_from_excel_items (platform := example_platform)
           (config_columns scenario_config) scenario_sheet items Hrun).
Defined.

(** The sheet without quantities: [qty] takes its declared default "0". *)
Lemma unmapped_column_takes_default_witness :
  exists items,
    import_from_excel (platform := example_platform)
      (config_columns scenario_config) names_sheet = Ok items
    /\ forall item, item ∈ items -> item !! "qty"%string = Some (PStr "0").
Proof.
  assert (Hrun : exists items,
             import_from_excel (platform := example_platform)
               (config_columns scenario_config) names_sheet = Ok items)
    by (eexists; vm_compute; reflexivity).
  destruct Hrun as (items & Hrun). exists items. split; [exact Hrun|].
  apply (unmapped_column_takes_default (platform := example_platform)
           (config_columns scenario_config) names_sheet items
           {| name := "qty"; display_name := "Quantity"; data_type := "number";
              required := false; default_value := "0" |} Hrun).
  - apply (bool_decide_unpack _). vm_compute. reflexivity.
  - right. left.
  - apply (bool_decide_unpack _). vm_compute. reflexivity.
Defined.

(** The scenario sheet in a catalogue whose required column is the
    integer [qty]: the row of empty cells is imported as well. *)
Lemma required_number_column_keeps_every_row_witness :
  exists items,
    import_from_excel (platform := example_platform) counted_columns scenario_sheet
    = Ok items
    /\ length items = 2%nat.
Proof.
  assert (Hrun : exists items,
             import_from_excel (platform := example_platform) counted_columns scenario_sheet
             = Ok items)
    by (eexists; vm_compute; reflexivity).
  destruct Hrun as (items & Hrun). exists items. split; [exact Hrun|].
  apply (required_number_column_keeps_every_row (platform := example_platform)
           counted_columns scenario_sheet items
           {| name := "qty"; display_name := "Quantity"; data_type := "number";
              required := true; default_value := "" |} Hrun).
  - apply (bool_decide_unpack _). vm_compute. reflexivity.
  - right. left.
  - reflexivity.
  - left. reflexivity.
  - reflexivity.
Defined.

(** ** Headers: import and validation *)

Lemma exact_match_own (excel_cols : list string) (column : ColumnDefinition) (h : string) :
  NoDup (Str.lower <$> excel_cols) ->
  h ∈ excel_cols ->
  Str.lower h = Str.lower (display_name column) ->
  exact_match excel_cols column = Some h.
Proof.
  induction excel_cols as [|x l IH]; intros Hnd Hin Hh; [now apply elem_of_nil in Hin|].
  rewrite fmap_cons in Hnd. apply NoDup_cons in Hnd as [Hx Hnd]. simpl.
  destruct (String.eqb_spec (Str.lower x) (Str.lower (display_name column))) as [Heq|Hne].
  - apply elem_of_cons in Hin as [-> | Hin]; [reflexivity|].
    exfalso. apply Hx. rewrite Heq, <- Hh. apply list_elem_of_fmap. eauto.
  - apply elem_of_cons in Hin as [-> | Hin]; [contradiction|]. now apply IH.
Qed.

Lemma fold_insert_lookup_notin (columns : list ColumnDefinition)
  (m : gmap string string) (h : string) :
  h ∉ display_name <$> columns ->
  fold_left (fun m col => <[display_name col := name col]> m) columns m !! h = m !! h.
Proof.
  revert m. induction columns as [|c columns IH]; intros m Hh; [reflexivity|].
  rewrite fmap_cons, not_elem_of_cons in Hh. destruct Hh as [Hne Hh].
  simpl. rewrite IH by exact Hh. now apply lookup_insert_ne.
Qed.

Lemma fold_insert_lookup (columns : list ColumnDefinition) (m : gmap string string)
  (column : ColumnDefinition) :
  NoDup (display_name <$> columns) ->
  column ∈ columns ->
  fold_left (fun m col => <[display_name col := name col]> m) columns m
    !! display_name column = Some (name column).
Proof.
  revert m. induction columns as [|c columns IH]; intros m Hnd Hin;
    [now apply elem_of_nil in Hin|].
  rewrite fmap_cons in Hnd. apply NoDup_cons in Hnd as [Hc Hnd]. simpl.
  apply elem_of_cons in Hin as [-> | Hin]; [|now apply IH].
  rewrite fold_insert_lookup_notin by exact Hc. apply lookup_insert_eq.
Qed.

Lemma map_columns_own_labels (excel_cols : list string) (columns : list ColumnDefinition)
  (m : gmap string string) (u : list string) :
  (forall col, col ∈ columns -> matched_header excel_cols col = Some (display_name col)) ->
  fold_left (map_column excel_cols) columns (m, u)
  = (fold_left (fun m col => <[display_name col := name col]> m) columns m, u).
Proof.
  revert m. induction columns as [|c columns IH]; intros m Hown; [reflexivity|].
  simpl. rewrite (Hown c) by left. apply IH. intros col Hcol. apply Hown. now right.
Qed.

(** X18.  A sheet whose headers are the labels of the columns, when the
    labels carry no blanks around them and differ by more than letter
    case, is mapped back column by column: every label is renamed to the
    key of its own column, and no column is left unmapped. *)
Theorem labels_as_headers_map_to_their_columns (columns : list ColumnDefinition) :
  NoDup (Str.lower <$> (display_name <$> columns)) ->
  Forall (fun col => Str.strip (display_name col) = display_name col) columns ->
  snd (map_columns (Str.strip <$> (display_name <$> columns)) columns) = []
  /\ (forall column, column ∈ columns ->
        column_mapping (display_name <$> columns) columns !! display_name column
        = Some (name column))
  /\ rename (column_mapping (display_name <$> columns) columns)
       (Str.strip <$> (display_name <$> columns))
     = name <$> columns.
Proof.
  intros Hnd Hstripped.
  assert (Hheaders : Str.strip <$> (display_name <$> columns) = display_name <$> columns).
  { clear Hnd. induction Hstripped as [|c l Hc _ IH]; [reflexivity|].
    rewrite !fmap_cons, Hc, IH. reflexivity. }
  assert (Hlabels : NoDup (display_name <$> columns)) by (eapply NoDup_fmap_1; exact Hnd).
  assert (Hown : forall col, col ∈ columns ->
             matched_header (display_name <$> columns) col = Some (display_name col)).
  { intros col Hcol. unfold matched_header.
    rewrite (exact_match_own _ col (display_name col)); [reflexivity | exact Hnd | | reflexivity].
    apply list_elem_of_fmap. eauto. }
  unfold column_mapping, map_columns. rewrite Hheaders.
  rewrite (map_columns_own_labels _ _ _ _ Hown). simpl.
  split; [reflexivity|]. split.
  - intros column Hcol. now apply fold_insert_lookup.
  - unfold rename. rewrite <- list_fmap_compose. apply list_fmap_ext.
    intros i col Hi. simpl. rewrite fold_insert_lookup; [reflexivity | exact Hlabels |].
    eapply list_elem_of_lookup_2. exact Hi.
Qed.

(** The labels of the scenario catalogue as headers. *)
Lemma labels_as_headers_map_to_their_columns_witness :
  rename (column_mapping ["Name"; "Quantity"]%string (config_columns scenario_config))
    (Str.strip <$> ["Name"; "Quantity"]%string)
  = ["name"; "qty"]%string.
Proof.
  apply (labels_as_headers_map_to_their_columns (config_columns scenario_config)).
  - apply (bool_decide_unpack _). vm_compute. reflexivity.
  - repeat constructor.
Defined.

Lemma prefix_refl (s : string) : String.prefix s s = true.
Proof.
  induction s as [|c s IH]; [reflexivity|]. simpl.
  destruct (ascii_dec c c); [exact IH | contradiction].
Qed.

Lemma contains_refl (s : string) : Str.contains s s = true.
Proof. destruct s; simpl; [reflexivity|]. rewrite prefix_refl.
       destruct (ascii_dec a a); [reflexivity|contradiction]. Qed.

Lemma validate_match_partial (excel_cols : list string) (column : ColumnDefinition) :
  validate_match excel_cols column = partial_match excel_cols column.
Proof.
  induction excel_cols as [|h l IH]; [reflexivity|]. simpl. rewrite IH.
  destruct (String.eqb_spec (Str.lower h) (Str.lower (display_name column))) as [Heq|];
    [|reflexivity].
  rewrite Heq, contains_refl. reflexivity.
Qed.

Lemma matched_header_None (excel_cols : list string) (column : ColumnDefinition) :
  matched_header excel_cols column = None <-> partial_match excel_cols column = None.
Proof.
  unfold matched_header. destruct (exact_match excel_cols column) as [h|] eqn:Hexact;
    [|tauto].
  split; [discriminate|]. intros Hnone. exfalso.
  induction excel_cols as [|x l IH]; [discriminate|]. simpl in Hexact, Hnone.
  destruct (String.eqb_spec (Str.lower x) (Str.lower (display_name column))) as [Heq|].
  - rewrite Heq, contains_refl in Hnone. discriminate.
  - destruct (_ || _); [discriminate|]. now apply IH.
Qed.

Lemma validate_columns_fold (excel_cols : list string) (columns : list ColumnDefinition)
  (result : Report.t) :
  let result' := fold_left (validate_column excel_cols) columns result in
  Report.valid result' = Report.valid result
  /\ Report.missing_columns result'
     = Report.missing_columns result
       ++ (display_name <$>
           filter (fun c => required c = true /\ matched_header excel_cols c = None) columns)
  /\ Report.unmatched_columns result'
     = Report.unmatched_columns result
       ++ (display_name <$>
           filter (fun c => required c = false /\ matched_header excel_cols c = None) columns)
  /\ Report.excel_column <$> Report.matched_columns result'
     = (Report.excel_column <$> Report.matched_columns result)
       ++ omap (partial_match excel_cols) columns.
Proof.
  revert result. induction columns as [|c columns IH]; intros result; simpl.
  - rewrite !app_nil_r. tauto.
  - destruct (IH (validate_column excel_cols result c)) as (Hv & Hm & Hu & He).
    rewrite Hv, Hm, Hu, He. clear IH Hv Hm Hu He.
    unfold validate_column. rewrite validate_match_partial.
    destruct (partial_match excel_cols c) as [h|] eqn:Hp; simpl.
    + assert (Hsome : matched_header excel_cols c <> None)
        by (rewrite matched_header_None; congruence).
      rewrite !filter_cons_False by tauto. rewrite fmap_app, <- app_assoc. tauto.
    + apply matched_header_None in Hp.
      destruct (required c) eqn:Hreq; simpl.
      * rewrite filter_cons_True by tauto.
        rewrite filter_cons_False by (intros [? _]; congruence).
        rewrite fmap_cons, <- app_assoc. tauto.
      * rewrite filter_cons_False by (intros [? _]; congruence).
        rewrite filter_cons_True by tauto.
        rewrite fmap_cons, <- app_assoc. tauto.
Qed.

(** X19.  [validate_excel_format] and the import agree on which columns
    have a header: the columns reported missing are the required ones the
    import leaves unmapped, those reported unmatched the optional ones,
    and the sheet is valid exactly when every required column has a
    header.  The header reported for a column is the first that contains
    the label or is contained in it, also when a later header is equal to
    the label. *)
Theorem validate_excel_format_agrees_with_import (columns : list ColumnDefinition)
  (df : DataFrame) :
  let excel_cols := Str.strip <$> df_columns df in
  let result := validate_excel_format columns df in
  Report.missing_columns result
  = display_name <$>
    filter (fun c => required c = true /\ matched_header excel_cols c = None) columns
  /\ Report.unmatched_columns result
     = display_name <$>
       filter (fun c => required c = false /\ matched_header excel_cols c = None) columns
  /\ (Report.valid result = true <->
      forall c, c ∈ columns -> required c = true -> is_Some (matched_header excel_cols c))
  /\ Report.excel_column <$> Report.matched_columns result
     = omap (partial_match excel_cols) columns.
Proof.
  intros excel_cols result. subst result. unfold validate_excel_format.
  fold excel_cols.
  match goal with |- context [fold_left _ columns ?r0] =>
    destruct (validate_columns_fold excel_cols columns r0) as (Hv & Hm & Hu & He);
    set (r := fold_left (validate_column excel_cols) columns r0) in *
  end.
  simpl in Hv, Hm, Hu, He.
  assert (Hvalid : Report.missing_columns r = [] <->
            forall c, c ∈ columns -> required c = true ->
                      is_Some (matched_header excel_cols c)).
  { rewrite Hm. split.
    - intros Hnil c Hc Hreq.
      destruct (matched_header excel_cols c) eqn:Hmh; [eauto|]. exfalso.
      assert (Hin : c ∈ filter (fun c => required c = true
                                          /\ matched_header excel_cols c = None) columns)
        by (apply list_elem_of_filter; tauto).
      apply fmap_nil_inv in Hnil. rewrite Hnil in Hin. now apply elem_of_nil in Hin.
    - intros Hall. rewrite filter_none; [reflexivity|].
      intros c Hc [Hreq Hnone]. destruct (Hall c Hc Hreq) as [h Hh]. congruence. }
  destruct (Report.missing_columns r) as [|missing rest] eqn:Hmissing.
  - rewrite Hmissing. split; [exact Hm|]. split; [exact Hu|]. split; [|exact He].
    rewrite Hv. split; [intros _; now apply Hvalid | reflexivity].
  - simpl. split; [exact Hm|]. split; [exact Hu|]. split; [|exact He].
    split; [discriminate|]. intros Hall. apply Hvalid in Hall. discriminate.
Qed.

(** The sheet without quantities is valid for the scenario catalogue:
    its required column [Name] has a header, and [Quantity] is reported
    unmatched. *)
Lemma validate_excel_format_agrees_with_import_witness :
  Report.valid (validate_excel_format (config_columns scenario_config) names_sheet) = true
  /\ Report.unmatched_columns
       (validate_excel_format (config_columns scenario_config) names_sheet)
     = ["Quantity"]%string.
Proof.
  destruct (validate_excel_format_agrees_with_import
              (config_columns scenario_config) names_sheet) as (_ & Hunmatched & Hvalid & _).
  split.
  - apply Hvalid. intros c Hc Hreq. unfold scenario_config in Hc. simpl in Hc.
    rewrite !elem_of_cons, elem_of_nil in Hc.
    destruct Hc as [-> | [-> | []]]; [|discriminate]. vm_compute. eauto.
  - rewrite Hunmatched. vm_compute. reflexivity.
Defined.

(** ** The setup wizard *)

Lemma rstrip_with_idempotent (sp : ascii -> bool) (s : string) :
  Str.rstrip_with sp (Str.rstrip_with sp s) = Str.rstrip_with sp s.
Proof.
  induction s as [|c s IH]; [reflexivity|]. simpl.
  destruct (Str.rstrip_with sp s) as [|a r] eqn:Hr.
  - destruct (sp c) eqn:Hc; [reflexivity|]. simpl. now rewrite Hc.
  - simpl in *. now rewrite IH.
Qed.

Lemma lstrip_with_head (sp : ascii -> bool) (s : string) :
  match Str.lstrip_with sp s with
  | EmptyString => True
  | String c _ => sp c = false
  end.
Proof.
  induction s as [|c s IH]; [exact I|]. simpl.
  destruct (sp c) eqn:Hc; [exact IH | exact Hc].
Qed.

Lemma strip_idempotent (s : string) : Str.strip (Str.strip s) = Str.strip s.
Proof.
  unfold Str.strip, Str.strip_with.
  pose proof (lstrip_with_head Str.is_space s) as Hhead.
  destruct (Str.lstrip_with Str.is_space s) as [|c t]; [reflexivity|].
  assert (Hl : Str.lstrip_with Str.is_space (Str.rstrip_with Str.is_space (String c t))
               = Str.rstrip_with Str.is_space (String c t)).
  { cbn [Str.rstrip_with]. destruct (Str.rstrip_with Str.is_space t); rewrite ?Hhead;
      cbn [Str.lstrip_with]; rewrite Hhead; reflexivity. }
  rewrite Hl. apply rstrip_with_idempotent.
Qed.

Lemma lower_char_replace (c : ascii) :
  let c' := if Ascii.eqb (Str.lower_char c) " " then "_"%char else Str.lower_char c in
  Str.lower_char c' = c' /\ Ascii.eqb c' " " = false.
Proof.
  destruct c as [[] [] [] [] [] [] [] []]; split; reflexivity.
Qed.

Lemma sanitised_name_fixed (s : string) :
  let key := replace_space (Str.lower s) in
  Str.lower key = key /\ replace_space key = key.
Proof.
  induction s as [|c s [IHl IHr]]; [split; reflexivity|].
  destruct (lower_char_replace c) as [Hl Hr]. simpl in *.
  rewrite Hl, Hr, IHl, IHr. split; reflexivity.
Qed.

Lemma sanitised_name_nonempty (s : string) :
  s <> ""%string -> replace_space (Str.lower s) <> ""%string.
Proof. destruct s; [contradiction | discriminate]. Qed.

Lemma validate_columns_run (column_editors : list (string * ColumnEditor))
  (columns accepted : list ColumnDefinition) (column_names : gset string) :
  validate_columns column_editors columns column_names = inr accepted ->
  accepted = columns ++ (get_column_definition <$> (snd <$> column_editors))
  /\ Forall (fun editor => is_valid editor = true) (snd <$> column_editors)
  /\ NoDup (name <$> (get_column_definition <$> (snd <$> column_editors)))
  /\ (forall key, key ∈ name <$> (get_column_definition <$> (snd <$> column_editors)) ->
                  key ∉ column_names).
Proof.
  revert columns column_names.
  induction column_editors as [|[title editor] rest IH]; intros columns column_names Hrun.
  - injection Hrun as <-. rewrite app_nil_r. split; [reflexivity|].
    split; [constructor|]. split; [constructor|]. intros key Hkey.
    now apply elem_of_nil in Hkey.
  - cbn [validate_columns] in Hrun.
    destruct (is_valid editor) eqn:Hvalid; cbn [negb] in Hrun; [|discriminate].
    destruct (bool_decide (name (get_column_definition editor) ∈ column_names)) eqn:Hdup;
      [discriminate|].
    apply bool_decide_eq_false in Hdup.
    destruct (IH _ _ Hrun) as (-> & Hall & Hnd & Hfresh).
    rewrite !fmap_cons. cbn [snd]. split; [now rewrite <- app_assoc|].
    split; [now constructor|]. split.
    + apply NoDup_cons. split; [|exact Hnd].
      intros Hin. apply (Hfresh _ Hin). apply elem_of_union. left.
      now apply elem_of_singleton.
    + intros key Hkey. apply elem_of_cons in Hkey as [-> | Hkey]; [exact Hdup|].
      intros Hin. apply (Hfresh _ Hkey). apply elem_of_union. now right.
Qed.

Lemma create_catalogue_run (catalogue_name_input : string)
  (column_editors : list (string * ColumnEditor)) (reply_yes : bool) (config : Config) :
  create_catalogue catalogue_name_input column_editors reply_yes = Accepted config ->
  config_name config = Str.strip catalogue_name_input
  /\ config_name config <> ""%string
  /\ config_columns config = get_column_definition <$> (snd <$> column_editors)
  /\ Forall (fun editor => is_valid editor = true) (snd <$> column_editors)
  /\ NoDup (name <$> config_columns config)
  /\ (existsb required (config_columns config) = true \/ reply_yes = true).
Proof.
  unfold create_catalogue. intros Hrun.
  destruct (Str.strip catalogue_name_input) as [|c s] eqn:Hname; [discriminate|].
  simpl in Hrun.
  destruct (validate_columns column_editors [] ∅) as [message|columns] eqn:Hcols;
    [discriminate|].
  apply validate_columns_run in Hcols as (-> & Hall & Hnd & _). simpl in Hrun.
  destruct (existsb required _) eqn:Hreq; simpl in Hrun.
  - injection Hrun as <-. simpl. rewrite Hreq.
    split; [reflexivity|]. split; [discriminate|]. split; [reflexivity|].
    split; [exact Hall|]. split; [exact Hnd|]. now left.
  - destruct reply_yes; simpl in Hrun; [|discriminate].
    injection Hrun as <-. simpl.
    split; [reflexivity|]. split; [discriminate|]. split; [reflexivity|].
    split; [exact Hall|]. split; [exact Hnd|]. now right.
Qed.

Lemma wizard_keys (column_editors : list ColumnEditor) :
  Forall (fun editor => is_valid editor = true) column_editors ->
  Forall (fun col => name col <> ""%string
                     /\ display_name col <> ""%string
                     /\ Str.lower (name col) = name col
                     /\ replace_space (name col) = name col
                     /\ Str.strip (display_name col) = display_name col)
         (get_column_definition <$> column_editors).
Proof.
  intros Hall. apply Forall_fmap. eapply Forall_impl; [exact Hall|].
  intros editor Hvalid. unfold is_valid in Hvalid.
  apply andb_true_iff in Hvalid as [Hname Hlabel].
  unfold get_column_definition. simpl.
  destruct (sanitised_name_fixed (Str.strip (name_input editor))) as [Hl Hr].
  split; [|split; [|split; [|split]]].
  - apply sanitised_name_nonempty. now destruct (Str.strip (name_input editor)).
  - now destruct (Str.strip (display_name_input editor)).
  - exact Hl.
  - exact Hr.
  - apply strip_idempotent.
Qed.

(** X20.  The configuration the wizard accepts: the catalogue has a name;
    the columns are those of the editors, in order; no two share a key;
    every key and every label is filled, a key holds no space and no
    capital letter, and a label no blanks around it; and some column is
    required unless the user has answered Yes to going on without. *)
Theorem create_catalogue_accepts_distinct_keys (catalogue_name_input : string)
  (column_editors : list (string * ColumnEditor)) (reply_yes : bool) (config : Config) :
  create_catalogue catalogue_name_input column_editors reply_yes = Accepted config ->
  config_name config = Str.strip catalogue_name_input
  /\ config_name config <> ""%string
  /\ config_columns config = get_column_definition <$> (snd <$> column_editors)
  /\ NoDup (name <$> config_columns config)
  /\ Forall (fun col => name col <> ""%string
                        /\ display_name col <> ""%string
                        /\ Str.lower (name col) = name col
                        /\ replace_space (name col) = name col
                        /\ Str.strip (display_name col) = display_name col)
            (config_columns config)
  /\ (existsb required (config_columns config) = true \/ reply_yes = true).
Proof.
  intros Hrun.
  destruct (create_catalogue_run _ _ _ _ Hrun) as (Hname & Hfilled & Hcols & Hall & Hnd & Hreq).
  split; [exact Hname|]. split; [exact Hfilled|]. split; [exact Hcols|].
  split; [exact Hnd|]. split; [|exact Hreq].
  rewrite Hcols. now apply wizard_keys.
Qed.

(** X21.  The store creates the catalogue the wizard accepts when no key
    is [id], [created_date] or [modified_date] and the database executes
    the statement: the wizard's check of the keys leaves no two column
    names equal, letter case set aside. *)
Theorem create_catalogue_structure_of_wizard {platform : Platform}
  (catalogue_name_input : string) (column_editors : list (string * ColumnEditor))
  (reply_yes : bool) (config : Config) (st : Store) (current_time : string) :
  create_catalogue catalogue_name_input column_editors reply_yes = Accepted config ->
  (forall col, col ∈ config_columns config ->
               name col ∉ ["id"; "created_date"; "modified_date"]%string) ->
  accepts_ddl (_generate_table_sql (config_columns config)) = true ->
  distinct_column_names (config_columns config) = true
  /\ exists st', create_catalogue_structure st current_time config = (true, st')
                 /\ Configured st' config [].
Proof.
  intros Hrun Hreserved Hddl.
  destruct (create_catalogue_run _ _ _ _ Hrun) as (_ & _ & Hcols & Hall & Hnd & _).
  pose proof (wizard_keys _ Hall) as Hkeys. rewrite <- Hcols in Hkeys.
  assert (Hlower : Str.lower <$> (name <$> config_columns config)
                   = name <$> config_columns config).
  { clear -Hkeys. induction Hkeys as [|c l (_ & _ & Hl & _) _ IH]; [reflexivity|].
    rewrite !fmap_cons, Hl, IH. reflexivity. }
  assert (Hdistinct : distinct_column_names (config_columns config) = true).
  { unfold distinct_column_names, table_columns. apply bool_decide_eq_true.
    rewrite fmap_cons, fmap_app, Hlower. simpl.
    apply NoDup_cons. split.
    - rewrite elem_of_app. intros [Hin | Hin].
      + apply list_elem_of_fmap in Hin as (col & Heq & Hcol).
        apply (Hreserved col Hcol). rewrite <- Heq. left.
      + rewrite !elem_of_cons, elem_of_nil in Hin.
        destruct Hin as [? | [? | []]]; discriminate.
    - apply NoDup_app. split; [exact Hnd|]. split.
      + intros key Hin Hin'. apply list_elem_of_fmap in Hin as (col & -> & Hcol).
        apply (Hreserved col Hcol). now right.
      + apply (bool_decide_unpack _). vm_compute. reflexivity. }
  split; [exact Hdistinct|].
  unfold create_catalogue_structure. rewrite Hdistinct, Hddl. simpl.
  eexists. split; [reflexivity|].
  split; [reflexivity|]. split; [reflexivity|]. now apply distinct_column_names_keys.
Qed.

(** The wizard filled in for the scenario: it accepts the scenario
    catalogue. *)
Lemma create_catalogue_accepts_distinct_keys_witness :
  create_catalogue "Parts" scenario_editors false = Accepted scenario_config
  /\ NoDup (name <$> config_columns scenario_config).
Proof.
  split; [reflexivity|].
  apply (create_catalogue_accepts_distinct_keys "Parts" scenario_editors false
           scenario_config eq_refl).
Defined.

(** The catalogue of the wizard is created in a fresh database. *)
Lemma create_catalogue_structure_of_wizard_witness :
  exists st',
    create_catalogue_structure (platform := example_platform) initial_store
      "2024-01-01T09:00:00" scenario_config = (true, st')
    /\ Configured st' scenario_config [].
Proof.
  apply (create_catalogue_structure_of_wizard (platform := example_platform)
           "Parts" scenario_editors false scenario_config initial_store
           "2024-01-01T09:00:00" eq_refl).
  - intros col Hcol. unfold scenario_config in Hcol. simpl in Hcol.
    rewrite !elem_of_cons, elem_of_nil in Hcol.
    destruct Hcol as [-> | [-> | []]]; apply (bool_decide_unpack _); vm_compute;
      reflexivity.
  - reflexivity.
Defined.

(** ** The import loop of the window *)

Section ImportLoopFacts.
Context {platform : Platform}.



End ImportLoopFacts.

